(** * Atlas admin panel: a shallow embedding of [atlas-admin.js]

    The script drives a four-tab admin page: it checks the session, switches
    tabs, fetches and renders lists, and posts create/update actions.  The
    embedding follows the script function by function.

    - JavaScript strings are modelled as Rocq strings read as UTF-8 bytes
      (lone surrogates are outside the model).
    - A parsed JSON body is a [json] value; numbers are integers.
    - The page is a store from element ids to elements; the network, the
      [confirm] dialog, the date formatter and the engine's error texts are
      supplied by a [browser] record.
    - An [async] function is a state-passing computation over a [world] that
      either returns normally or throws; an [await] is sequencing. *)

From Stdlib Require Import ZArith String Ascii List Lia.
From stdpp Require Import base option gmap strings list fin_maps pretty.

Open Scope string_scope.
Open Scope list_scope.

(** ** Strings *)

Module Str.

(** The templates of the script are full of double quotes.  They are written
    here with [@] in place of each double quote (the script itself contains no
    [@]); [lit] puts the quotes back. *)
Definition dquote : ascii := "034"%char.

Fixpoint lit (s : string) : string :=
  match s with
  | EmptyString => EmptyString
  | String c r => String (if Ascii.eqb c "@"%char then dquote else c) (lit r)
  end.

(** [xs.join(sep)] on a list of strings. *)
Fixpoint join (sep : string) (xs : list string) : string :=
  match xs with
  | [] => ""
  | [x] => x
  | x :: r => x +:+ sep +:+ join sep r
  end.

(** [xs.join("")]. *)
Definition concat (xs : list string) : string := fold_right String.append "" xs.

(** A template literal: its literal pieces [lits], with the values of its
    [${...}] holes put between them. *)
Fixpoint fill (lits holes : list string) : string :=
  match lits with
  | [] => ""
  | l :: ls =>
      match holes with
      | [] => l +:+ fill ls []
      | h :: hs => l +:+ h +:+ fill ls hs
      end
  end.

Fixpoint drop (n : nat) (s : string) : string :=
  match n, s with
  | O, _ => s
  | S _, EmptyString => EmptyString
  | S m, String _ r => drop m r
  end.

(** [s.replaceAll(c, by)] for a one-character pattern. *)
Fixpoint replaceAll (c : ascii) (by_ : string) (s : string) : string :=
  match s with
  | EmptyString => EmptyString
  | String a r =>
      if Ascii.eqb a c then by_ +:+ replaceAll c by_ r
      else String a (replaceAll c by_ r)
  end.

(** [contains p s]: [p] occurs in [s] as a contiguous substring. *)
Fixpoint contains (p s : string) : bool :=
  String.prefix p s || match s with
                       | EmptyString => false
                       | String _ r => contains p r
                       end.

(** *** [String.prototype.trim]

    ECMAScript white space and line terminators, as UTF-8 byte sequences:
    TAB, LF, VT, FF, CR, SP, U+00A0, U+1680, U+2000..U+200A, U+2028, U+2029,
    U+202F, U+205F, U+3000, U+FEFF. *)
Definition bytes (l : list nat) : string :=
  fold_right (fun n s => String (ascii_of_nat n) s) EmptyString l.

Definition white_space : list string :=
  Eval cbv in
    map bytes
      ([ [9]; [10]; [11]; [12]; [13]; [32]; [194; 160]; [225; 154; 128] ]
       ++ map (fun n => [226; 128; n]) (seq 128 11)
       ++ [ [226; 128; 168]; [226; 128; 169]; [226; 128; 175];
            [226; 129; 159]; [227; 128; 128]; [239; 187; 191] ]).

(** The first white-space sequence that starts [s], if any. *)
Definition leading_ws (s : string) : option string :=
  find (fun t => String.prefix t s) white_space.

Fixpoint trimStart_fuel (fuel : nat) (s : string) : string :=
  match fuel with
  | O => s
  | S f =>
      match leading_ws s with
      | Some t => trimStart_fuel f (drop (String.length t) s)
      | None => s
      end
  end.

Definition trimStart (s : string) : string := trimStart_fuel (String.length s) s.

Definition rev (s : string) : string :=
  string_of_list_ascii (List.rev (list_ascii_of_string s)).

(** The first white-space sequence that ends [s], if any. *)
Definition trailing_ws (s : string) : option string :=
  find (fun t => String.prefix (rev t) (rev s)) white_space.

Fixpoint trimEnd_fuel (fuel : nat) (s : string) : string :=
  match fuel with
  | O => s
  | S f =>
      match trailing_ws s with
      | Some t => trimEnd_fuel f (rev (drop (String.length t) (rev s)))
      | None => s
      end
  end.

Definition trimEnd (s : string) : string := trimEnd_fuel (String.length s) s.

Definition trim (s : string) : string := trimEnd (trimStart s).

(** *** [encodeURIComponent] *)
Definition hex_digit (upper : bool) (n : nat) : ascii :=
  if Nat.ltb n 10 then ascii_of_nat (48 + n)
  else ascii_of_nat ((if upper then 55 else 87) + n).

Definition uri_unreserved (c : ascii) : bool :=
  let n := nat_of_ascii c in
  (Nat.leb 65 n && Nat.leb n 90) || (Nat.leb 97 n && Nat.leb n 122)
  || (Nat.leb 48 n && Nat.leb n 57)
  || existsb (Ascii.eqb c) (list_ascii_of_string "-_.!~*'()").

Fixpoint encodeURIComponent (s : string) : string :=
  match s with
  | EmptyString => EmptyString
  | String c r =>
      if uri_unreserved c then String c (encodeURIComponent r)
      else
        let n := nat_of_ascii c in
        String "%"%char
          (String (hex_digit true (n / 16))
             (String (hex_digit true (n mod 16)) (encodeURIComponent r)))
  end.

End Str.

(** ** JavaScript values *)

#[local] Set Warnings "-register-all".

(** A parsed JSON value.  Numbers are integers that JavaScript holds and
    prints exactly, of magnitude below 2^53 (fractions, exponents and larger
    integers are outside the model); an object lists its properties in
    enumeration order, each key once, and has no [toString] of its own. *)
Inductive json : Type :=
| JNull
| JBool (b : bool)
| JNum (n : Z)
| JStr (s : string)
| JArr (items : list json)
| JObj (fields : list (string * json)).

(** A JavaScript value as the script meets it: [None] is [undefined]. *)
Abbreviation jsval := (option json).
Abbreviation undefined := (@None json).

(** Why the engine raised a [TypeError]. *)
Inductive type_error : Type :=
| NullishRead (key : string)       (* property read on [null] or [undefined] *)
| NullishWrite (key : string)      (* property write on [null] *)
| NotCallable (what : string)      (* call of something that is no function *)
| NetworkFailure (message : string). (* [fetch] rejected *)

Inductive exn : Type :=
| Error (message : string)         (* [new Error(message)] of the script *)
| TypeError (why : type_error)
| SyntaxError (message : string).  (* [response.json()] on a malformed body *)

(** How an evaluation ends. *)
Inductive completion (A : Type) : Type :=
| Normal (a : A)
| Throw (e : exn).
Arguments Normal {A} a.
Arguments Throw {A} e.

#[global] Instance completion_ret : MRet completion := fun A a => Normal a.
#[global] Instance completion_bind : MBind completion :=
  fun A B f m => match m with Normal a => f a | Throw e => Throw e end.

Module Value.

Definition truthy (v : jsval) : bool :=
  match v with
  | None | Some JNull => false
  | Some (JBool b) => b
  | Some (JNum n) => negb (Z.eqb n 0)
  | Some (JStr s) => negb (String.eqb s "")
  | Some (JArr _) | Some (JObj _) => true
  end.

(** [a || b]. *)
Definition or_else (a b : jsval) : jsval := if truthy a then a else b.

(** [ToString], the conversion a template literal applies to [${v}]. *)
Fixpoint to_string (j : json) : string :=
  match j with
  | JNull => "null"
  | JBool true => "true"
  | JBool false => "false"
  | JNum n => pretty n
  | JStr s => s
  | JArr l =>
      Str.join "," (map (fun x => match x with JNull => "" | _ => to_string x end) l)
  | JObj _ => "[object Object]"
  end.

Definition ToString (v : jsval) : string :=
  match v with
  | None => "undefined"
  | Some j => to_string j
  end.

Fixpoint assoc (k : string) (fs : list (string * json)) : jsval :=
  match fs with
  | [] => None
  | (k', v) :: r => if String.eqb k k' then Some v else assoc k r
  end.

(** [v.k] for the property names the script reads: none of them is a
    property of a primitive or of an array. *)
Definition prop (v : jsval) (k : string) : completion jsval :=
  match v with
  | None | Some JNull => Throw (TypeError (NullishRead k))
  | Some (JObj fs) => Normal (assoc k fs)
  | Some _ => Normal None
  end.

(** [x === s] for a string [s]. *)
Definition strict_eq_string (s : string) (v : jsval) : bool :=
  match v with
  | Some (JStr t) => String.eqb s t
  | _ => false
  end.

(** *** [JSON.stringify] *)
Definition escape_char (c : ascii) : string :=
  let n := nat_of_ascii c in
  if Nat.eqb n 34 then "\" +:+ String Str.dquote ""
  else if Nat.eqb n 92 then "\\"
  else if Nat.eqb n 8 then "\b"
  else if Nat.eqb n 9 then "\t"
  else if Nat.eqb n 10 then "\n"
  else if Nat.eqb n 12 then "\f"
  else if Nat.eqb n 13 then "\r"
  else if Nat.ltb n 32 then
    "\u00" +:+ String (Str.hex_digit false (n / 16))
                 (String (Str.hex_digit false (n mod 16)) "")
  else String c "".

Fixpoint escape (s : string) : string :=
  match s with
  | EmptyString => EmptyString
  | String c r => escape_char c +:+ escape r
  end.

Definition quote (s : string) : string :=
  String Str.dquote (escape s +:+ String Str.dquote "").

(** [JSON.stringify(v)]. *)
Fixpoint stringify (v : json) : string :=
  match v with
  | JNull => "null"
  | JBool true => "true"
  | JBool false => "false"
  | JNum n => pretty n
  | JStr s => quote s
  | JArr l => "[" +:+ Str.join "," (map stringify l) +:+ "]"
  | JObj fs =>
      "{" +:+ Str.join "," (map (fun kv => quote (fst kv) +:+ ":" +:+ stringify (snd kv)) fs)
          +:+ "}"
  end.

Definition newline : string := String (ascii_of_nat 10) "".

(** [JSON.stringify(v, null, 2)] at the current indentation. *)
Fixpoint stringify_indented (indent : string) (v : json) : string :=
  let inner := indent +:+ "  " in
  let sep := "," +:+ newline +:+ inner in
  match v with
  | JArr [] => "[]"
  | JArr l =>
      "[" +:+ newline +:+ inner
          +:+ Str.join sep (map (stringify_indented inner) l)
          +:+ newline +:+ indent +:+ "]"
  | JObj [] => "{}"
  | JObj fs =>
      "{" +:+ newline +:+ inner
          +:+ Str.join sep
                (map (fun kv => quote (fst kv) +:+ ": " +:+ stringify_indented inner (snd kv)) fs)
          +:+ newline +:+ indent +:+ "}"
  | _ => stringify v
  end.

Definition stringify_pretty (v : json) : string := stringify_indented "" v.

(** [JSON.stringify(v, null, 2)] of a value that may be [undefined]; the
    template literal then prints the word. *)
Definition stringify_pretty_val (v : jsval) : string :=
  match v with
  | None => "undefined"
  | Some j => stringify_pretty j
  end.

(** The name and the message of an exception, and [String(e)]. *)
Definition exn_name (e : exn) : string :=
  match e with
  | Error _ => "Error"
  | TypeError _ => "TypeError"
  | SyntaxError _ => "SyntaxError"
  end.

Section WithEngineTexts.
(** The text of an engine-raised [TypeError] differs between engines. *)
Variable type_error_text : type_error -> string.

Definition exn_message (e : exn) : string :=
  match e with
  | Error m => m
  | TypeError (NetworkFailure m) => m
  | TypeError why => type_error_text why
  | SyntaxError m => m
  end.

(** [Error.prototype.toString]. *)
Definition String_exn (e : exn) : string :=
  let m := exn_message e in
  if String.eqb m "" then exn_name e else exn_name e +:+ ": " +:+ m.
End WithEngineTexts.

End Value.

(** ** The page and its environment *)

(** A chosen file of a file input. *)
Record file : Type := { file_name : string; file_bytes : string }.

Inductive form_entry : Type :=
| Field (text : string)
| Upload (f : file).

(** The [body] of a request: none, a text, or a [FormData]. *)
Inductive payload : Type :=
| NoBody
| Text (s : string)
| Form (entries : list (string * form_entry)).

(** The second argument of [fetch]. *)
Record options : Type :=
  { method : option string; headers : list (string * string); body : payload }.

(** [{}]: the browser then issues a GET. *)
Definition no_options : options := {| method := None; headers := []; body := NoBody |}.

Record request : Type := { url : string; opts : options }.

(** A response: its status and how [response.json()] completes. *)
Record response : Type := { status : Z; json_result : completion json }.

(** [response.ok]: the status is in the range 200..299. *)
Definition ok (r : response) : bool := (200 <=? status r)%Z && (status r <=? 299)%Z.

Inductive fetch_outcome : Type :=
| Rejected (message : string)      (* network failure *)
| Resolved (r : response).

(** What the page does that can be observed from outside, in order. *)
Inductive event : Type :=
| Fetched (r : request)
| Confirmed (message : string) (answer : bool)
| Alerted (message : string)
| Unhandled (e : exn).             (* rejection of a call nobody awaits *)

(** An element of the page, as far as the script touches it: [innerHTML],
    [value], [style.display], and the [files] of a file input. *)
Record element : Type :=
  { innerHTML : string; value : string; display : string; files : list file }.

Definition blank : element :=
  {| innerHTML := ""; value := ""; display := ""; files := [] |}.
Definition input (v : string) : element :=
  {| innerHTML := ""; value := v; display := ""; files := [] |}.
Definition with_innerHTML (html : string) (e : element) : element :=
  {| innerHTML := html; value := value e; display := display e; files := files e |}.
Definition with_display (d : string) (e : element) : element :=
  {| innerHTML := innerHTML e; value := value e; display := d; files := files e |}.

(** The state of the page: the elements that have an id, the address
    ([window.location.href]) and what happened so far. *)
Record world : Type :=
  { document : gmap string element; href : string; events : list event }.

Definition with_document (d : gmap string element) (w : world) : world :=
  {| document := d; href := href w; events := events w |}.
Definition with_href (h : string) (w : world) : world :=
  {| document := document w; href := h; events := events w |}.
Definition record (ev : event) (w : world) : world :=
  {| document := document w; href := href w; events := events w ++ [ev] |}.

(** What the script takes from outside: the server's answer to a request and
    the operator's answer to [confirm] (both may depend on what happened
    before), [new Date(v).toLocaleString()], the engine's text for a
    [TypeError], and the value the HTML parser gives a quoted attribute. *)
Record browser : Type :=
  { respond : list event -> request -> fetch_outcome;
    confirm_answer : list event -> string -> bool;
    toLocaleString : jsval -> string;
    type_error_text : type_error -> string;
    attribute_value : string -> string }.

(** ** Computations *)

(** An [async] function body: from a world to its completion and the world
    it leaves. *)
Definition js (A : Type) : Type := world -> completion A * world.

#[global] Instance js_ret : MRet js := fun A a w => (Normal a, w).
#[global] Instance js_bind : MBind js :=
  fun A B f m w =>
    match m w with
    | (Normal a, w') => f a w'
    | (Throw e, w') => (Throw e, w')
    end.

Definition throw {A} (e : exn) : js A := fun w => (Throw e, w).

Definition lift {A} (c : completion A) : js A := fun w => (c, w).

(** [try { m } catch(e) { h e }]. *)
Definition try_catch {A} (m : js A) (h : exn -> js A) : js A :=
  fun w =>
    match m w with
    | (Normal a, w') => (Normal a, w')
    | (Throw e, w') => h e w'
    end.

(** A call of an async function that is not awaited: the caller goes on, and
    a rejection is nobody's to catch. *)
Definition detached {A} (m : js A) : js unit :=
  fun w =>
    match m w with
    | (Normal _, w') => (Normal tt, w')
    | (Throw e, w') => (Normal tt, record (Unhandled e) w')
    end.

(** [items.map(f)] where [f] may throw: left to right, up to the first throw. *)
Fixpoint map_each {A B} (f : A -> completion B) (l : list A) : completion (list B) :=
  match l with
  | [] => Normal []
  | x :: r => y ← f x; ys ← map_each f r; mret (y :: ys)
  end.

(** ** The templates of the script

    Each template literal of [atlas-admin.js] is the list of its literal
    pieces, in order; [Str.fill] puts the values of the holes between them. *)

Module Tpl.

(** renderOnboarding, the tab *)
Definition onboarding_page : list string :=
  Eval cbv in map Str.lit
    [ "<h4>Onboarding Submissions</h4>
    <div class=@d-flex gap-2 mb-3@>
      <select id=@ob_status@ class=@form-select form-select-sm@ style=@max-width:220px@ onchange=@renderOnboarding()@>
        <option value=@submitted@>submitted</option>
        <option value=@needs_more@>needs_more</option>
        <option value=@approved@>approved</option>
        <option value=@rejected@>rejected</option>
        <option value=@all@>all</option>
      </select>
    </div>
    <div id=@ob_table@></div>
    <div id=@ob_detail@ class=@mt-3@></div>
  " ].

(** renderOnboarding, the table around the rows *)
Definition onboarding_table : list string :=
  Eval cbv in map Str.lit
    [ "
    <table class=@table table-dark table-sm@>
      <thead><tr>
        <th>Created</th><th>Status</th><th>Owner</th><th>Email</th><th>Assets</th><th></th>
      </tr></thead>
      <tbody>
        ";
      "
      </tbody>
    </table>" ].

(** renderOnboarding, one row *)
Definition onboarding_row : list string :=
  Eval cbv in map Str.lit
    [ "
          <tr>
            <td>";
      "</td>
            <td>";
      "</td>
            <td>";
      "</td>
            <td>";
      "</td>
            <td>";
      "</td>
            <td><button class=@btn btn-outline-light btn-sm@ onclick=@openOnboarding('";
      "')@>Open</button></td>
          </tr>
        " ].

(** openOnboarding, the placeholder *)
Definition loading : list string :=
  Eval cbv in map Str.lit
    [ "<div class=@text-secondary@>Loading…</div>" ].

(** openOnboarding, the detail view *)
Definition detail : list string :=
  Eval cbv in map Str.lit
    [ "
    <hr/>
    <h5>Submission</h5>
    <div class=@mono@>ID: ";
      "</div>
    <div class=@mono@>Status: ";
      "</div>

    <div class=@mt-2 d-flex gap-2@>
      <select id=@set_status@ class=@form-select form-select-sm@ style=@max-width:220px@>
        ";
      "
      </select>
      <input id=@set_notes@ class=@form-control form-control-sm@ placeholder=@notes (optional)@ value=@";
      "@/>
      <button class=@btn btn-success btn-sm@ onclick=@setOnboardingStatus('";
      "')@>Update</button>
      <button class=@btn btn-warning btn-sm@ onclick=@approveOnboarding('";
      "')@>Approve + Create Login</button>
    </div>

    <pre class=@mono p-3 mt-3@ style=@background:#0d1522;border:1px solid #2a3a52;border-radius:8px;max-height:380px;overflow:auto@>";
      "</pre>
  " ].

(** openOnboarding, one option of the status selector *)
Definition status_option : list string :=
  Eval cbv in map Str.lit
    [ "<option ";
      ">";
      "</option>" ].

(** approveOnboarding, the alert *)
Definition login_created : list string :=
  Eval cbv in map Str.lit
    [ "OWNER LOGIN CREATED

Email: ";
      "
Temp Password: ";
      "

(You should copy this now.)" ].

(** renderVault, the tab *)
Definition vault_page : list string :=
  Eval cbv in map Str.lit
    [ "
    <h4>Vault</h4>
    <div class=@muted mb-3@>Upload a sealed bundle (ZIP/JSONL) and Atlas stores + hashes it forever.</div>

    <div class=@row g-2 mb-3@>
      <div class=@col-md-2@><input id=@v_source@ class=@form-control form-control-sm@ value=@dossier@/></div>
      <div class=@col-md-2@><input id=@v_org@ class=@form-control form-control-sm@ placeholder=@org_id@/></div>
      <div class=@col-md-2@><input id=@v_tenant@ class=@form-control form-control-sm@ placeholder=@tenant_id@/></div>
      <div class=@col-md-2@><input id=@v_schema@ class=@form-control form-control-sm@ placeholder=@schema_version@/></div>
      <div class=@col-md-4@><input id=@v_manifest@ class=@form-control form-control-sm@ placeholder='manifest_json (optional JSON)'/></div>
    </div>

    <div class=@d-flex gap-2 align-items-center mb-3@>
      <input id=@v_file@ type=@file@ class=@form-control form-control-sm@/>
      <button class=@btn btn-success btn-sm@ onclick=@vaultUpload()@>Ingest</button>
    </div>

    <div id=@v_msg@></div>
    <div id=@v_table@ class=@mt-3@></div>
  " ].

(** vaultUpload, no file chosen *)
Definition choose_file : list string :=
  Eval cbv in map Str.lit
    [ "<div class=@alert alert-danger@>Choose a file.</div>" ].

(** vaultUpload, success *)
Definition ingested : list string :=
  Eval cbv in map Str.lit
    [ "<div class=@alert alert-success@>Ingested. Object ID: <span class=@mono@>";
      "</span><br/>SHA256: <span class=@mono@>";
      "</span></div>" ].

(** the inline error alert of vaultUpload, createOwner and createAsset *)
Definition danger : list string :=
  Eval cbv in map Str.lit
    [ "<div class=@alert alert-danger@>";
      "</div>" ].

(** refreshVaultList, the table around the rows *)
Definition vault_table : list string :=
  Eval cbv in map Str.lit
    [ "
    <table class=@table table-dark table-sm@>
      <thead><tr>
        <th>Created</th><th>Source</th><th>Org</th><th>File</th><th>Bytes</th><th>SHA256</th><th></th>
      </tr></thead>
      <tbody>
        ";
      "
      </tbody>
    </table>" ].

(** refreshVaultList, one row *)
Definition vault_row : list string :=
  Eval cbv in map Str.lit
    [ "
          <tr>
            <td>";
      "</td>
            <td>";
      "</td>
            <td>";
      "</td>
            <td class=@mono@>";
      "</td>
            <td class=@mono@>";
      "</td>
            <td class=@mono@ style=@max-width:240px;overflow:hidden;text-overflow:ellipsis;white-space:nowrap@>";
      "</td>
            <td><a class=@btn btn-outline-light btn-sm@ href=@/api/admin/vault/objects/";
      "/download@>Download</a></td>
          </tr>
        " ].

(** renderOwners, the tab *)
Definition owners_page : list string :=
  Eval cbv in map Str.lit
    [ "
    <h4>IP Owners</h4>
    <div class=@row g-2 mb-3@>
      <div class=@col-md-4@><input id=@o_name@ class=@form-control form-control-sm@ placeholder=@legal_name@/></div>
      <div class=@col-md-2@><input id=@o_type@ class=@form-control form-control-sm@ placeholder=@entity_type@/></div>
      <div class=@col-md-2@><input id=@o_jur@ class=@form-control form-control-sm@ placeholder=@jurisdiction@/></div>
      <div class=@col-md-4@><input id=@o_email@ class=@form-control form-control-sm@ placeholder=@email@/></div>
      <div class=@col-md-8@><input id=@o_addr@ class=@form-control form-control-sm@ placeholder=@address@/></div>
      <div class=@col-md-2@><input id=@o_phone@ class=@form-control form-control-sm@ placeholder=@phone@/></div>
      <div class=@col-md-2@><button class=@btn btn-success btn-sm w-100@ onclick=@createOwner()@>Create</button></div>
    </div>
    <div id=@o_msg@></div>
    <div id=@o_table@ class=@mt-3@></div>
  " ].

(** createOwner, success *)
Definition owner_created : list string :=
  Eval cbv in map Str.lit
    [ "<div class=@alert alert-success@>Created owner ";
      "</div>" ].

(** refreshOwners, the table around the rows *)
Definition owners_table : list string :=
  Eval cbv in map Str.lit
    [ "
    <table class=@table table-dark table-sm@>
      <thead><tr><th>Created</th><th>Name</th><th>Type</th><th>Jurisdiction</th><th>Email</th><th class=@mono@>ID</th></tr></thead>
      <tbody>";
      "</tbody>
    </table>" ].

(** refreshOwners, one row *)
Definition owner_row : list string :=
  Eval cbv in map Str.lit
    [ "
        <tr>
          <td>";
      "</td>
          <td>";
      "</td>
          <td>";
      "</td>
          <td>";
      "</td>
          <td>";
      "</td>
          <td class=@mono@>";
      "</td>
        </tr>" ].

(** renderAssets, the tab *)
Definition assets_page : list string :=
  Eval cbv in map Str.lit
    [ "
    <h4>IP Assets</h4>
    <div class=@muted mb-2@>Create assets here (you can link an Owner ID or leave null until verified).</div>
    <div class=@row g-2 mb-3@>
      <div class=@col-md-3@><input id=@a_owner@ class=@form-control form-control-sm@ placeholder=@owner_id (optional)@/></div>
      <div class=@col-md-4@><input id=@a_title@ class=@form-control form-control-sm@ placeholder=@title@/></div>
      <div class=@col-md-2@><input id=@a_type@ class=@form-control form-control-sm@ placeholder=@asset_type@/></div>
      <div class=@col-md-3@><input id=@a_reg@ class=@form-control form-control-sm@ placeholder=@reg_no@/></div>
      <div class=@col-md-12@><textarea id=@a_desc@ class=@form-control form-control-sm@ rows=@2@ placeholder=@description@></textarea></div>
      <div class=@col-md-2@><button class=@btn btn-success btn-sm w-100@ onclick=@createAsset()@>Create</button></div>
    </div>
    <div id=@a_msg@></div>
    <div id=@a_table@ class=@mt-3@></div>
  " ].

(** createAsset, success *)
Definition asset_created : list string :=
  Eval cbv in map Str.lit
    [ "<div class=@alert alert-success@>Created asset ";
      "</div>" ].

(** refreshAssets, the table around the rows *)
Definition assets_table : list string :=
  Eval cbv in map Str.lit
    [ "
    <table class=@table table-dark table-sm@>
      <thead><tr><th>Created</th><th>Title</th><th>Type</th><th>Status</th><th>Reg No</th><th>Owner</th><th class=@mono@>ID</th></tr></thead>
      <tbody>";
      "</tbody>
    </table>" ].

(** refreshAssets, one row *)
Definition asset_row : list string :=
  Eval cbv in map Str.lit
    [ "
        <tr>
          <td>";
      "</td>
          <td>";
      "</td>
          <td>";
      "</td>
          <td>";
      "</td>
          <td>";
      "</td>
          <td>";
      "</td>
          <td class=@mono@>";
      "</td>
        </tr>" ].

End Tpl.

(** ** The script *)

Import Value.

Definition login_page : string := "/static/atlas-login.html".

(** The four tabs, in the order [showTab] walks them. *)
Definition tabs : list string := ["onboarding"; "vault"; "owners"; "assets"].

(** The statuses the detail view offers. *)
Definition statuses : list string := ["submitted"; "needs_more"; "approved"; "rejected"].

(** The ids a template places below an element.  Assigning [innerHTML]
    discards what was below the element before; the ids are read off the
    templates of the script (markup that arrives inside fetched data is not
    interpreted). *)
Definition subtree (id : string) : list string :=
  match id with
  | "tab_onboarding" => ["ob_status"; "ob_table"; "ob_detail"; "set_status"; "set_notes"]
  | "ob_detail" => ["set_status"; "set_notes"]
  | "tab_vault" =>
      ["v_source"; "v_org"; "v_tenant"; "v_schema"; "v_manifest"; "v_file"; "v_msg"; "v_table"]
  | "tab_owners" =>
      ["o_name"; "o_type"; "o_jur"; "o_email"; "o_addr"; "o_phone"; "o_msg"; "o_table"]
  | "tab_assets" =>
      ["a_owner"; "a_title"; "a_type"; "a_reg"; "a_desc"; "a_msg"; "a_table"]
  | _ => []
  end.

Definition remove_all (ids : list string) (d : gmap string element) : gmap string element :=
  fold_right (fun k m => delete k m) d ids.

Definition install (kids : list (string * element)) (d : gmap string element)
  : gmap string element :=
  fold_right (fun kv m => <[fst kv := snd kv]> m) d kids.

(** The elements after [innerHTML] of the element [e] at [id] is assigned:
    [e] holds the markup, what was below it is gone, and [kids] are there. *)
Definition replaced (id html : string) (kids : list (string * element)) (e : element)
    (d : gmap string element) : gmap string element :=
  install kids (remove_all (subtree id) (<[id := with_innerHTML html e]> d)).

(** [document.getElementById(id).key], read. *)
Definition read {A} (id key : string) (field : element -> A) : js A :=
  fun w =>
    match document w !! id with
    | Some e => (Normal (field e), w)
    | None => (Throw (TypeError (NullishRead key)), w)
    end.

(** [document.getElementById(id).innerHTML = html], where the markup holds
    the elements [kids]. *)
Definition set_innerHTML (id html : string) (kids : list (string * element)) : js unit :=
  fun w =>
    match document w !! id with
    | Some e => (Normal tt, with_document (replaced id html kids e (document w)) w)
    | None => (Throw (TypeError (NullishWrite "innerHTML")), w)
    end.

(** [document.getElementById(id).style.display = d]. *)
Definition set_display (id d : string) : js unit :=
  fun w =>
    match document w !! id with
    | Some e => (Normal tt, with_document (<[id := with_display d e]> (document w)) w)
    | None => (Throw (TypeError (NullishRead "style")), w)
    end.

(** [window.location.href = target]. *)
Definition navigate (target : string) : js unit :=
  fun w => (Normal tt, with_href target w).

Definition alert (message : string) : js unit :=
  fun w => (Normal tt, record (Alerted message) w).

(** [r.json()]. *)
Definition response_json (r : response) : js json := lift (json_result r).

Definition empty_string : jsval := Some (JStr "").

Definition post : options := {| method := Some "POST"; headers := []; body := NoBody |}.

Definition post_json (text : string) : options :=
  {| method := Some "POST";
     headers := [("Content-Type", "application/json")];
     body := Text text |}.

(** [rows.map(row).join("")] for [rows = items || []]. *)
Definition render_rows (row : json -> completion string) (items : jsval) : completion string :=
  match or_else items (Some (JArr [])) with
  | Some (JArr l) => cells ← map_each row l; mret (Str.concat cells)
  | _ => Throw (TypeError (NotCallable "rows.map"))
  end.

Section Script.
Variable B : browser.

Definition fetch (path : string) (o : options) : js response :=
  fun w =>
    let req := {| url := path; opts := o |} in
    match respond B (events w) req with
    | Rejected m => (Throw (TypeError (NetworkFailure m)), record (Fetched req) w)
    | Resolved r => (Normal r, record (Fetched req) w)
    end.

Definition confirm (message : string) : js bool :=
  fun w =>
    let answer := confirm_answer B (events w) message in
    (Normal answer, record (Confirmed message answer) w).

(** [String(e)] *)
Definition String_ (e : exn) : string := String_exn (type_error_text B) e.

(** The inline error alert. *)
Definition danger (e : exn) : string := Str.fill Tpl.danger [String_ e].

Definition api (path : string) (o : options) : js json :=
  r ← fetch path o;
  j ← try_catch (response_json r) (fun _ => mret (JObj []));
  if negb (ok r) then
    detail ← lift (prop (Some j) "detail");
    throw (Error (ToString (or_else detail (Some (JStr ("HTTP " +:+ pretty (status r)))))))
  else mret j.

Definition logout : js unit :=
  _ ← api "/api/auth/logout" post;
  navigate login_page.

(** *** Onboarding *)

Definition onboarding_row (r : json) : completion string :=
  created_at ← prop (Some r) "created_at";
  status ← prop (Some r) "status";
  owner_name ← prop (Some r) "owner_name";
  owner_email ← prop (Some r) "owner_email";
  ip_assets_count ← prop (Some r) "ip_assets_count";
  id ← prop (Some r) "id";
  mret (Str.fill Tpl.onboarding_row
          [ toLocaleString B created_at;
            ToString status;
            ToString (or_else owner_name empty_string);
            ToString (or_else owner_email empty_string);
            ToString ip_assets_count;
            ToString id ]).

Definition renderOnboarding : js unit :=
  _ ← set_innerHTML "tab_onboarding" (Str.fill Tpl.onboarding_page [])
        [("ob_status", input "submitted"); ("ob_table", blank); ("ob_detail", blank)];
  status ← read "ob_status" "value" value;
  data ← api ("/api/admin/onboarding?status=" +:+ Str.encodeURIComponent status +:+ "&limit=50")
           no_options;
  items ← lift (prop (Some data) "items");
  rows ← lift (render_rows onboarding_row items);
  set_innerHTML "ob_table" (Str.fill Tpl.onboarding_table [rows]) [].

(** The option the status selector shows: the one marked [selected], else
    the first. *)
Definition selected_status (status : jsval) : string :=
  match find (fun x => strict_eq_string x status) statuses with
  | Some x => x
  | None => "submitted"
  end.

Definition status_options (status : jsval) : string :=
  Str.concat
    (map (fun x => Str.fill Tpl.status_option
                     [if strict_eq_string x status then "selected" else ""; x])
       statuses).

(** The notes, or the empty string, with every double quote replaced by
    [&quot;] ([replaceAll] is missing on anything but a string). *)
Definition escaped_notes (notes : jsval) : completion string :=
  match or_else notes empty_string with
  | Some (JStr t) => Normal (Str.replaceAll Str.dquote "&quot;" t)
  | _ => Throw (TypeError (NotCallable "replaceAll"))
  end.

(** The detail view.  The elements that the markup of the detail view puts
    on the page are those of its template, the status selector and the notes
    field: this is what the page holds when the [id] and the [status] of the
    submission, which the template prints in front of the form, carry no
    markup of their own. *)
Definition openOnboarding (id : string) : js unit :=
  _ ← set_innerHTML "ob_detail" (Str.fill Tpl.loading []) [];
  data ← api ("/api/admin/onboarding/" +:+ id) no_options;
  s ← lift (prop (Some data) "submission");
  s_id ← lift (prop s "id");
  s_status ← lift (prop s "status");
  s_notes ← lift (prop s "notes");
  notes ← lift (escaped_notes s_notes);
  set_innerHTML "ob_detail"
    (Str.fill Tpl.detail
       [ ToString s_id; ToString s_status; status_options s_status; notes; id; id;
         stringify_pretty_val s ])
    [("set_status", input (selected_status s_status));
     ("set_notes", input (attribute_value B notes))].

Definition approveOnboarding (id : string) : js unit :=
  yes ← confirm "Approve this onboarding and create Owner + Assets + Owner login?";
  if negb yes then mret tt
  else
    j ← api ("/api/admin/onboarding/" +:+ id +:+ "/approve") post;
    user_email ← lift (prop (Some j) "user_email");
    temp_password ← lift (prop (Some j) "temp_password");
    _ ← alert (Str.fill Tpl.login_created [ToString user_email; ToString temp_password]);
    _ ← renderOnboarding;
    openOnboarding id.

Definition setOnboardingStatus (id : string) : js unit :=
  status ← read "set_status" "value" value;
  notes ← read "set_notes" "value" value;
  _ ← api ("/api/admin/onboarding/" +:+ id +:+ "/status")
        (post_json (stringify (JObj [("status", JStr status); ("notes", JStr notes)])));
  _ ← renderOnboarding;
  openOnboarding id.

(** *** Vault *)

Definition vault_row (r : json) : completion string :=
  created_at ← prop (Some r) "created_at";
  source_key ← prop (Some r) "source_key";
  org_id ← prop (Some r) "org_id";
  filename ← prop (Some r) "filename";
  byte_size ← prop (Some r) "byte_size";
  sha256 ← prop (Some r) "sha256";
  id ← prop (Some r) "id";
  mret (Str.fill Tpl.vault_row
          [ toLocaleString B created_at;
            ToString source_key;
            ToString (or_else org_id empty_string);
            ToString filename;
            ToString byte_size;
            ToString sha256;
            ToString id ]).

Definition refreshVaultList : js unit :=
  data ← api "/api/admin/vault/objects?source_key=all&limit=50" no_options;
  items ← lift (prop (Some data) "items");
  rows ← lift (render_rows vault_row items);
  set_innerHTML "v_table" (Str.fill Tpl.vault_table [rows]) [].

Definition renderVault : js unit :=
  _ ← set_innerHTML "tab_vault" (Str.fill Tpl.vault_page [])
        [ ("v_source", input "dossier"); ("v_org", input ""); ("v_tenant", input "");
          ("v_schema", input ""); ("v_manifest", input ""); ("v_file", blank);
          ("v_msg", blank); ("v_table", blank) ];
  refreshVaultList.

(** The request of the ingest: the form with the chosen file. *)
Definition ingest_options (source org tenant schema manifest : string) (f : file) : options :=
  {| method := Some "POST";
     headers := [];
     body := Form [ ("source_key", Field source); ("org_id", Field org);
                    ("tenant_id", Field tenant); ("schema_version", Field schema);
                    ("manifest_json", Field manifest); ("bundle", Upload f) ] |}.

Definition vaultUpload : js unit :=
  _ ← set_innerHTML "v_msg" "" [];
  source ← read "v_source" "value" value;
  org ← read "v_org" "value" value;
  tenant ← read "v_tenant" "value" value;
  schema ← read "v_schema" "value" value;
  manifest ← read "v_manifest" "value" value;
  chosen ← read "v_file" "files" files;
  match head chosen with
  | None => set_innerHTML "v_msg" (Str.fill Tpl.choose_file []) []
  | Some f =>
      try_catch
        (r ← fetch "/api/vault/ingest"
               (ingest_options (Str.trim source) (Str.trim org) (Str.trim tenant)
                  (Str.trim schema) (Str.trim manifest) f);
         j ← response_json r;
         if negb (ok r) then
           detail ← lift (prop (Some j) "detail");
           throw (Error (ToString (or_else detail (Some (JStr "ingest failed")))))
         else
           object_id ← lift (prop (Some j) "object_id");
           sha256 ← lift (prop (Some j) "sha256");
           _ ← set_innerHTML "v_msg"
                 (Str.fill Tpl.ingested [ToString object_id; ToString sha256]) [];
           refreshVaultList)
        (fun e => set_innerHTML "v_msg" (danger e) [])
  end.

(** *** Owners *)

Definition owner_row (r : json) : completion string :=
  created_at ← prop (Some r) "created_at";
  legal_name ← prop (Some r) "legal_name";
  entity_type ← prop (Some r) "entity_type";
  jurisdiction ← prop (Some r) "jurisdiction";
  email ← prop (Some r) "email";
  id ← prop (Some r) "id";
  mret (Str.fill Tpl.owner_row
          [ toLocaleString B created_at;
            ToString legal_name;
            ToString (or_else entity_type empty_string);
            ToString (or_else jurisdiction empty_string);
            ToString (or_else email empty_string);
            ToString id ]).

Definition refreshOwners : js unit :=
  data ← api "/api/admin/owners?limit=50" no_options;
  items ← lift (prop (Some data) "items");
  rows ← lift (render_rows owner_row items);
  set_innerHTML "o_table" (Str.fill Tpl.owners_table [rows]) [].

Definition renderOwners : js unit :=
  _ ← set_innerHTML "tab_owners" (Str.fill Tpl.owners_page [])
        [ ("o_name", input ""); ("o_type", input ""); ("o_jur", input "");
          ("o_email", input ""); ("o_addr", input ""); ("o_phone", input "");
          ("o_msg", blank); ("o_table", blank) ];
  refreshOwners.

Definition owner_payload (name type jur email addr phone : string) : json :=
  JObj [ ("legal_name", JStr (Str.trim name));
         ("entity_type", JStr (Str.trim type));
         ("jurisdiction", JStr (Str.trim jur));
         ("email", JStr (Str.trim email));
         ("address", JStr (Str.trim addr));
         ("phone", JStr (Str.trim phone)) ].

Definition createOwner : js unit :=
  name ← read "o_name" "value" value;
  type ← read "o_type" "value" value;
  jur ← read "o_jur" "value" value;
  email ← read "o_email" "value" value;
  addr ← read "o_addr" "value" value;
  phone ← read "o_phone" "value" value;
  try_catch
    (j ← api "/api/admin/owners"
           (post_json (stringify (owner_payload name type jur email addr phone)));
     id ← lift (prop (Some j) "id");
     _ ← set_innerHTML "o_msg" (Str.fill Tpl.owner_created [ToString id]) [];
     refreshOwners)
    (fun e => set_innerHTML "o_msg" (danger e) []).

(** *** Assets *)

Definition asset_row (r : json) : completion string :=
  created_at ← prop (Some r) "created_at";
  title ← prop (Some r) "title";
  asset_type ← prop (Some r) "asset_type";
  status ← prop (Some r) "status";
  reg_no ← prop (Some r) "reg_no";
  owner_name ← prop (Some r) "owner_name";
  id ← prop (Some r) "id";
  mret (Str.fill Tpl.asset_row
          [ toLocaleString B created_at;
            ToString title;
            ToString (or_else asset_type empty_string);
            ToString (or_else status empty_string);
            ToString (or_else reg_no empty_string);
            ToString (or_else owner_name empty_string);
            ToString id ]).

Definition refreshAssets : js unit :=
  data ← api "/api/admin/assets?limit=50" no_options;
  items ← lift (prop (Some data) "items");
  rows ← lift (render_rows asset_row items);
  set_innerHTML "a_table" (Str.fill Tpl.assets_table [rows]) [].

Definition renderAssets : js unit :=
  _ ← set_innerHTML "tab_assets" (Str.fill Tpl.assets_page [])
        [ ("a_owner", input ""); ("a_title", input ""); ("a_type", input "");
          ("a_reg", input ""); ("a_desc", input ""); ("a_msg", blank);
          ("a_table", blank) ];
  refreshAssets.

(** [text || null] for a string. *)
Definition or_null (text : string) : json :=
  if truthy (Some (JStr text)) then JStr text else JNull.

Definition asset_payload (owner title type reg desc : string) : json :=
  JObj [ ("owner_id", or_null (Str.trim owner));
         ("title", JStr (Str.trim title));
         ("asset_type", JStr (Str.trim type));
         ("reg_no", JStr (Str.trim reg));
         ("description", JStr (Str.trim desc)) ].

Definition createAsset : js unit :=
  owner ← read "a_owner" "value" value;
  title ← read "a_title" "value" value;
  type ← read "a_type" "value" value;
  reg ← read "a_reg" "value" value;
  desc ← read "a_desc" "value" value;
  try_catch
    (j ← api "/api/admin/assets"
           (post_json (stringify (asset_payload owner title type reg desc)));
     id ← lift (prop (Some j) "id");
     _ ← set_innerHTML "a_msg" (Str.fill Tpl.asset_created [ToString id]) [];
     refreshAssets)
    (fun e => set_innerHTML "a_msg" (danger e) []).

(** *** Tabs and start-up *)

(** [l.forEach(f)] *)
Fixpoint for_each {A} (l : list A) (f : A -> js unit) : js unit :=
  match l with
  | [] => mret tt
  | x :: r => _ ← f x; for_each r f
  end.

(** [if (name === tab) render()]: the render routine is called, not
    awaited. *)
Definition when_tab (name tab : string) (render : js unit) : js unit :=
  if String.eqb name tab then detached render else mret tt.

Definition showTab (name : string) : js unit :=
  _ ← for_each tabs
        (fun t => set_display ("tab_" +:+ t) (if String.eqb t name then "block" else "none"));
  _ ← when_tab name "onboarding" renderOnboarding;
  _ ← when_tab name "vault" renderVault;
  _ ← when_tab name "owners" renderOwners;
  when_tab name "assets" renderAssets.


End Script.

(** * Vocabulary of the statements *)

(** ** Reading the page *)

(** The first element of [kids] with the id [k]. *)
Fixpoint kid (k : string) (kids : list (string * element)) : option element :=
  match kids with
  | [] => None
  | (k', e) :: r => if String.eqb k k' then Some e else kid k r
  end.

Fixpoint listed (k : string) (ids : list string) : bool :=
  match ids with
  | [] => false
  | k' :: r => String.eqb k k' || listed k r
  end.

(** What a reader of the page sees of the element [id]. *)
Definition html_of (w : world) (id : string) : option string :=
  innerHTML <$> document w !! id.
Definition value_of (w : world) (id : string) : string :=
  from_option value "" (document w !! id).
Definition display_of (w : world) (id : string) : option string :=
  display <$> document w !! id.

(** The element [id] is on the page. *)
Definition has (w : world) (id : string) : Prop := is_Some (document w !! id).

(** The file the ingest would send: the first chosen one. *)
Definition chosen_file (w : world) : option file :=
  e ← document w !! "v_file"; head (files e).

(** The forms, as the tab templates lay them out. *)
Definition vault_form : list string :=
  ["v_msg"; "v_source"; "v_org"; "v_tenant"; "v_schema"; "v_manifest"; "v_file"].
Definition owners_form : list string :=
  ["o_name"; "o_type"; "o_jur"; "o_email"; "o_addr"; "o_phone"; "o_msg"].
Definition assets_form : list string :=
  ["a_owner"; "a_title"; "a_type"; "a_reg"; "a_desc"; "a_msg"].

(** The containers of the four tabs. *)
Definition tab_ids : list string := ["tab_onboarding"; "tab_vault"; "tab_owners"; "tab_assets"].

(** ** Requests and answers *)

(** A GET of [path]. *)
Definition get (path : string) : request := {| url := path; opts := no_options |}.

(** The server answers the request [q], asked in the world [w], with [r]. *)
Definition answers (B : browser) (w : world) (q : request) (r : response) : Prop :=
  respond B (events w) q = Resolved r.

(** The server accepts the request [q], asked in the world [w]: it answers
    with a status in 200..299 and a JSON object with the properties [fs]. *)
Definition accepted (B : browser) (w : world) (q : request) (fs : list (string * json)) : Prop :=
  exists r, answers B w q r /\ ok r = true /\ json_result r = Normal (JObj fs).

(** The world once the request [q] has been issued. *)
Definition after (q : request) (w : world) : world := record (Fetched q) w.

(** The list requests of the four tabs. *)
Definition onboarding_list : string := "/api/admin/onboarding?status=submitted&limit=50".
Definition vault_list : string := "/api/admin/vault/objects?source_key=all&limit=50".
Definition owners_list : string := "/api/admin/owners?limit=50".
Definition assets_list : string := "/api/admin/assets?limit=50".

(** The requests of the onboarding detail view. *)
Definition detail_url (id : string) : string := "/api/admin/onboarding/" +:+ id.

(** The requests of the create forms, as built from the page. *)
Definition owners_post (w : world) : options :=
  post_json
    (stringify (owner_payload (value_of w "o_name") (value_of w "o_type") (value_of w "o_jur")
                  (value_of w "o_email") (value_of w "o_addr") (value_of w "o_phone"))).

Definition assets_post (w : world) : options :=
  post_json
    (stringify (asset_payload (value_of w "a_owner") (value_of w "a_title")
                  (value_of w "a_type") (value_of w "a_reg") (value_of w "a_desc"))).

(** The request of the ingest as [vaultUpload] builds it from the form. *)
Definition ingest_request (w : world) (f : file) : request :=
  {| url := "/api/vault/ingest";
     opts := ingest_options (Str.trim (value_of w "v_source")) (Str.trim (value_of w "v_org"))
               (Str.trim (value_of w "v_tenant")) (Str.trim (value_of w "v_schema"))
               (Str.trim (value_of w "v_manifest")) f |}.

Definition status_post (id : string) (w : world) : request :=
  {| url := "/api/admin/onboarding/" +:+ id +:+ "/status";
     opts := post_json (stringify (JObj [ ("status", JStr (value_of w "set_status"));
                                         ("notes", JStr (value_of w "set_notes")) ])) |}.

Definition approve_post (id : string) : request :=
  {| url := "/api/admin/onboarding/" +:+ id +:+ "/approve"; opts := post |}.

Definition approve_question : string :=
  "Approve this onboarding and create Owner + Assets + Owner login?".

(** The text of the alert that shows the new login. *)
Definition login_text (fs : list (string * json)) : string :=
  Str.fill Tpl.login_created
    [ToString (assoc "user_email" fs); ToString (assoc "temp_password" fs)].

(** ** Worlds after an assignment *)

(** The world once the element [id] shows [html]. *)
Definition shown (id html : string) (w : world) : world :=
  snd (set_innerHTML id html [] w).

(** The world once the element [id] holds [html] with the elements [kids]. *)
Definition laid_out (id html : string) (kids : list (string * element)) (w : world) : world :=
  snd (set_innerHTML id html kids w).

(** The elements of the onboarding tab and of its detail view. *)
Definition onboarding_kids : list (string * element) :=
  [("ob_status", input "submitted"); ("ob_table", blank); ("ob_detail", blank)].

Definition detail_kids (B : browser) (status : jsval) (notes : string)
  : list (string * element) :=
  [("set_status", input (selected_status status));
   ("set_notes", input (attribute_value B notes))].

(** The markup of the detail view for the submission with the properties [s]. *)
Definition detail_markup (id : string) (s : list (string * json)) (notes : string) : string :=
  Str.fill Tpl.detail
    [ ToString (assoc "id" s); ToString (assoc "status" s); status_options (assoc "status" s);
      notes; id; id; stringify_pretty (JObj s) ].

(** What [showTab name] sets [style.display] of the tab [t] to. *)
Definition visibility (name t : string) : string :=
  if String.eqb t name then "block" else "none".

(** The world once [showTab name] has walked the four containers. *)
Definition switched (name : string) (w : world) : world :=
  snd (for_each tabs (fun t => set_display ("tab_" +:+ t) (visibility name t)) w).

(** ** What a computation leaves alone

    Relations between the world before and the world after: the later world
    has seen all that the earlier one has and maybe more; an element is still
    on the page; an element, its [style.display], the address are as they
    were. *)
Definition extends (w w' : world) : Prop := exists rest, events w' = events w ++ rest.
Definition still_has (k : string) (w w' : world) : Prop := has w k -> has w' k.
Definition same_element (k : string) (w w' : world) : Prop :=
  document w' !! k = document w !! k.
Definition same_style (k : string) (w w' : world) : Prop :=
  display_of w' k = display_of w k.
Definition same_address (w w' : world) : Prop := href w' = href w.

(** The computation [m] respects [R]: whatever world it starts in, the world
    it leaves is related to it. *)
Definition preserves {A} (R : relation world) (m : js A) : Prop :=
  forall w, R w (snd (m w)).

Abbreviation grows := (preserves extends).
Abbreviation keeps k := (preserves (still_has k)).
Abbreviation same k := (preserves (same_element k)).
Abbreviation same_display k := (preserves (same_style k)).
Abbreviation stays := (preserves same_address).

(** The relations above hold between a world and itself, compose, and do
    not mind what is merely recorded. *)
Class Quiet (R : relation world) : Prop :=
  { quiet_refl : forall w, R w w;
    quiet_trans : forall w1 w2 w3, R w1 w2 -> R w2 w3 -> R w1 w3;
    quiet_record : forall w ev, R w (record ev w) }.

(** Run from [w], the computation [m] first makes the events [l] happen. *)
Definition starts {A} (m : js A) (w : world) (l : list event) : Prop :=
  exists rest, events (snd (m w)) = events w ++ l ++ rest.

(** ** The four tabs *)

(** The render routine of a tab, the markup it lays out, and the list it
    fetches. *)
Definition render_of (B : browser) (name : string) : js unit :=
  match name with
  | "onboarding" => renderOnboarding B
  | "vault" => renderVault B
  | "owners" => renderOwners B
  | "assets" => renderAssets B
  | _ => mret tt
  end.

Definition page_of (name : string) : string :=
  match name with
  | "onboarding" => Str.fill Tpl.onboarding_page []
  | "vault" => Str.fill Tpl.vault_page []
  | "owners" => Str.fill Tpl.owners_page []
  | "assets" => Str.fill Tpl.assets_page []
  | _ => ""
  end.

Definition list_of (name : string) : string :=
  match name with
  | "onboarding" => onboarding_list
  | "vault" => vault_list
  | "owners" => owners_list
  | "assets" => assets_list
  | _ => ""
  end.

(** ** The words of the specification *)

(** Following the words of the specification: the message an error response
    is said to surface, the [detail] string when the body has one and
    [HTTP status] otherwise. *)
Definition spec_error_message (r : response) : string :=
  match json_result r with
  | Normal (JObj fs) =>
      match assoc "detail" fs with
      | Some (JStr d) => d
      | _ => "HTTP " +:+ pretty (status r)
      end
  | _ => "HTTP " +:+ pretty (status r)
  end.


(** ** White space *)

(** A run of white space. *)
Inductive white : string -> Prop :=
| white_nil : white ""
| white_cons (t s : string) : In t Str.white_space -> white s -> white (t +:+ s).

(** [t] neither starts nor ends with white space. *)
Definition stripped (t : string) : Prop :=
  forall x, In x Str.white_space ->
            String.prefix x t = false /\ String.prefix (Str.rev x) (Str.rev t) = false.

(** [t] is [s] without the white space around it. *)
Definition trimmed_of (s t : string) : Prop :=
  exists l r, s = l +:+ t +:+ r /\ white l /\ white r /\ stripped t.

(** ** The four tables *)

Inductive table : Type := Onboarding | Vault | Owners | Assets.

Definition row_of (B : browser) (t : table) : json -> completion string :=
  match t with
  | Onboarding => onboarding_row B
  | Vault => vault_row B
  | Owners => owner_row B
  | Assets => asset_row B
  end.

Definition row_template (t : table) : list string :=
  match t with
  | Onboarding => Tpl.onboarding_row
  | Vault => Tpl.vault_row
  | Owners => Tpl.owner_row
  | Assets => Tpl.asset_row
  end.

(** The fields a row prints with the fallback to the empty string, and the
    fields it prints as they are (the date apart). *)
Definition optional_fields (t : table) : list string :=
  match t with
  | Onboarding => ["owner_name"; "owner_email"]
  | Vault => ["org_id"]
  | Owners => ["entity_type"; "jurisdiction"; "email"]
  | Assets => ["asset_type"; "status"; "reg_no"; "owner_name"]
  end.

Definition required_fields (t : table) : list string :=
  match t with
  | Onboarding => ["status"; "ip_assets_count"; "id"]
  | Vault => ["source_key"; "filename"; "byte_size"; "sha256"; "id"]
  | Owners => ["legal_name"; "id"]
  | Assets => ["title"; "id"]
  end.

(** The character [c] does not occur in [p]. *)
Definition absent (c : ascii) (p : string) : bool :=
  negb (existsb (Ascii.eqb c) (list_ascii_of_string p)).

(** [l] does not contain [p], and neither its first nor its last character
    occurs in [p]: no occurrence of [p] can reach into [l] from outside. *)
Definition fenced (p l : string) : bool :=
  match l, Str.rev l with
  | String c0 _, String c1 _ => absent c0 p && absent c1 p && negb (Str.contains p l)
  | _, _ => false
  end.

(** ** Sample pages and servers *)

Module Demo.

(** A server that gives every request the same answer, an operator who gives
    every [confirm] the same answer. *)
Definition constant_browser (answer : fetch_outcome) (yes : bool) : browser :=
  {| respond := fun _ _ => answer;
     confirm_answer := fun _ _ => yes;
     toLocaleString := fun _ => "Invalid Date";
     type_error_text := fun _ => "not an object";
     attribute_value := fun s => s |}.

Definition reply (code : Z) (body : json) : fetch_outcome :=
  Resolved {| status := code; json_result := Normal body |}.

(** An empty body with status 500. *)
Definition broken : response := {| status := 500; json_result := Normal (JObj []) |}.
Definition broken_server : browser := constant_browser (Resolved broken) true.

(** A server that answers by address, and is out of reach for any other. *)
Definition canned (answers : list (string * fetch_outcome))
  : list event -> request -> fetch_outcome :=
  fun _ q =>
    match find (fun a => String.eqb (fst a) (url q)) answers with
    | Some a => snd a
    | None => Rejected "Failed to fetch"
    end.

(** A submission without [owner_name] and [owner_email]. *)
Definition submission : list (string * json) :=
  [ ("id", JStr "s1"); ("created_at", JStr "2024-05-01T10:00:00Z");
    ("status", JStr "submitted"); ("ip_assets_count", JNum 2) ].

Definition login : list (string * json) :=
  [("user_email", JStr "owner@example.com"); ("temp_password", JStr "s3cret")].

Definition healthy_answers : list (string * fetch_outcome) :=
  [ ("/api/auth/me", reply 200 (JObj [("email", JStr "admin@example.com")]));
    (onboarding_list, reply 200 (JObj [("items", JArr [JObj submission])]));
    ("/api/admin/onboarding/s1", reply 200 (JObj [("submission", JObj submission)]));
    ("/api/admin/onboarding/s1/approve", reply 200 (JObj login));
    ("/api/admin/onboarding/s1/status", reply 200 (JObj []));
    (vault_list, reply 200 (JObj [("items", JArr [])]));
    ("/api/vault/ingest", reply 200 (JObj [("object_id", JStr "v1"); ("sha256", JStr "ab12")]));
    (owners_list,
     reply 200 (JObj [("items", JArr [JObj [("id", JStr "o1"); ("legal_name", JStr "Acme")]])]));
    ("/api/admin/owners", reply 200 (JObj [("id", JStr "o1")]));
    (assets_list, reply 200 (JObj [("items", JArr [])]));
    ("/api/admin/assets", reply 200 (JObj [("id", JStr "a1")])) ].

(** A server that accepts everything, and an operator who answers [yes]. *)
Definition healthy (yes : bool) : browser :=
  {| respond := canned healthy_answers;
     confirm_answer := fun _ _ => yes;
     toLocaleString := fun _ => "5/1/2024, 10:00:00 AM";
     type_error_text := fun _ => "not an object";
     attribute_value := fun s => s |}.

(** The page as served: the four tab containers, empty. *)
Definition page : world :=
  {| document := list_to_map [ ("tab_onboarding", blank); ("tab_vault", blank);
                               ("tab_owners", blank); ("tab_assets", blank) ];
     href := "/static/atlas-admin.html";
     events := [] |}.

(** The page with the element [id] replaced by [e]. *)
Definition edit (id : string) (e : element) (w : world) : world :=
  with_document (<[id := e]> (document w)) w.

Definition chosen : file := {| file_name := "bundle.zip"; file_bytes := "PK" |}.

(** The vault tab, opened against a server that fails; then a file chosen. *)
Definition vault_open : world := snd (renderVault broken_server page).
Definition vault_with_file : world :=
  edit "v_file" {| innerHTML := ""; value := ""; display := ""; files := [chosen] |} vault_open.

(** The owners tab and the assets tab, opened against the server that fails. *)
Definition owners_open : world := snd (showTab broken_server "owners" page).

(** The assets tab with a blank owner and a padded title typed in. *)
Definition assets_filled : world :=
  edit "a_owner" (input "  ")
    (edit "a_title" (input " Patent 7 ") (snd (showTab (healthy true) "assets" page))).

(** The onboarding tab with the detail of the submission open. *)
Definition detail_open : world :=
  snd (openOnboarding (healthy true) "s1" (snd (showTab (healthy true) "onboarding" page))).

End Demo.

(** ** Further sample servers *)

Module Sample.

(** A server that answers every request with status 204 and no body at all. *)
Definition no_content : response :=
  {| status := 204; json_result := Throw (SyntaxError "Unexpected end of JSON input") |}.
Definition silent_server : browser := Demo.constant_browser (Resolved no_content) true.

(** A server that answers every request with status 200 and the body [body]. *)
Definition answering (body : json) : browser := Demo.constant_browser (Demo.reply 200 body) true.

(** A server that cannot be reached. *)
Definition offline : browser := Demo.constant_browser (Rejected "Failed to fetch") true.

(** The onboarding tab with [approved] chosen in the status selector. *)
Definition approved_chosen : world :=
  Demo.edit "ob_status" (input "approved")
    (snd (showTab (Demo.healthy true) "onboarding" Demo.page)).

(** The onboarding tab, opened against the server that accepts everything. *)
Definition onboarding_open : world :=
  snd (showTab (Demo.healthy true) "onboarding" Demo.page).

(** The vault tab with an organisation typed in. *)
Definition vault_typed : world := Demo.edit "v_org" (input "acme") Demo.vault_open.

(** The vault tab with a padded organisation typed in and a file chosen. *)
Definition vault_ready : world :=
  Demo.edit "v_org" (input " acme ") Demo.vault_with_file.

End Sample.

(** ** The four lists

    The routine that fetches and renders the list of a table, the address it
    asks, the element that holds the table, the element the routine needs on
    the page, and the template of the table. *)
Definition refresh_of (B : browser) (t : table) : js unit :=
  match t with
  | Onboarding => renderOnboarding B
  | Vault => refreshVaultList B
  | Owners => refreshOwners B
  | Assets => refreshAssets B
  end.

Definition list_url (t : table) : string :=
  match t with
  | Onboarding => onboarding_list
  | Vault => vault_list
  | Owners => owners_list
  | Assets => assets_list
  end.

Definition cell_of (t : table) : string :=
  match t with
  | Onboarding => "ob_table"
  | Vault => "v_table"
  | Owners => "o_table"
  | Assets => "a_table"
  end.

Definition root_of (t : table) : string :=
  match t with
  | Onboarding => "tab_onboarding"
  | _ => cell_of t
  end.

(** The element that holds the table of the tab [name]. *)
Definition cell_of_tab (name : string) : string :=
  match name with
  | "onboarding" => "ob_table"
  | "vault" => "v_table"
  | "owners" => "o_table"
  | "assets" => "a_table"
  | _ => ""
  end.

Definition frame_of (t : table) : list string :=
  match t with
  | Onboarding => Tpl.onboarding_table
  | Vault => Tpl.vault_table
  | Owners => Tpl.owners_table
  | Assets => Tpl.assets_table
  end.

(** ** The forms

    The fields of the three forms, and the two elements each of the forms'
    routines writes to: its alert and its table. *)
Definition owners_fields : list string :=
  ["o_name"; "o_type"; "o_jur"; "o_email"; "o_addr"; "o_phone"].
Definition assets_fields : list string := ["a_owner"; "a_title"; "a_type"; "a_reg"; "a_desc"].
Definition vault_fields : list string :=
  ["v_source"; "v_org"; "v_tenant"; "v_schema"; "v_manifest"; "v_file"].

(** The POST of each create form, as built from the page. *)
Definition owners_request (w : world) : request :=
  {| url := "/api/admin/owners"; opts := owners_post w |}.
Definition assets_request (w : world) : request :=
  {| url := "/api/admin/assets"; opts := assets_post w |}.

(** ** What a computation asks

    A computation that records nothing, and one that records at most the
    request [q]. *)
Definition silent {A} (m : js A) : Prop := forall w, events (snd (m w)) = events w.

Definition asks_at_most {A} (q : request) (m : js A) : Prop :=
  forall w, events (snd (m w)) = events w \/ events (snd (m w)) = events w ++ [Fetched q].

(** ** What a table is expected to show

    Written out from the row templates of the script, column by column, and
    independently of the routines that render: the fields a row prints after
    the date, in order, each with whether the template prints it with the
    fallback to the empty string. *)
Definition columns (t : table) : list (string * bool) :=
  match t with
  | Onboarding =>
      [ ("status", false); ("owner_name", true); ("owner_email", true);
        ("ip_assets_count", false); ("id", false) ]
  | Vault =>
      [ ("source_key", false); ("org_id", true); ("filename", false);
        ("byte_size", false); ("sha256", false); ("id", false) ]
  | Owners =>
      [ ("legal_name", false); ("entity_type", true); ("jurisdiction", true);
        ("email", true); ("id", false) ]
  | Assets =>
      [ ("title", false); ("asset_type", true); ("status", true); ("reg_no", true);
        ("owner_name", true); ("id", false) ]
  end.

(** What a column shows for the record with the properties [fs].  A field
    printed with the fallback shows as the empty string when it is absent or
    falsy; a field printed without it shows as the word [undefined] when it
    is absent; any other value is printed as it is. *)
Definition cell (fs : list (string * json)) (c : string * bool) : string :=
  match assoc (fst c) fs with
  | None => if snd c then "" else "undefined"
  | Some j => if snd c && negb (truthy (Some j)) then "" else to_string j
  end.

(** The row of a record, and the table of a list of records. *)
Definition row_markup (B : browser) (t : table) (fs : list (string * json)) : string :=
  Str.fill (row_template t) (toLocaleString B (assoc "created_at" fs) :: map (cell fs) (columns t)).

Definition table_markup (B : browser) (t : table) (records : list (list (string * json)))
  : string :=
  Str.fill (frame_of t) [Str.concat (map (row_markup B t) records)].

(** ** Views fetched anew *)

(** A create form or the ingest has asked for its list anew.  [w0] is the
    page before the call, [w1] the world once the POST has been accepted,
    [final] the world the call leaves, [msg] the alert of the form.  The
    list request is the next thing that happened after [w1].  When the
    server accepts it with the records [records], the table shows exactly
    their rows.  When it fails, nothing more is requested, the table still
    shows what it showed before the call, and the alert shows the error. *)
Definition list_refreshed (B : browser) (t : table) (msg : string) (w0 w1 final : world)
  : Prop :=
  (exists rest, events final = events w1 ++ Fetched (get (list_url t)) :: rest)
  /\ (forall fs records,
        accepted B w1 (get (list_url t)) fs ->
        assoc "items" fs = Some (JArr (map JObj records)) ->
        html_of final (cell_of t) = Some (table_markup B t records))
  /\ (forall e,
        fst (api B (list_url t) no_options w1) = Throw e ->
        events final = events w1 ++ [Fetched (get (list_url t))]
        /\ html_of final (cell_of t) = html_of w0 (cell_of t)
        /\ html_of final msg = Some (danger B e)).

(** A status update or an approval has asked for the onboarding list and
    then for the detail of the submission [id].  [w1] is the world once the
    POST has been accepted (and, for the approval, the login shown), [result]
    what the call returns and the world it leaves.  The list request is the
    next thing that happened after [w1].  When it fails, the call throws the
    error, nothing more is requested, and the tab is left as just laid out:
    an empty table and no detail.  When the server accepts it with the
    records [records], the table shows exactly their rows and the detail is
    requested next; when that request fails the call throws and the detail
    pane is left at [Loading…], and when the server accepts it the call
    returns and the pane shows the detail of the submission. *)
Definition onboarding_refreshed (B : browser) (id : string) (w1 : world)
    (result : completion unit * world) : Prop :=
  (exists rest, events (snd result) = events w1 ++ Fetched (get onboarding_list) :: rest)
  /\ (forall e,
        fst (api B onboarding_list no_options w1) = Throw e ->
        fst result = Throw e
        /\ events (snd result) = events w1 ++ [Fetched (get onboarding_list)]
        /\ html_of (snd result) "ob_table" = Some ""
        /\ html_of (snd result) "ob_detail" = Some "")
  /\ (forall fs records,
        accepted B w1 (get onboarding_list) fs ->
        assoc "items" fs = Some (JArr (map JObj records)) ->
        html_of (snd result) "ob_table" = Some (table_markup B Onboarding records)
        /\ (exists rest,
              events (snd result)
              = events w1 ++ Fetched (get onboarding_list) :: Fetched (get (detail_url id)) :: rest)
        /\ (forall e,
              fst (api B (detail_url id) no_options (after (get onboarding_list) w1)) = Throw e ->
              fst result = Throw e
              /\ html_of (snd result) "ob_detail" = Some (Str.fill Tpl.loading []))
        /\ (forall fs' s notes,
              accepted B (after (get onboarding_list) w1) (get (detail_url id)) fs' ->
              assoc "submission" fs' = Some (JObj s) ->
              escaped_notes (assoc "notes" s) = Normal notes ->
              fst result = Normal tt
              /\ html_of (snd result) "ob_detail" = Some (detail_markup id s notes))).

(** ** A server whose lists go down *)

Module Outage.

(** The date formatter of a browser set to US English and UTC, as far as
    the samples need it. *)
Definition clock (v : jsval) : string :=
  match v with
  | Some (JStr "2024-05-01T10:00:00Z") => "5/1/2024, 10:00:00 AM"
  | Some (JStr "2024-06-01T09:30:00Z") => "6/1/2024, 9:30:00 AM"
  | _ => "Invalid Date"
  end.

(** The owner the server knows from the start, and the one it adds when an
    owner is posted. *)
Definition acme : list (string * json) :=
  [ ("id", JStr "o1"); ("created_at", JStr "2024-05-01T10:00:00Z");
    ("legal_name", JStr "Acme") ].
Definition beta : list (string * json) :=
  [ ("id", JStr "o2"); ("created_at", JStr "2024-06-01T09:30:00Z");
    ("legal_name", JStr "Beta") ].

(** An owner has been posted. *)
Definition posted (history : list event) : bool :=
  existsb (fun ev => match ev with
                     | Fetched q => String.eqb (url q) "/api/admin/owners"
                     | _ => false
                     end) history.

(** The server while all is well: it creates the owner that is posted,
    lists the owners it has, approves the sample submission and lists it. *)
Definition respond_up (history : list event) (q : request) : fetch_outcome :=
  if String.eqb (url q) "/api/admin/owners" then Demo.reply 200 (JObj [("id", JStr "o2")])
  else if String.eqb (url q) owners_list then
    Demo.reply 200
      (JObj [("items", JArr (JObj acme :: if posted history then [JObj beta] else []))])
  else if String.eqb (url q) "/api/admin/onboarding/s1/approve" then
    Demo.reply 200 (JObj Demo.login)
  else if String.eqb (url q) onboarding_list then
    Demo.reply 200 (JObj [("items", JArr [JObj Demo.submission])])
  else if String.eqb (url q) "/api/admin/onboarding/s1" then
    Demo.reply 200 (JObj [("submission", JObj Demo.submission)])
  else Rejected "Failed to fetch".

(** The same server once its lists are down: every list request is answered
    with status 503, everything else as before. *)
Definition respond_down (history : list event) (q : request) : fetch_outcome :=
  if String.eqb (url q) owners_list || String.eqb (url q) onboarding_list
  then Demo.reply 503 (JObj [])
  else respond_up history q.

Definition browser_of (respond : list event -> request -> fetch_outcome) : browser :=
  {| respond := respond;
     confirm_answer := fun _ _ => true;
     toLocaleString := clock;
     type_error_text := fun _ => "not an object";
     attribute_value := fun s => s |}.

Definition up : browser := browser_of respond_up.
Definition down : browser := browser_of respond_down.

(** The owners tab, opened while all was well, with a name typed in: the
    table shows the owner [Acme]. *)
Definition owners_listed : world :=
  Demo.edit "o_name" (input "Beta") (snd (showTab up "owners" Demo.page)).

(** The onboarding tab with the detail of the sample submission open. *)
Definition detail_open : world :=
  snd (openOnboarding up "s1" (snd (showTab up "onboarding" Demo.page))).

(** The rows of the two owners. *)
Definition acme_row : string :=
  Str.fill Tpl.owner_row ["5/1/2024, 10:00:00 AM"; "Acme"; ""; ""; ""; "o1"].
Definition beta_row : string :=
  Str.fill Tpl.owner_row ["6/1/2024, 9:30:00 AM"; "Beta"; ""; ""; ""; "o2"].

End Outage.
(** * Properties *)

(** ** Stepping through a computation *)

Lemma bind_js {A C} (m : js A) (f : A -> js C) (w : world) :
  (m ≫= f) w =
    match m w with
    | (Normal a, w') => f a w'
    | (Throw e, w') => (Throw e, w')
    end.
Proof. reflexivity. Qed.

Lemma Normal_inj {A} (a b : A) : Normal a = Normal b -> a = b.
Proof. congruence. Qed.

Lemma ret_js {A} (a : A) (w : world) : (mret a : js A) w = (Normal a, w).
Proof. reflexivity. Qed.

Lemma read_found {A} id key (field : element -> A) w e :
  document w !! id = Some e -> read id key field w = (Normal (field e), w).
Proof. intros H. unfold read. now rewrite H. Qed.

Lemma read_missing {A} id key (field : element -> A) w :
  document w !! id = None -> read id key field w = (Throw (TypeError (NullishRead key)), w).
Proof. intros H. unfold read. now rewrite H. Qed.

Lemma set_innerHTML_found id html kids w e :
  document w !! id = Some e ->
  set_innerHTML id html kids w
  = (Normal tt, with_document (replaced id html kids e (document w)) w).
Proof. intros H. unfold set_innerHTML. now rewrite H. Qed.

Lemma set_innerHTML_missing id html kids w :
  document w !! id = None ->
  set_innerHTML id html kids w = (Throw (TypeError (NullishWrite "innerHTML")), w).
Proof. intros H. unfold set_innerHTML. now rewrite H. Qed.

Lemma install_lookup kids (d : gmap string element) k :
  install kids d !! k = match kid k kids with Some e => Some e | None => d !! k end.
Proof.
  induction kids as [|[k' e] r IH]; simpl; [reflexivity|].
  destruct (String.eqb_spec k k') as [->|Hne].
  - apply lookup_insert_eq.
  - rewrite lookup_insert_ne by congruence. exact IH.
Qed.

Lemma remove_all_lookup ids (d : gmap string element) k :
  remove_all ids d !! k = if listed k ids then None else d !! k.
Proof.
  induction ids as [|k' r IH]; simpl; [reflexivity|].
  destruct (String.eqb_spec k k') as [->|Hne]; simpl.
  - apply lookup_delete_eq.
  - rewrite lookup_delete_ne by congruence. exact IH.
Qed.

(** What [getElementById] finds after an assignment to [innerHTML]. *)
Lemma replaced_lookup id html kids e (d : gmap string element) k :
  replaced id html kids e d !! k
  = match kid k kids with
    | Some e' => Some e'
    | None =>
        if listed k (subtree id) then None
        else if String.eqb k id then Some (with_innerHTML html e)
        else d !! k
    end.
Proof.
  unfold replaced. rewrite install_lookup, remove_all_lookup.
  destruct (kid k kids); [reflexivity|].
  destruct (listed k (subtree id)); [reflexivity|].
  destruct (String.eqb_spec k id) as [->|Hne].
  - apply lookup_insert_eq.
  - apply lookup_insert_ne. congruence.
Qed.

Section Facts.
Variable B : browser.

(** The helper leaves the page as it is, apart from the request it
    records; its completion is read off the response. *)
Lemma api_unfold path o w :
  api B path o w =
    let req := {| url := path; opts := o |} in
    let w' := record (Fetched req) w in
    match respond B (events w) req with
    | Rejected m => (Throw (TypeError (NetworkFailure m)), w')
    | Resolved r =>
        let j := match json_result r with Normal j => j | Throw _ => JObj [] end in
        if ok r then (Normal j, w')
        else
          match prop (Some j) "detail" with
          | Normal d =>
              (Throw (Error (ToString
                               (or_else d (Some (JStr ("HTTP " +:+ pretty (status r))))))),
               w')
          | Throw e => (Throw e, w')
          end
    end.
Proof.
  unfold api. rewrite bind_js. unfold fetch.
  destruct (respond B (events w) _) as [m|r]; [reflexivity|].
  rewrite bind_js. unfold response_json, lift, try_catch.
  destruct (json_result r) as [j|e]; cbn.
  - destruct (ok r); cbn; [reflexivity|].
    rewrite bind_js.
    destruct (prop (Some j) "detail"); reflexivity.
  - destruct (ok r); reflexivity.
Qed.

Lemma api_world path o w :
  snd (api B path o w) = record (Fetched {| url := path; opts := o |}) w.
Proof.
  rewrite api_unfold. cbv zeta.
  destruct (respond B (events w) _) as [m|r]; [reflexivity|].
  destruct (ok r); [reflexivity|].
  destruct (prop _ "detail"); reflexivity.
Qed.

Lemma api_pair path o w :
  api B path o w = (fst (api B path o w), record (Fetched {| url := path; opts := o |}) w).
Proof. rewrite <- api_world. apply surjective_pairing. Qed.

(** A 2xx answer whose body is the JSON value [j]. *)
Lemma api_ok path o w r j :
  respond B (events w) {| url := path; opts := o |} = Resolved r ->
  ok r = true -> json_result r = Normal j ->
  api B path o w = (Normal j, record (Fetched {| url := path; opts := o |}) w).
Proof. intros H Hok Hj. rewrite api_unfold. cbv zeta. now rewrite H, Hok, Hj. Qed.
End Facts.

(** ** Tactics for walking through the script *)

(** Decide what [getElementById] finds after assignments to [innerHTML]. *)
Ltac look :=
  repeat match goal with
  | |- context [replaced ?id ?h ?kids ?e ?d !! ?k] =>
      rewrite (replaced_lookup id h kids e d k);
      let a := eval lazy beta iota zeta delta
                 [kid listed subtree String.eqb Ascii.eqb Bool.eqb andb orb] in (kid k kids) in
      change (kid k kids) with a;
      let b := eval lazy beta iota zeta delta
                 [kid listed subtree String.eqb Ascii.eqb Bool.eqb andb orb]
               in (listed k (subtree id)) in
      change (listed k (subtree id)) with b;
      let c := eval lazy beta iota zeta delta
                 [kid listed subtree String.eqb Ascii.eqb Bool.eqb andb orb]
               in (String.eqb k id) in
      change (String.eqb k id) with c;
      cbv beta iota
  end.

(** Project a field out of an updated world. *)
Ltac world := cbn [document events href with_document with_href record fst snd].

Ltac found := world; look; first [eassumption | reflexivity].

(** One statement of the script. *)
Ltac step :=
  first
    [ rewrite bind_js
    | erewrite read_found by found
    | erewrite set_innerHTML_found by found
    | rewrite ret_js ].

(** From [Forall (has w) ids] to one lookup per id. *)
Ltac present H :=
  unfold vault_form, owners_form, assets_form in H;
  repeat (apply Forall_cons in H; destruct H as [[? ?] H]);
  clear H;
  unfold has in *.

(** Replace what the statement reads off the page by the elements found. *)
Ltac values :=
  unfold value_of, chosen_file, html_of, display_of in *;
  repeat match goal with
    | H : document ?w !! ?id = Some ?e |- context [document ?w !! ?id] => rewrite H
    | H : document ?w !! ?id = Some ?e, H' : context [document ?w !! ?id] |- _ =>
        tryif constr_eq H H' then fail else rewrite H in H'
    end;
  cbn [from_option mbind option_bind fmap option_fmap option_map] in *.

Section Ingest.
Variable B : browser.

(** The ingest, refused by the server: the alert shows the error built from
    [detail], or from the fixed text [ingest failed]. *)
Lemma vaultUpload_refused w r f fs :
  ok r = false ->
  Forall (has w) vault_form -> chosen_file w = Some f ->
  answers B w (ingest_request w f) r ->
  json_result r = Normal (JObj fs) ->
  html_of (snd (vaultUpload B w)) "v_msg"
  = Some (danger B (Error (ToString (or_else (assoc "detail" fs)
                                       (Some (JStr "ingest failed")))))).
Proof.
  intros Hok Hform Hfile Hans Hj.
  present Hform. unfold answers, ingest_request in Hans. values.
  unfold vaultUpload. do 14 step. rewrite Hfile.
  unfold try_catch. step. unfold fetch. world. rewrite Hans.
  step. unfold response_json, lift. rewrite Hj, Hok. cbn [negb].
  step. cbn [prop]. unfold throw.
  step. unfold html_of. found.
Qed.
End Ingest.

(** Read the next field of a form: the element is there and the script goes
    on, or the read throws and the script is over. *)
Ltac read_or_throw :=
  step;
  lazymatch goal with
  | |- context [read ?id ?key ?field ?w] =>
      let e := fresh "e" in
      let E := fresh "E" in
      destruct (document w !! id) as [e|] eqn:E;
      [ rewrite (read_found id key field w e E)
      | rewrite (read_missing id key field w E); try reflexivity ]
  end.

(** Move a lookup in an updated page back to the page before the update. *)
Ltac before E :=
  lazymatch type of E with
  | ?l = ?r =>
      let H := fresh "H" in
      assert (H : l = r) by exact E;
      cbn [document events href with_document with_href record fst snd] in H;
      repeat match type of H with
        | context [replaced ?id ?h ?kids ?e ?d !! ?k] =>
            rewrite (replaced_lookup id h kids e d k) in H;
            let a := eval lazy beta iota zeta delta
                       [kid listed subtree String.eqb Ascii.eqb Bool.eqb andb orb]
                     in (kid k kids) in
            change (kid k kids) with a in H;
            let b := eval lazy beta iota zeta delta
                       [kid listed subtree String.eqb Ascii.eqb Bool.eqb andb orb]
                     in (listed k (subtree id)) in
            change (listed k (subtree id)) with b in H;
            let c := eval lazy beta iota zeta delta
                       [kid listed subtree String.eqb Ascii.eqb Bool.eqb andb orb]
                     in (String.eqb k id) in
            change (String.eqb k id) with c in H;
            cbv beta iota in H
        end;
      clear E; rename H into E
  end.

(** ** What a computation leaves alone *)

#[global] Instance extends_quiet : Quiet extends.
Proof.
  split.
  - intros w. exists []. symmetry. apply app_nil_r.
  - intros w1 w2 w3 [r1 H1] [r2 H2]. exists (r1 ++ r2). now rewrite H2, H1, app_assoc.
  - intros w ev. now exists [ev].
Qed.

#[global] Instance still_has_quiet k : Quiet (still_has k).
Proof. split; unfold still_has; auto. Qed.

#[global] Instance same_element_quiet k : Quiet (same_element k).
Proof. split; unfold same_element; [auto | congruence | auto]. Qed.

#[global] Instance same_style_quiet k : Quiet (same_style k).
Proof. split; unfold same_style; [auto | congruence | auto]. Qed.

#[global] Instance same_address_quiet : Quiet same_address.
Proof. split; unfold same_address; [auto | congruence | auto]. Qed.

Section Preserves.
Context (R : relation world) `{!Quiet R}.

Lemma preserves_ret {A} (a : A) : preserves R (mret a : js A).
Proof. intros w. apply quiet_refl. Qed.

Lemma preserves_throw {A} (e : exn) : preserves R (throw e : js A).
Proof. intros w. apply quiet_refl. Qed.

Lemma preserves_lift {A} (c : completion A) : preserves R (lift c).
Proof. intros w. apply quiet_refl. Qed.

Lemma preserves_read {A} id key (field : element -> A) : preserves R (read id key field).
Proof. intros w. unfold read. destruct (document w !! id); apply quiet_refl. Qed.

Lemma preserves_bind {A C} (m : js A) (f : A -> js C) :
  preserves R m -> (forall a, preserves R (f a)) -> preserves R (m ≫= f).
Proof.
  intros Hm Hf w. rewrite bind_js. specialize (Hm w).
  destruct (m w) as [[a|e] w1]; cbn [snd] in *; [|exact Hm].
  eapply quiet_trans; [exact Hm | apply Hf].
Qed.

Lemma preserves_try_catch {A} (m : js A) (h : exn -> js A) :
  preserves R m -> (forall e, preserves R (h e)) -> preserves R (try_catch m h).
Proof.
  intros Hm Hh w. unfold try_catch. specialize (Hm w).
  destruct (m w) as [[a|e] w1]; cbn [snd] in *; [exact Hm|].
  eapply quiet_trans; [exact Hm | apply Hh].
Qed.

Lemma preserves_detached {A} (m : js A) : preserves R m -> preserves R (detached m).
Proof.
  intros Hm w. unfold detached. specialize (Hm w).
  destruct (m w) as [[a|e] w1]; cbn [snd] in *; [exact Hm|].
  eapply quiet_trans; [exact Hm | apply quiet_record].
Qed.

Lemma preserves_alert message : preserves R (alert message).
Proof. intros w. apply quiet_record. Qed.

Lemma preserves_fetch B path o : preserves R (fetch B path o).
Proof. intros w. unfold fetch. destruct (respond B (events w) _); apply quiet_record. Qed.

Lemma preserves_confirm B message : preserves R (confirm B message).
Proof. intros w. apply quiet_record. Qed.

Lemma preserves_api B path o : preserves R (api B path o).
Proof. intros w. rewrite api_world. apply quiet_record. Qed.
End Preserves.

(** Assignments to the page. *)
Lemma grows_set_innerHTML id html kids : grows (set_innerHTML id html kids).
Proof.
  intros w. unfold set_innerHTML. exists [].
  destruct (document w !! id); symmetry; apply app_nil_r.
Qed.

Lemma grows_set_display id d : grows (set_display id d).
Proof.
  intros w. unfold set_display. exists [].
  destruct (document w !! id); symmetry; apply app_nil_r.
Qed.

Lemma grows_navigate target : grows (navigate target).
Proof. intros w. exists []. symmetry. apply app_nil_r. Qed.

Lemma keeps_set_innerHTML k id html kids :
  listed k (subtree id) = false -> keeps k (set_innerHTML id html kids).
Proof.
  intros Hk w H. unfold set_innerHTML.
  destruct (document w !! id) as [e|] eqn:E; [|exact H].
  unfold has. cbn [snd document with_document]. rewrite replaced_lookup, Hk.
  destruct (kid k kids); [eauto|]. destruct (String.eqb k id); [eauto | exact H].
Qed.

Lemma keeps_set_display k id d : keeps k (set_display id d).
Proof.
  intros w H. unfold set_display.
  destruct (document w !! id) as [e|] eqn:E; [|exact H].
  unfold has. cbn [snd document with_document].
  destruct (String.eqb_spec k id) as [->|Hne].
  - rewrite lookup_insert_eq. eauto.
  - rewrite lookup_insert_ne by congruence. exact H.
Qed.

Lemma same_set_innerHTML k id html kids :
  kid k kids = None -> listed k (subtree id) = false -> String.eqb k id = false ->
  same k (set_innerHTML id html kids).
Proof.
  intros H1 H2 H3 w. unfold same_element, set_innerHTML.
  destruct (document w !! id) as [e|]; [|reflexivity].
  cbn [snd document with_document]. now rewrite replaced_lookup, H1, H2, H3.
Qed.

Lemma same_display_set_innerHTML k id html kids :
  kid k kids = None -> listed k (subtree id) = false ->
  same_display k (set_innerHTML id html kids).
Proof.
  intros H1 H2 w. unfold same_style, set_innerHTML, display_of.
  destruct (document w !! id) as [e|] eqn:E; [|reflexivity].
  cbn [snd document with_document]. rewrite replaced_lookup, H1, H2.
  destruct (String.eqb_spec k id) as [->|]; [|reflexivity]. now rewrite E.
Qed.

Lemma stays_set_innerHTML id html kids : stays (set_innerHTML id html kids).
Proof. intros w. unfold same_address, set_innerHTML. now destruct (document w !! id). Qed.

Lemma stays_set_display id d : stays (set_display id d).
Proof. intros w. unfold same_address, set_display. now destruct (document w !! id). Qed.

(** Walk the structure of a computation. *)
Ltac preserved :=
  repeat first
    [ apply preserves_ret; exact _
    | apply preserves_throw; exact _
    | apply preserves_lift; exact _
    | apply preserves_read; exact _
    | apply preserves_alert; exact _
    | apply preserves_fetch; exact _
    | apply preserves_confirm; exact _
    | apply preserves_api; exact _
    | apply grows_set_innerHTML
    | apply grows_set_display
    | apply grows_navigate
    | apply stays_set_innerHTML
    | apply stays_set_display
    | apply keeps_set_display
    | apply keeps_set_innerHTML; reflexivity
    | apply same_set_innerHTML; reflexivity
    | apply same_display_set_innerHTML; reflexivity
    | match goal with
      | |- preserves _ (if ?b then _ else _) => destruct b
      | |- preserves _ (match ?x with _ => _ end) => destruct x
      end
    | apply preserves_bind; [exact _ | | intros]
    | apply preserves_try_catch; [exact _ | | intros]
    | apply preserves_detached; [exact _ |] ].

Section Grows.
Variable B : browser.

(** A guarded block whose first statement is a request: the request is
    the next thing that happens. *)
Lemma fetch_first {A} path o (k : response -> js A) (h : exn -> js A) w :
  (forall r, grows (k r)) -> (forall e, grows (h e)) ->
  exists rest,
    events (snd (try_catch (fetch B path o ≫= k) h w))
    = events w ++ Fetched {| url := path; opts := o |} :: rest.
Proof.
  intros Hk Hh. unfold try_catch. rewrite bind_js. unfold fetch.
  set (w1 := record _ w).
  destruct (respond B (events w) _) as [m|r].
  - destruct (Hh (TypeError (NetworkFailure m)) w1) as [r2 H2].
    exists r2. rewrite H2. subst w1. cbn [events record]. now rewrite <- app_assoc.
  - pose proof (preserves_try_catch extends (k r) h (Hk r) Hh w1) as [r2 H2].
    unfold try_catch in H2. exists r2. rewrite H2. subst w1. cbn [events record].
    now rewrite <- app_assoc.
Qed.

Lemma api_first {A} path o (k : json -> js A) (h : exn -> js A) w :
  (forall j, grows (k j)) -> (forall e, grows (h e)) ->
  exists rest,
    events (snd (try_catch (api B path o ≫= k) h w))
    = events w ++ Fetched {| url := path; opts := o |} :: rest.
Proof.
  intros Hk Hh. unfold try_catch. rewrite bind_js, api_pair.
  set (w1 := record _ w).
  destruct (fst (api B path o w)) as [j|e].
  - pose proof (preserves_try_catch extends (k j) h (Hk j) Hh w1) as [r2 H2].
    unfold try_catch in H2. exists r2. rewrite H2. subst w1. cbn [events record].
    now rewrite <- app_assoc.
  - destruct (Hh e w1) as [r2 H2]. exists r2. rewrite H2. subst w1.
    cbn [events record]. now rewrite <- app_assoc.
Qed.
End Grows.

(** ** [trim] strips the white space around a string *)

Module TrimFacts.
Import Str.

Lemma append_String (c : ascii) (a b : string) : String c a +:+ b = String c (a +:+ b).
Proof. reflexivity. Qed.

Lemma append_nil_l (s : string) : "" +:+ s = s.
Proof. reflexivity. Qed.

Lemma append_nil_r (s : string) : s +:+ "" = s.
Proof. induction s; rewrite ?append_nil_l, ?append_String; congruence. Qed.

Lemma append_assoc (a b c : string) : (a +:+ b) +:+ c = a +:+ (b +:+ c).
Proof. induction a; rewrite ?append_nil_l, ?append_String; congruence. Qed.

Lemma length_append (a b : string) :
  String.length (a +:+ b) = String.length a + String.length b.
Proof. induction a; rewrite ?append_nil_l, ?append_String; simpl; congruence. Qed.

Lemma prefix_split (t s : string) :
  String.prefix t s = true -> s = t +:+ drop (String.length t) s.
Proof.
  revert s. induction t as [|c t IH]; intros s H; [reflexivity|].
  destruct s as [|d s]; simpl in H; [discriminate|].
  destruct (Ascii.ascii_dec c d) as [->|]; [|discriminate].
  simpl. rewrite append_String. f_equal. now apply IH.
Qed.

Lemma prefix_append (t a b : string) :
  String.prefix t a = true -> String.prefix t (a +:+ b) = true.
Proof.
  revert a. induction t as [|c t IH]; intros a H; [now destruct (a +:+ b)|].
  destruct a as [|d a]; simpl in H; [discriminate|].
  rewrite append_String. simpl. destruct (Ascii.ascii_dec c d); [now apply IH | discriminate].
Qed.

Lemma length_drop (n : nat) (s : string) :
  String.length (drop n s) = String.length s - n.
Proof.
  revert s. induction n as [|n IH]; intros [|c s]; simpl; auto; lia.
Qed.

Lemma rev_append (a b : string) : rev (a +:+ b) = rev b +:+ rev a.
Proof.
  unfold rev.
  assert (H : forall x y, list_ascii_of_string (x +:+ y)
                          = (list_ascii_of_string x ++ list_ascii_of_string y)%list).
  { induction x; intros; rewrite ?append_nil_l, ?append_String; simpl; congruence. }
  assert (H' : forall x y, string_of_list_ascii (x ++ y)%list
                           = string_of_list_ascii x +:+ string_of_list_ascii y).
  { induction x; intros; simpl; rewrite ?append_nil_l, ?append_String; congruence. }
  now rewrite H, rev_app_distr, H'.
Qed.

Lemma rev_rev (s : string) : rev (rev s) = s.
Proof.
  unfold rev.
  now rewrite list_ascii_of_string_of_list_ascii, rev_involutive,
    string_of_list_ascii_of_string.
Qed.

Lemma length_rev (s : string) : String.length (rev s) = String.length s.
Proof.
  induction s as [|c s IH]; [reflexivity|].
  change (String c s) with (String c "" +:+ s).
  rewrite rev_append, !length_append, IH. simpl. lia.
Qed.

Lemma white_space_nonempty (t : string) :
  In t white_space -> String.length t <> 0.
Proof.
  assert (H : Forall (fun t => String.length t <> 0) white_space)
    by (repeat constructor; discriminate).
  exact (proj1 (List.Forall_forall _ _) H t).
Qed.

Lemma white_append (a b : string) : white a -> white b -> white (a +:+ b).
Proof.
  induction 1 as [|t s Ht Hs IH]; intros Hb; [exact Hb|].
  rewrite append_assoc. constructor; auto.
Qed.

Lemma white_single (t : string) : In t white_space -> white t.
Proof. intros H. rewrite <- (append_nil_r t). constructor; [exact H | constructor]. Qed.

Lemma leading_ws_some (s t : string) :
  leading_ws s = Some t -> In t white_space /\ String.prefix t s = true.
Proof. unfold leading_ws. intros H. apply find_some in H. exact H. Qed.

Lemma leading_ws_none (s : string) :
  leading_ws s = None -> forall x, In x white_space -> String.prefix x s = false.
Proof. unfold leading_ws. intros H x Hx. exact (find_none _ _ H x Hx). Qed.

Lemma trailing_ws_some (s t : string) :
  trailing_ws s = Some t -> In t white_space /\ String.prefix (rev t) (rev s) = true.
Proof. unfold trailing_ws. intros H. apply find_some in H. exact H. Qed.

Lemma trailing_ws_none (s : string) :
  trailing_ws s = None -> forall x, In x white_space -> String.prefix (rev x) (rev s) = false.
Proof. unfold trailing_ws. intros H x Hx. exact (find_none _ _ H x Hx). Qed.

(** With enough fuel, [trimStart] splits off a run of white space and leaves
    a string that starts with none. *)
Lemma trimStart_fuel_spec (n : nat) (s : string) :
  String.length s <= n ->
  exists l, s = l +:+ trimStart_fuel n s /\ white l /\ leading_ws (trimStart_fuel n s) = None.
Proof.
  revert s. induction n as [|n IH]; intros s Hn.
  - destruct s; [|simpl in Hn; lia]. exists "". repeat split; constructor.
  - simpl. destruct (leading_ws s) as [t|] eqn:E.
    + apply leading_ws_some in E as [Ht Hp].
      pose proof (white_space_nonempty t Ht) as Hlen.
      pose proof (prefix_split t s Hp) as Hs.
      destruct (IH (drop (String.length t) s)) as [l [Hl [Hw Hnone]]].
      { rewrite length_drop. lia. }
      exists (t +:+ l). repeat split.
      * rewrite append_assoc, <- Hl. exact Hs.
      * now constructor.
      * exact Hnone.
    + exists "". repeat split; [constructor | exact E].
Qed.

Lemma trimEnd_fuel_spec (n : nat) (s : string) :
  String.length s <= n ->
  exists r, s = trimEnd_fuel n s +:+ r /\ white r /\ trailing_ws (trimEnd_fuel n s) = None.
Proof.
  revert s. induction n as [|n IH]; intros s Hn.
  - destruct s; [|simpl in Hn; lia]. exists "". repeat split; constructor.
  - simpl. destruct (trailing_ws s) as [t|] eqn:E.
    + apply trailing_ws_some in E as [Ht Hp].
      pose proof (white_space_nonempty t Ht) as Hlen.
      pose proof (prefix_split _ _ Hp) as Hs.
      rewrite length_rev in Hs.
      set (s' := rev (drop (String.length t) (rev s))) in *.
      assert (Hs' : s = s' +:+ t).
      { rewrite <- (rev_rev s), Hs, rev_append, rev_rev. reflexivity. }
      destruct (IH s') as [r [Hr [Hw Hnone]]].
      { subst s'. rewrite length_rev, length_drop, length_rev. lia. }
      exists (r +:+ t). repeat split.
      * rewrite <- append_assoc, <- Hr. exact Hs'.
      * apply white_append; [exact Hw | now apply white_single].
      * exact Hnone.
    + exists "". repeat split; [now rewrite append_nil_r | constructor | exact E].
Qed.

(** [trim] returns the string without the white space around it. *)
Lemma trim_trimmed (s : string) : trimmed_of s (trim s).
Proof.
  unfold trim, trimStart, trimEnd.
  destruct (trimStart_fuel_spec (String.length s) s) as [l [Hl [Hwl Hlead]]]; [lia|].
  set (m := trimStart_fuel (String.length s) s) in *.
  destruct (trimEnd_fuel_spec (String.length m) m) as [r [Hr [Hwr Htrail]]]; [lia|].
  set (t := trimEnd_fuel (String.length m) m) in *.
  exists l, r. repeat split; auto.
  - now rewrite <- Hr.
  - destruct (String.prefix x t) eqn:E; [|reflexivity].
    rewrite <- (leading_ws_none m Hlead x H), Hr. symmetry. now apply prefix_append.
  - now apply trailing_ws_none.
Qed.

End TrimFacts.

(** ** Guarded blocks *)

(** A guarded block whose handler shows the error at [k]: nothing is thrown,
    and what the block throws is what the page shows. *)
Lemma guarded_alert (body : js unit) (k : string) (f : exn -> string) (w : world) :
  keeps k body -> has w k ->
  listed k (subtree k) = false ->
  fst (try_catch body (fun e => set_innerHTML k (f e) []) w) = Normal tt
  /\ (forall e, fst (body w) = Throw e ->
                html_of (snd (try_catch body (fun e => set_innerHTML k (f e) []) w)) k
                = Some (f e)).
Proof.
  intros Hkeeps Hw Hk. unfold try_catch. specialize (Hkeeps w Hw).
  destruct (body w) as [[[]|e] w1]; cbn [fst snd] in *.
  - split; [reflexivity | discriminate].
  - destruct Hkeeps as [el Hel]. rewrite (set_innerHTML_found _ _ _ _ _ Hel).
    split; [reflexivity|]. intros e' [= <-]. unfold html_of.
    cbn [snd document with_document]. rewrite replaced_lookup, Hk.
    cbn [kid]. now rewrite String.eqb_refl.
Qed.

Section Depends.
Variable B : browser.

(** The answer to a request depends on what has happened, not on the page. *)
Lemma api_result_events path o w w' :
  events w = events w' -> fst (api B path o w) = fst (api B path o w').
Proof.
  intros H. rewrite !api_unfold. cbv zeta. rewrite H.
  destruct (respond B (events w') _) as [m|r]; [reflexivity|].
  destruct (ok r); [reflexivity|]. now destruct (prop _ "detail").
Qed.
End Depends.

(** A bind whose first computation throws. *)
Lemma bind_throws {A C} (m : js A) (f : A -> js C) w e :
  fst (m w) = Throw e -> (m ≫= f) w = (Throw e, snd (m w)).
Proof. intros H. rewrite bind_js. destruct (m w) as [[a|e'] w1]; cbn in *; congruence. Qed.

(** ** The refresh routines, when the server accepts *)

Section Refresh.
Variable B : browser.

Lemma api_accepted path o w fs :
  accepted B w {| url := path; opts := o |} fs ->
  api B path o w = (Normal (JObj fs), after {| url := path; opts := o |} w).
Proof. intros [r [Hr [Hok Hj]]]. now apply api_ok with (r := r). Qed.

Lemma accepted_events w w' q fs :
  events w = events w' -> accepted B w q fs -> accepted B w' q fs.
Proof. unfold accepted, answers. intros <-. trivial. Qed.

Lemma refreshOwners_accepted w fs rows :
  has w "o_table" ->
  accepted B w (get owners_list) fs ->
  render_rows (owner_row B) (assoc "items" fs) = Normal rows ->
  refreshOwners B w
  = (Normal tt, shown "o_table" (Str.fill Tpl.owners_table [rows]) (after (get owners_list) w)).
Proof.
  intros [t Ht] Hacc Hrows. unfold refreshOwners. unfold get, owners_list in *.
  rewrite bind_js, (api_accepted _ _ _ _ Hacc).
  rewrite bind_js. unfold lift at 1. cbn [prop].
  rewrite bind_js. unfold lift at 1. rewrite Hrows.
  unfold shown, after. now erewrite !set_innerHTML_found by found.
Qed.

Lemma refreshAssets_accepted w fs rows :
  has w "a_table" ->
  accepted B w (get assets_list) fs ->
  render_rows (asset_row B) (assoc "items" fs) = Normal rows ->
  refreshAssets B w
  = (Normal tt, shown "a_table" (Str.fill Tpl.assets_table [rows]) (after (get assets_list) w)).
Proof.
  intros [t Ht] Hacc Hrows. unfold refreshAssets. unfold get, assets_list in *.
  rewrite bind_js, (api_accepted _ _ _ _ Hacc).
  rewrite bind_js. unfold lift at 1. cbn [prop].
  rewrite bind_js. unfold lift at 1. rewrite Hrows.
  unfold shown, after. now erewrite !set_innerHTML_found by found.
Qed.

Lemma refreshVaultList_accepted w fs rows :
  has w "v_table" ->
  accepted B w (get vault_list) fs ->
  render_rows (vault_row B) (assoc "items" fs) = Normal rows ->
  refreshVaultList B w
  = (Normal tt, shown "v_table" (Str.fill Tpl.vault_table [rows]) (after (get vault_list) w)).
Proof.
  intros [t Ht] Hacc Hrows. unfold refreshVaultList. unfold get, vault_list in *.
  rewrite bind_js, (api_accepted _ _ _ _ Hacc).
  rewrite bind_js. unfold lift at 1. cbn [prop].
  rewrite bind_js. unfold lift at 1. rewrite Hrows.
  unfold shown, after. now erewrite !set_innerHTML_found by found.
Qed.

Lemma renderOnboarding_accepted w fs rows :
  has w "tab_onboarding" ->
  accepted B w (get onboarding_list) fs ->
  render_rows (onboarding_row B) (assoc "items" fs) = Normal rows ->
  renderOnboarding B w
  = (Normal tt,
     shown "ob_table" (Str.fill Tpl.onboarding_table [rows])
       (after (get onboarding_list)
          (laid_out "tab_onboarding" (Str.fill Tpl.onboarding_page []) onboarding_kids w))).
Proof.
  intros [t Ht] Hacc Hrows. unfold renderOnboarding. do 4 step.
  change ("/api/admin/onboarding?status="
          +:+ Str.encodeURIComponent (value (input "submitted")) +:+ "&limit=50")
    with onboarding_list.
  rewrite bind_js, (api_accepted onboarding_list no_options _ fs)
    by (eapply accepted_events; [|exact Hacc]; reflexivity).
  rewrite bind_js. unfold lift at 1. cbn [prop].
  rewrite bind_js. unfold lift at 1. rewrite Hrows.
  unfold shown, after, laid_out, onboarding_kids.
  rewrite !(set_innerHTML_found _ _ _ w _ Ht).
  now erewrite !set_innerHTML_found by found.
Qed.

Lemma openOnboarding_accepted id w fs s notes :
  has w "ob_detail" ->
  accepted B w (get (detail_url id)) fs ->
  assoc "submission" fs = Some (JObj s) ->
  escaped_notes (assoc "notes" s) = Normal notes ->
  openOnboarding B id w
  = (Normal tt,
     laid_out "ob_detail" (detail_markup id s notes) (detail_kids B (assoc "status" s) notes)
       (after (get (detail_url id)) (shown "ob_detail" (Str.fill Tpl.loading []) w))).
Proof.
  intros [t Ht] Hacc Hs Hnotes. unfold openOnboarding. do 2 step.
  change ("/api/admin/onboarding/" +:+ id) with (detail_url id).
  rewrite bind_js, (api_accepted (detail_url id) no_options _ fs)
    by (eapply accepted_events; [|exact Hacc]; reflexivity).
  rewrite bind_js. unfold lift at 1. cbn [prop]. rewrite Hs.
  rewrite bind_js. unfold lift at 1. cbn [prop].
  rewrite bind_js. unfold lift at 1. cbn [prop].
  rewrite bind_js. unfold lift at 1. cbn [prop].
  rewrite bind_js. unfold lift at 1. rewrite Hnotes.
  unfold shown, after, laid_out, detail_markup, detail_kids.
  rewrite !(set_innerHTML_found _ _ _ w _ Ht).
  now erewrite !set_innerHTML_found by found.
Qed.
End Refresh.

(** ** Worlds after an assignment *)

Lemma try_catch_bind {A C} (m : js A) (k : A -> js C) (h : exn -> js C) w a w1 :
  m w = (Normal a, w1) -> try_catch (m ≫= k) h w = try_catch (k a) h w1.
Proof. intros H. unfold try_catch. now rewrite bind_js, H. Qed.

Lemma events_shown id html w : events (shown id html w) = events w.
Proof. unfold shown, set_innerHTML. now destruct (document w !! id). Qed.

Lemma events_laid_out id html kids w : events (laid_out id html kids w) = events w.
Proof. unfold laid_out, set_innerHTML. now destruct (document w !! id). Qed.

Lemma html_of_shown id html w :
  has w id -> listed id (subtree id) = false -> html_of (shown id html w) id = Some html.
Proof.
  intros [e He] Hk. unfold shown, html_of. rewrite (set_innerHTML_found _ _ _ _ _ He).
  cbn [snd document with_document]. rewrite replaced_lookup, Hk. cbn [kid].
  now rewrite String.eqb_refl.
Qed.

Lemma html_of_laid_out id html kids w :
  has w id -> kid id kids = None -> listed id (subtree id) = false ->
  html_of (laid_out id html kids w) id = Some html.
Proof.
  intros [e He] Hkid Hk. unfold laid_out, html_of. rewrite (set_innerHTML_found _ _ _ _ _ He).
  cbn [snd document with_document]. rewrite replaced_lookup, Hk, Hkid.
  now rewrite String.eqb_refl.
Qed.

Lemma has_shown k id html w :
  has w k -> listed k (subtree id) = false -> has (shown id html w) k.
Proof. intros H Hk. unfold shown. now apply keeps_set_innerHTML. Qed.

(** The elements a template brings are on the page afterwards. *)
Lemma has_laid_out k id html kids w :
  has w id -> is_Some (kid k kids) -> has (laid_out id html kids w) k.
Proof.
  intros [e He] [el Hel]. unfold has, laid_out. rewrite (set_innerHTML_found _ _ _ _ _ He).
  cbn [snd document with_document]. rewrite replaced_lookup, Hel. eauto.
Qed.

Section First.
Variable B : browser.

(** A block that starts with a call of the helper: the request is the next
    thing that happens. *)
Lemma api_then {A} path o (k : json -> js A) w :
  (forall j, grows (k j)) ->
  exists rest,
    events (snd ((api B path o ≫= k) w))
    = events w ++ Fetched {| url := path; opts := o |} :: rest.
Proof.
  intros Hk. rewrite bind_js, api_pair. set (w1 := record _ w).
  destruct (fst (api B path o w)) as [j|e].
  - destruct (Hk j w1) as [r2 H2]. exists r2. rewrite H2. subst w1.
    cbn [events record]. now rewrite <- app_assoc.
  - exists []. reflexivity.
Qed.
End First.

(** ** The mutations, when the server accepts *)

Section Mutations.
Variable B : browser.

Lemma createOwner_accepted w fs :
  Forall (has w) owners_form ->
  accepted B w {| url := "/api/admin/owners"; opts := owners_post w |} fs ->
  createOwner B w
  = try_catch (refreshOwners B) (fun e => set_innerHTML "o_msg" (danger B e) [])
      (shown "o_msg" (Str.fill Tpl.owner_created [ToString (assoc "id" fs)])
         (after {| url := "/api/admin/owners"; opts := owners_post w |} w)).
Proof.
  intros Hform Hacc. present Hform. unfold owners_post in *. values.
  unfold createOwner. do 12 step.
  rewrite (try_catch_bind _ _ _ _ _ _ (api_accepted B _ _ _ _ Hacc)).
  unfold try_catch. rewrite bind_js. unfold lift at 1. cbn [prop].
  unfold shown, after. do 2 step. reflexivity.
Qed.

Lemma createAsset_accepted w fs :
  Forall (has w) assets_form ->
  accepted B w {| url := "/api/admin/assets"; opts := assets_post w |} fs ->
  createAsset B w
  = try_catch (refreshAssets B) (fun e => set_innerHTML "a_msg" (danger B e) [])
      (shown "a_msg" (Str.fill Tpl.asset_created [ToString (assoc "id" fs)])
         (after {| url := "/api/admin/assets"; opts := assets_post w |} w)).
Proof.
  intros Hform Hacc. present Hform. unfold assets_post in *. values.
  unfold createAsset. do 10 step.
  rewrite (try_catch_bind _ _ _ _ _ _ (api_accepted B _ _ _ _ Hacc)).
  unfold try_catch. rewrite bind_js. unfold lift at 1. cbn [prop].
  unfold shown, after. do 2 step. reflexivity.
Qed.

Lemma vaultUpload_accepted w f fs :
  Forall (has w) vault_form -> chosen_file w = Some f ->
  accepted B w (ingest_request w f) fs ->
  vaultUpload B w
  = try_catch (refreshVaultList B) (fun e => set_innerHTML "v_msg" (danger B e) [])
      (shown "v_msg"
         (Str.fill Tpl.ingested [ToString (assoc "object_id" fs); ToString (assoc "sha256" fs)])
         (after (ingest_request w f) (shown "v_msg" "" w))).
Proof.
  intros Hform Hfile [r [Hr [Hok Hj]]]. present Hform.
  unfold answers, ingest_request in *. values.
  unfold vaultUpload. do 14 step. rewrite Hfile.
  unfold try_catch. rewrite bind_js. unfold fetch. world. rewrite Hr.
  rewrite bind_js. unfold response_json, lift at 1. rewrite Hj, Hok. cbn [negb].
  rewrite bind_js. unfold lift at 1. cbn [prop].
  rewrite bind_js. unfold lift at 1. cbn [prop].
  unfold shown, after.
  rewrite !(set_innerHTML_found "v_msg" "" [] w _ H).
  do 2 step. cbn [snd]. now erewrite set_innerHTML_found by found.
Qed.

Lemma setOnboardingStatus_accepted id w fs :
  has w "set_status" -> has w "set_notes" ->
  accepted B w (status_post id w) fs ->
  setOnboardingStatus B id w
  = (renderOnboarding B ≫= fun _ => openOnboarding B id) (after (status_post id w) w).
Proof.
  intros [e1 H1] [e2 H2] Hacc. unfold status_post in *. values.
  match goal with |- _ = ?r => set (rhs := r) end.
  unfold setOnboardingStatus. do 4 step.
  now rewrite bind_js, (api_accepted B _ _ _ _ Hacc).
Qed.

Lemma approveOnboarding_accepted id w fs :
  confirm_answer B (events w) approve_question = true ->
  accepted B (record (Confirmed approve_question true) w) (approve_post id) fs ->
  approveOnboarding B id w
  = (renderOnboarding B ≫= fun _ => openOnboarding B id)
      (record (Alerted (login_text fs))
         (after (approve_post id) (record (Confirmed approve_question true) w))).
Proof.
  intros Hyes Hacc.
  match goal with |- _ = ?r => set (rhs := r) end.
  unfold approveOnboarding.
  rewrite bind_js. unfold confirm. fold approve_question. rewrite Hyes. cbn [negb].
  unfold approve_post in *.
  rewrite bind_js, (api_accepted B _ _ _ _ Hacc).
  rewrite bind_js. unfold lift at 1. cbn [prop].
  rewrite bind_js. unfold lift at 1. cbn [prop].
  rewrite bind_js. reflexivity.
Qed.

Lemma starts_bind {A C} (m : js A) (f : A -> js C) w l :
  starts m w l -> (forall a, grows (f a)) -> starts (m ≫= f) w l.
Proof.
  intros [r1 H1] Hf. unfold starts. rewrite bind_js.
  destruct (m w) as [[a|e] w1]; cbn [snd] in *.
  - destruct (Hf a w1) as [r2 H2]. exists (r1 ++ r2).
    now rewrite H2, H1, <- !app_assoc.
  - now exists r1.
Qed.

Lemma starts_after {A C} (m : js A) (f : A -> js C) w a w1 l1 l2 :
  m w = (Normal a, w1) -> events w1 = events w ++ l1 ->
  starts (f a) w1 l2 -> starts (m ≫= f) w (l1 ++ l2).
Proof.
  intros Hm H1 [r2 H2]. unfold starts. rewrite bind_js, Hm. exists r2.
  now rewrite H2, H1, <- !app_assoc.
Qed.

Lemma starts_api {A} path o (k : json -> js A) w :
  (forall j, grows (k j)) ->
  starts (api B path o ≫= k) w [Fetched {| url := path; opts := o |}].
Proof. intros Hk. destruct (api_then B path o k w Hk) as [r H]. now exists r. Qed.

Lemma starts_try_catch {A} (m : js A) (h : exn -> js A) w l :
  starts m w l -> (forall e, grows (h e)) -> starts (try_catch m h) w l.
Proof.
  intros [r1 H1] Hh. unfold starts, try_catch.
  destruct (m w) as [[a|e] w1]; cbn [snd] in *.
  - now exists r1.
  - destruct (Hh e w1) as [r2 H2]. exists (r1 ++ r2).
    now rewrite H2, H1, <- !app_assoc.
Qed.

Lemma renderOnboarding_starts w :
  has w "tab_onboarding" -> starts (renderOnboarding B) w [Fetched (get onboarding_list)].
Proof.
  intros [t Ht]. unfold renderOnboarding.
  eapply (starts_after _ _ _ _ _ [] _ (set_innerHTML_found _ _ _ _ _ Ht)); [symmetry; apply app_nil_r|].
  eapply (starts_after _ _ _ _ _ [] _); [apply read_found; found | symmetry; apply app_nil_r|].
  apply starts_api. intros; preserved.
Qed.

Lemma openOnboarding_starts id w :
  has w "ob_detail" -> starts (openOnboarding B id) w [Fetched (get (detail_url id))].
Proof.
  intros [t Ht]. unfold openOnboarding.
  eapply (starts_after _ _ _ _ _ [] _ (set_innerHTML_found _ _ _ _ _ Ht)); [symmetry; apply app_nil_r|].
  apply starts_api. intros; preserved.
Qed.

Lemma same_openOnboarding id : same "ob_table" (openOnboarding B id).
Proof. unfold openOnboarding. preserved. Qed.

End Mutations.

(** ** Switching tabs *)

Lemma set_display_found id d w e :
  document w !! id = Some e ->
  set_display id d w = (Normal tt, with_document (<[id := with_display d e]> (document w)) w).
Proof. intros H. unfold set_display. now rewrite H. Qed.

Lemma starts_detached {A} (m : js A) w l : starts m w l -> starts (detached m) w l.
Proof.
  intros [r H]. unfold starts, detached. destruct (m w) as [[a|e] w1]; cbn [snd] in *.
  - now exists r.
  - exists (r ++ [Unhandled e]). cbn [events record]. now rewrite H, <- !app_assoc.
Qed.

Section Tabs.
Variable B : browser.

(** The walk over the four containers. *)
Lemma switched_spec name w :
  Forall (has w) tab_ids ->
  for_each tabs (fun t => set_display ("tab_" +:+ t) (visibility name t)) w
  = (Normal tt, switched name w)
  /\ (forall t, In t tabs ->
                display_of (switched name w) ("tab_" +:+ t) = Some (visibility name t))
  /\ events (switched name w) = events w
  /\ href (switched name w) = href w
  /\ Forall (has (switched name w)) tab_ids.
Proof.
  intros Htabs. unfold tab_ids in Htabs.
  repeat (apply Forall_cons in Htabs; destruct Htabs as [[? ?] Htabs]). clear Htabs.
  unfold switched, tabs. cbn [for_each].
  change ("tab_" +:+ "onboarding") with "tab_onboarding".
  change ("tab_" +:+ "vault") with "tab_vault".
  change ("tab_" +:+ "owners") with "tab_owners".
  change ("tab_" +:+ "assets") with "tab_assets".
  rewrite bind_js, (set_display_found _ _ _ _ H).
  rewrite bind_js, (set_display_found "tab_vault" _ _ x0)
    by (world; now rewrite lookup_insert_ne).
  rewrite bind_js, (set_display_found "tab_owners" _ _ x1)
    by (world; now rewrite !lookup_insert_ne).
  rewrite bind_js, (set_display_found "tab_assets" _ _ x2)
    by (world; now rewrite !lookup_insert_ne).
  rewrite ret_js. cbn [fst snd].
  split; [reflexivity|]. split; [|split; [reflexivity|split; [reflexivity|]]].
  - intros t [<-|[<-|[<-|[<-|[]]]]]; unfold display_of; world;
      change ("tab_" +:+ "onboarding") with "tab_onboarding";
      change ("tab_" +:+ "vault") with "tab_vault";
      change ("tab_" +:+ "owners") with "tab_owners";
      change ("tab_" +:+ "assets") with "tab_assets";
      rewrite ?lookup_insert_eq; rewrite ?lookup_insert_ne by discriminate;
      rewrite ?lookup_insert_eq; rewrite ?lookup_insert_ne by discriminate;
      rewrite ?lookup_insert_eq; rewrite ?lookup_insert_ne by discriminate;
      rewrite ?lookup_insert_eq; reflexivity.
  - unfold tab_ids, has. world.
    repeat constructor;
      rewrite ?lookup_insert_eq; rewrite ?lookup_insert_ne by discriminate;
      rewrite ?lookup_insert_eq; rewrite ?lookup_insert_ne by discriminate;
      rewrite ?lookup_insert_eq; rewrite ?lookup_insert_ne by discriminate;
      rewrite ?lookup_insert_eq; eauto.
Qed.

(** After the walk, [showTab] calls the render routine of the tab and
    nothing else. *)
Lemma showTab_render name w :
  In name tabs -> Forall (has w) tab_ids ->
  showTab B name w = detached (render_of B name) (switched name w).
Proof.
  intros Hname Htabs. destruct (switched_spec name w Htabs) as [Hwalk _].
  unfold showTab. rewrite bind_js. unfold visibility in Hwalk. rewrite Hwalk.
  unfold when_tab, detached.
  destruct Hname as [<-|[<-|[<-|[<-|[]]]]]; cbn [String.eqb Ascii.eqb Bool.eqb andb render_of];
    repeat (rewrite bind_js || rewrite ret_js || cbv beta iota);
    match goal with
    | |- context [render_of] => fail
    | |- context [?render B (switched ?n w)] =>
        now destruct (render B (switched n w)) as [[[]|?] ?]
    end.
Qed.

Lemma render_starts name w :
  In name tabs -> Forall (has w) tab_ids ->
  starts (render_of B name) w [Fetched (get (list_of name))].
Proof.
  intros Hname Htabs. unfold tab_ids in Htabs.
  repeat (apply Forall_cons in Htabs; destruct Htabs as [[? ?] Htabs]). clear Htabs.
  destruct Hname as [<-|[<-|[<-|[<-|[]]]]]; cbn [render_of list_of].
  - apply renderOnboarding_starts. unfold has. eauto.
  - unfold renderVault.
    eapply (starts_after _ _ _ _ _ [] _ (set_innerHTML_found _ _ _ _ _ H0));
      [symmetry; apply app_nil_r|].
    unfold refreshVaultList. apply starts_api. intros; preserved.
  - unfold renderOwners.
    eapply (starts_after _ _ _ _ _ [] _ (set_innerHTML_found _ _ _ _ _ H1));
      [symmetry; apply app_nil_r|].
    unfold refreshOwners. apply starts_api. intros; preserved.
  - unfold renderAssets.
    eapply (starts_after _ _ _ _ _ [] _ (set_innerHTML_found _ _ _ _ _ H2));
      [symmetry; apply app_nil_r|].
    unfold refreshAssets. apply starts_api. intros; preserved.
Qed.

(** A render routine does not touch [style.display] of a container, and
    leaves the containers on the page. *)
Lemma render_same_display name k :
  In name tabs -> In k tab_ids -> same_display k (render_of B name).
Proof.
  intros Hname Hk.
  destruct Hname as [<-|[<-|[<-|[<-|[]]]]]; destruct Hk as [<-|[<-|[<-|[<-|[]]]]];
    cbn [render_of];
    unfold renderOnboarding, renderVault, renderOwners, renderAssets,
      refreshVaultList, refreshOwners, refreshAssets;
    preserved.
Qed.

Lemma render_keeps name k :
  In name tabs -> In k tab_ids -> keeps k (render_of B name).
Proof.
  intros Hname Hk.
  destruct Hname as [<-|[<-|[<-|[<-|[]]]]]; destruct Hk as [<-|[<-|[<-|[<-|[]]]]];
    cbn [render_of];
    unfold renderOnboarding, renderVault, renderOwners, renderAssets,
      refreshVaultList, refreshOwners, refreshAssets;
    preserved.
Qed.

(** A render routine lays its tab out anew from the template. *)
Lemma render_lays_out name w :
  In name tabs -> Forall (has w) tab_ids ->
  html_of (snd (render_of B name w)) ("tab_" +:+ name) = Some (page_of name).
Proof.
  intros Hname Htabs. unfold tab_ids in Htabs.
  repeat (apply Forall_cons in Htabs; destruct Htabs as [[? ?] Htabs]). clear Htabs.
  destruct Hname as [<-|[<-|[<-|[<-|[]]]]]; cbn [render_of page_of];
    [ change ("tab_" +:+ "onboarding") with "tab_onboarding"; unfold renderOnboarding
    | change ("tab_" +:+ "vault") with "tab_vault"; unfold renderVault
    | change ("tab_" +:+ "owners") with "tab_owners"; unfold renderOwners
    | change ("tab_" +:+ "assets") with "tab_assets"; unfold renderAssets ];
    rewrite bind_js; erewrite set_innerHTML_found by eassumption;
    unfold html_of;
    match goal with
    | |- context [document (snd (?m ?w1)) !! ?k] =>
        let S := fresh "S" in
        assert (S : same k m)
          by (unfold refreshVaultList, refreshOwners, refreshAssets; preserved);
        rewrite (S w1)
    end;
    found.
Qed.

Lemma showTab_stays name : stays (showTab B name).
Proof.
  unfold showTab, when_tab, renderOnboarding, renderVault, renderOwners, renderAssets,
    refreshVaultList, refreshOwners, refreshAssets.
  preserved.
Qed.

Lemma detached_normal {A} (m : js A) w : fst (detached m w) = Normal tt.
Proof. unfold detached. now destruct (m w) as [[a|e] w1]. Qed.

Lemma detached_document {A} (m : js A) w :
  document (snd (detached m w)) = document (snd (m w)).
Proof. unfold detached. now destruct (m w) as [[a|e] w1]. Qed.

(** What [showTab] does on a page that has the four containers. *)
Lemma showTab_facts name w :
  In name tabs -> Forall (has w) tab_ids ->
  fst (showTab B name w) = Normal tt
  /\ (forall t, In t tabs ->
        display_of (snd (showTab B name w)) ("tab_" +:+ t) = Some (visibility name t))
  /\ html_of (snd (showTab B name w)) ("tab_" +:+ name) = Some (page_of name)
  /\ starts (showTab B name) w [Fetched (get (list_of name))]
  /\ Forall (has (snd (showTab B name w))) tab_ids.
Proof.
  intros Hname Htabs.
  destruct (switched_spec name w Htabs) as [_ [Hdisp [Hev [_ Hhas]]]].
  rewrite (showTab_render name w Hname Htabs).
  assert (Hid : forall t, In t tabs -> In ("tab_" +:+ t) tab_ids).
  { intros t [<-|[<-|[<-|[<-|[]]]]]; cbv; auto. }
  repeat apply conj.
  - apply detached_normal.
  - intros t Ht. rewrite <- (Hdisp t Ht).
    apply (preserves_detached (same_style ("tab_" +:+ t))).
    apply render_same_display; auto.
  - unfold html_of. rewrite detached_document. now apply render_lays_out.
  - destruct (starts_detached _ _ _ (render_starts name (switched name w) Hname Hhas))
      as [rest H].
    exists rest. unfold starts. rewrite (showTab_render name w Hname Htabs).
    now rewrite H, Hev.
  - rewrite List.Forall_forall in *. intros k Hk.
    apply (preserves_detached (still_has k)); [apply render_keeps; auto|].
    now apply Hhas.
Qed.

End Tabs.

(** ** Where a word can occur in a filled template *)

Module ContainsFacts.
Import Str TrimFacts.

Lemma prefix_nil (s : string) : String.prefix "" s = true.
Proof. now destruct s. Qed.

Lemma absent_String (c y : ascii) (p : string) :
  absent c (String y p) = negb (Ascii.eqb c y) && absent c p.
Proof. unfold absent. simpl. apply negb_orb. Qed.

Lemma contains_String (p : string) (x : ascii) (r : string) :
  contains p (String x r) = String.prefix p (String x r) || contains p r.
Proof. reflexivity. Qed.

Lemma contains_nil (p : string) : p <> "" -> contains p "" = false.
Proof. destruct p; [congruence | reflexivity]. Qed.

(** A character that is not in [p] stops every occurrence of [p]. *)
Lemma prefix_barrier (p a : string) (c : ascii) (b : string) :
  absent c p = true -> String.prefix p (a +:+ String c b) = String.prefix p a.
Proof.
  revert a. induction p as [|y p IH]; intros a H.
  - now rewrite !prefix_nil.
  - rewrite absent_String in H. apply andb_true_iff in H as [Hy Hp].
    destruct a as [|x a].
    + rewrite append_nil_l. simpl. destruct (ascii_dec y c) as [->|]; [|reflexivity].
      rewrite Ascii.eqb_refl in Hy. discriminate.
    + rewrite append_String. simpl. destruct (ascii_dec y x); [now apply IH | reflexivity].
Qed.

Lemma contains_barrier (p a : string) (c : ascii) (b : string) :
  p <> "" -> absent c p = true ->
  contains p (a +:+ String c b) = contains p a || contains p b.
Proof.
  intros Hp Hc. induction a as [|x a IH].
  - rewrite append_nil_l, contains_String, (contains_nil p Hp).
    change (String c b) with ("" +:+ String c b) at 1.
    rewrite (prefix_barrier p "" c b Hc). now destruct p.
  - rewrite append_String, !contains_String, IH.
    change (String x (a +:+ String c b)) with (String x a +:+ String c b).
    rewrite (prefix_barrier p (String x a) c b Hc). now rewrite orb_assoc.
Qed.

(** A fenced piece in front adds no occurrence. *)
Lemma contains_fenced (p l x : string) :
  p <> "" -> fenced p l = true -> contains p (l +:+ x) = contains p x.
Proof.
  intros Hp H. unfold fenced in H.
  destruct l as [|c0 m]; [discriminate|].
  destruct (rev (String c0 m)) as [|c1 ra] eqn:E; [discriminate|].
  apply andb_true_iff in H as [H Hn]. apply andb_true_iff in H as [_ H1].
  assert (Hl : String c0 m = rev ra +:+ String c1 "").
  { rewrite <- (rev_rev (String c0 m)), E.
    change (String c1 ra) with (String c1 "" +:+ ra). now rewrite rev_append. }
  rewrite Hl in *. rewrite append_assoc, append_String, append_nil_l.
  rewrite (contains_barrier p _ c1 x Hp H1).
  rewrite (contains_barrier p _ c1 "" Hp H1), (contains_nil p Hp), orb_false_r in Hn.
  apply negb_true_iff in Hn. now rewrite Hn.
Qed.

(** A hole between fenced pieces is the only place left. *)
Lemma contains_hole (p h l x : string) :
  p <> "" -> fenced p l = true ->
  contains p (h +:+ l +:+ x) = contains p h || contains p x.
Proof.
  intros Hp H. pose proof (contains_fenced p l x Hp H) as Hl.
  unfold fenced in H. destruct l as [|c0 m]; [discriminate|].
  destruct (rev (String c0 m)) as [|c1 ra]; [discriminate|].
  apply andb_true_iff in H as [H _]. apply andb_true_iff in H as [H0 _].
  rewrite append_String in *. rewrite (contains_barrier p h c0 _ Hp H0).
  change (String c0 (m +:+ x)) with ("" +:+ String c0 (m +:+ x)) in Hl.
  rewrite (contains_barrier p "" c0 _ Hp H0), (contains_nil p Hp) in Hl.
  cbn [orb] in Hl. now rewrite Hl.
Qed.

(** A template whose pieces are fenced, filled with values that do not
    contain [p], does not contain [p]. *)
Lemma fill_clean (p : string) (lits holes : list string) :
  p <> "" -> forallb (fenced p) lits = true ->
  (forall h, In h holes -> contains p h = false) ->
  contains p (fill lits holes) = false.
Proof.
  intros Hp. revert holes. induction lits as [|l ls IH]; intros holes Hl Hh.
  - now apply contains_nil.
  - cbn [forallb] in Hl. apply andb_true_iff in Hl as [Hl Hls].
    destruct holes as [|h hs]; cbn [fill].
    + rewrite (contains_fenced p l _ Hp Hl). apply IH; [exact Hls | intros ? []].
    + rewrite (contains_fenced p l _ Hp Hl).
      assert (Hh0 : contains p h = false) by (apply Hh; now left).
      assert (Hrest : contains p (fill ls hs) = false)
        by (apply IH; [exact Hls | intros h' Hin; apply Hh; now right]).
      destruct ls as [|l' ls'].
      * cbn [fill]. now rewrite append_nil_r.
      * cbn [forallb] in Hls. apply andb_true_iff in Hls as [Hl' _].
        assert (Hy : exists y, fill (l' :: ls') hs = l' +:+ y)
          by (destruct hs; cbn [fill]; eauto).
        destruct Hy as [y Hy]. rewrite Hy in *.
        rewrite (contains_hole p h l' y Hp Hl'), Hh0.
        now rewrite (contains_fenced p l' y Hp Hl') in Hrest.
Qed.

(** The pieces of the four row templates are fenced against the word the
    engine prints for a missing value. *)
Lemma row_templates_fenced (t : table) :
  forallb (fenced "undefined") (row_template t) = true.
Proof. destruct t; vm_compute; reflexivity. Qed.

End ContainsFacts.

(** ** The sample pages *)

(** An element of a sample page is there: by evaluation. *)
Ltac on_page := apply is_Some_alt; vm_compute; exact I.
Ltac form_on_page := repeat (constructor; [on_page|]); constructor.

Lemma page_has_tabs : Forall (has Demo.page) tab_ids.
Proof. form_on_page. Qed.

Lemma vault_open_has_form : Forall (has Demo.vault_open) vault_form.
Proof. form_on_page. Qed.

Lemma owners_open_has_form : Forall (has Demo.owners_open) owners_form.
Proof. form_on_page. Qed.


(** ** Shared facts on markup *)

Lemma Throw_inj {A} (a b : exn) : @Throw A a = Throw b -> a = b.
Proof. now intros [= ->]. Qed.

Lemma html_of_shown_other id html w k :
  String.eqb k id = false -> listed k (subtree id) = false ->
  html_of (shown id html w) k = html_of w k.
Proof.
  intros Hk Hsub. unfold html_of, shown.
  now rewrite (same_set_innerHTML k id html [] eq_refl Hsub Hk w).
Qed.

Module MarkupFacts.
Import Str.

Lemma prefix_self (p x : string) : String.prefix p (p +:+ x) = true.
Proof.
  induction p as [|c p IH]; [apply ContainsFacts.prefix_nil|].
  rewrite TrimFacts.append_String. simpl.
  destruct (ascii_dec c c); [exact IH | contradiction].
Qed.

Lemma contains_self (p x : string) : contains p (p +:+ x) = true.
Proof.
  destruct (p +:+ x) as [|c r] eqn:E; cbn [contains]; rewrite <- E, prefix_self; reflexivity.
Qed.

Lemma contains_append_r (p a b : string) : contains p b = true -> contains p (a +:+ b) = true.
Proof.
  intros H. induction a as [|c a IH]; [now rewrite TrimFacts.append_nil_l|].
  rewrite TrimFacts.append_String, ContainsFacts.contains_String, IH. apply orb_true_r.
Qed.

(** A hole that the template has room for shows in the filled template. *)
Lemma fill_contains (lits holes : list string) (h : string) :
  In h holes -> length holes <= length lits -> contains h (fill lits holes) = true.
Proof.
  revert holes. induction lits as [|l ls IH]; intros holes Hin Hlen.
  - destruct holes; [destruct Hin | cbn in Hlen; lia].
  - destruct holes as [|h0 hs]; [destruct Hin|]. cbn [fill].
    apply contains_append_r. destruct Hin as [<-|Hin].
    + apply contains_self.
    + apply contains_append_r, IH; [exact Hin | cbn in Hlen; lia].
Qed.

Lemma hex_digit_unreserved (k : nat) : k < 16 -> uri_unreserved (hex_digit true k) = true.
Proof. intros H. do 16 (destruct k as [|k]; [reflexivity|]). lia. Qed.

End MarkupFacts.

(** ** Rows and tables, column by column *)

Section Columns.
Variable B : browser.

Lemma cell_plain k fs : ToString (assoc k fs) = cell fs (k, false).
Proof. unfold cell. cbn [fst snd]. now destruct (assoc k fs). Qed.

Lemma cell_guarded k fs : ToString (or_else (assoc k fs) empty_string) = cell fs (k, true).
Proof.
  unfold cell, or_else. cbn [fst snd andb].
  destruct (assoc k fs) as [j|]; [|reflexivity].
  now destruct (truthy (Some j)).
Qed.

(** The row routines print what the columns say. *)
Lemma row_of_markup t fs : row_of B t (JObj fs) = Normal (row_markup B t fs).
Proof.
  destruct t; cbn [row_of]; unfold onboarding_row, vault_row, owner_row, asset_row;
    cbn [prop mbind completion_bind mret completion_ret];
    rewrite ?cell_plain, ?cell_guarded; reflexivity.
Qed.

Lemma map_each_markup t records :
  map_each (row_of B t) (map JObj records) = Normal (map (row_markup B t) records).
Proof.
  induction records as [|fs records IH]; [reflexivity|].
  cbn [map map_each]. rewrite row_of_markup, IH. reflexivity.
Qed.

Lemma render_rows_markup t records :
  render_rows (row_of B t) (Some (JArr (map JObj records)))
  = Normal (Str.concat (map (row_markup B t) records)).
Proof.
  unfold render_rows. cbn [or_else truthy]. now rewrite map_each_markup.
Qed.

(** ** The list routines of the three forms *)

Lemma refresh_starts t w :
  t <> Onboarding -> starts (refresh_of B t) w [Fetched (get (list_url t))].
Proof.
  intros Ht. destruct t; [contradiction| | |]; cbn [refresh_of list_url];
    unfold refreshVaultList, refreshOwners, refreshAssets;
    apply starts_api; intros; preserved.
Qed.

Lemma refresh_accepted t w fs records :
  t <> Onboarding -> has w (cell_of t) ->
  accepted B w (get (list_url t)) fs ->
  assoc "items" fs = Some (JArr (map JObj records)) ->
  refresh_of B t w
  = (Normal tt, shown (cell_of t) (table_markup B t records) (after (get (list_url t)) w)).
Proof.
  intros Ht Hcell Hacc Hitems.
  assert (Hrows : render_rows (row_of B t) (assoc "items" fs)
                  = Normal (Str.concat (map (row_markup B t) records)))
    by (rewrite Hitems; apply render_rows_markup).
  destruct t; [contradiction| | |]; cbn [refresh_of list_url cell_of row_of] in *.
  - exact (refreshVaultList_accepted B w fs _ Hcell Hacc Hrows).
  - exact (refreshOwners_accepted B w fs _ Hcell Hacc Hrows).
  - exact (refreshAssets_accepted B w fs _ Hcell Hacc Hrows).
Qed.

Lemma refresh_rejected t w e :
  t <> Onboarding ->
  fst (api B (list_url t) no_options w) = Throw e ->
  refresh_of B t w = (Throw e, after (get (list_url t)) w).
Proof.
  intros Ht He. destruct t; [contradiction| | |]; cbn [refresh_of list_url] in *;
    unfold refreshVaultList, refreshOwners, refreshAssets;
    rewrite (bind_throws _ _ _ _ He), api_world; reflexivity.
Qed.

(** A create form or the ingest, once the POST is accepted: the list routine
    runs inside the guarded block, from a world [w2] that has seen what [w1]
    has and whose table is that of [w0]. *)
Lemma list_refreshed_in_try t msg w0 w1 w2 :
  t <> Onboarding ->
  has w2 (cell_of t) -> has w2 msg ->
  events w2 = events w1 ->
  html_of w2 (cell_of t) = html_of w0 (cell_of t) ->
  String.eqb (cell_of t) msg = false ->
  listed (cell_of t) (subtree (cell_of t)) = false ->
  listed (cell_of t) (subtree msg) = false ->
  listed msg (subtree msg) = false ->
  list_refreshed B t msg w0 w1
    (snd (try_catch (refresh_of B t) (fun e => set_innerHTML msg (danger B e) []) w2)).
Proof.
  intros Ht Hcell Hmsg Hev Hsame Hne Hk1 Hk2 Hk3. split; [|split].
  - destruct (starts_try_catch (refresh_of B t) (fun e => set_innerHTML msg (danger B e) []) w2 _
                (refresh_starts t w2 Ht)) as [rest H]; [intros; preserved|].
    exists rest. now rewrite H, Hev.
  - intros fs records Hacc Hitems. unfold try_catch.
    rewrite (refresh_accepted t w2 fs records Ht Hcell); [| |exact Hitems].
    + cbn [snd]. now apply html_of_shown.
    + eapply accepted_events; [|exact Hacc]. now rewrite Hev.
  - intros e He. unfold try_catch.
    rewrite (refresh_rejected t w2 e Ht)
      by (rewrite <- He; now apply api_result_events).
    cbv beta iota.
    change (snd (set_innerHTML msg (danger B e) [] (after (get (list_url t)) w2)))
      with (shown msg (danger B e) (after (get (list_url t)) w2)).
    split; [|split].
    + rewrite events_shown. unfold after. cbn [events record]. now rewrite Hev.
    + rewrite html_of_shown_other by assumption. exact Hsame.
    + apply html_of_shown; assumption.
Qed.

(** ** The onboarding list and the detail, one after the other *)

Lemma renderOnboarding_rejected w e :
  has w "tab_onboarding" ->
  fst (api B onboarding_list no_options w) = Throw e ->
  renderOnboarding B w
  = (Throw e,
     after (get onboarding_list)
       (laid_out "tab_onboarding" (Str.fill Tpl.onboarding_page []) onboarding_kids w)).
Proof.
  intros [t Ht] He. unfold renderOnboarding. do 4 step.
  change ("/api/admin/onboarding?status="
          +:+ Str.encodeURIComponent (value (input "submitted")) +:+ "&limit=50")
    with onboarding_list.
  erewrite bind_throws by (rewrite <- He; now apply api_result_events).
  rewrite api_world. unfold laid_out, onboarding_kids.
  now rewrite (set_innerHTML_found _ _ _ w _ Ht).
Qed.

Lemma openOnboarding_rejected id w e :
  has w "ob_detail" ->
  fst (api B (detail_url id) no_options w) = Throw e ->
  openOnboarding B id w
  = (Throw e, after (get (detail_url id)) (shown "ob_detail" (Str.fill Tpl.loading []) w)).
Proof.
  intros [t Ht] He. unfold openOnboarding. do 2 step.
  change ("/api/admin/onboarding/" +:+ id) with (detail_url id).
  erewrite bind_throws by (rewrite <- He; now apply api_result_events).
  rewrite api_world. unfold shown.
  now rewrite (set_innerHTML_found _ _ _ w _ Ht).
Qed.

(** The onboarding tab rendered and the detail reopened. *)
Lemma onboarding_pair_refreshed id w0 :
  has w0 "tab_onboarding" ->
  onboarding_refreshed B id w0 ((renderOnboarding B ≫= fun _ => openOnboarding B id) w0).
Proof.
  intros Htab.
  set (w1 := laid_out "tab_onboarding" (Str.fill Tpl.onboarding_page []) onboarding_kids w0).
  assert (Htable : has w1 "ob_table") by (apply has_laid_out; [exact Htab | now eexists]).
  assert (Hpane : has w1 "ob_detail") by (apply has_laid_out; [exact Htab | now eexists]).
  assert (Hev1 : events w1 = events w0) by apply events_laid_out.
  split; [|split].
  - destruct (starts_bind (renderOnboarding B) (fun _ => openOnboarding B id) w0 _
                (renderOnboarding_starts B w0 Htab)) as [rest H]; [intros; preserved|].
    now exists rest.
  - intros e He. rewrite bind_js, (renderOnboarding_rejected w0 e Htab He). fold w1.
    cbn [fst snd]. split; [reflexivity|]. split.
    + unfold after. cbn [events record]. now rewrite Hev1.
    + destruct Htab as [t Ht]. subst w1. unfold html_of, after, laid_out, onboarding_kids.
      rewrite (set_innerHTML_found _ _ _ w0 _ Ht). split; found.
  - intros fs records Hacc Hitems.
    assert (Hrows : render_rows (onboarding_row B) (assoc "items" fs)
                    = Normal (Str.concat (map (row_markup B Onboarding) records)))
      by (rewrite Hitems; apply (render_rows_markup Onboarding)).
    rewrite bind_js, (renderOnboarding_accepted B w0 fs _ Htab Hacc Hrows). fold w1.
    fold (table_markup B Onboarding records).
    set (w2 := shown "ob_table" _ (after _ w1)).
    assert (Hdetail : has w2 "ob_detail") by (apply has_shown; [exact Hpane | reflexivity]).
    assert (Hev : events w2 = events w0 ++ [Fetched (get onboarding_list)]).
    { subst w2. rewrite events_shown. unfold after. cbn [events record]. now rewrite Hev1. }
    split; [|split; [|split]].
    + unfold html_of. rewrite same_openOnboarding.
      apply html_of_shown; [exact Htable | reflexivity].
    + destruct (openOnboarding_starts B id w2 Hdetail) as [rest H].
      exists rest. rewrite H, Hev. now rewrite <- app_assoc.
    + intros e He.
      rewrite (openOnboarding_rejected id w2 e Hdetail)
        by (rewrite <- He; apply api_result_events; now rewrite Hev).
      cbn [fst snd]. split; [reflexivity|].
      change (html_of (shown "ob_detail" (Str.fill Tpl.loading []) w2) "ob_detail"
              = Some (Str.fill Tpl.loading [])).
      apply html_of_shown; [exact Hdetail | reflexivity].
    + intros fs' s notes Hacc' Hs Hnotes.
      rewrite (openOnboarding_accepted B id w2 fs' s notes Hdetail); [|  | exact Hs | exact Hnotes].
      * cbn [fst snd]. split; [reflexivity|].
        apply html_of_laid_out; [|reflexivity|reflexivity].
        change (has (shown "ob_detail" (Str.fill Tpl.loading []) w2) "ob_detail").
        apply has_shown; [exact Hdetail | reflexivity].
      * eapply accepted_events; [|exact Hacc']. now rewrite Hev.
Qed.
End Columns.

(** ** The error message of a failed request *)

Section ErrorMessage.
Variable B : browser.

(** [C1], as amended.  A response outside 200..299 that arrives through the
    helper [api] makes it throw an error whose message is the [detail]
    string of the body when that is a non-empty string, and [HTTP status]
    when the body has no [detail] or is no JSON; a body with [detail]
    equal to [bad input] gives exactly that message.  The ingest does not go
    through the helper: it shows [Error: ] followed by [detail], and
    without a [detail] it shows [ingest failed], not the status. *)
Theorem failed_request_message w r :
  ok r = false ->
  (forall path o,
      answers B w {| url := path; opts := o |} r ->
      (forall fs d, json_result r = Normal (JObj fs) ->
                    assoc "detail" fs = Some (JStr d) -> d <> "" ->
                    fst (api B path o w) = Throw (Error d))
      /\ (forall fs, json_result r = Normal (JObj fs) ->
                     assoc "detail" fs = None ->
                     fst (api B path o w) = Throw (Error ("HTTP " +:+ pretty (status r))))
      /\ (forall e, json_result r = Throw e ->
                    fst (api B path o w) = Throw (Error ("HTTP " +:+ pretty (status r)))))
  /\ (forall f fs,
         Forall (has w) vault_form -> chosen_file w = Some f ->
         answers B w (ingest_request w f) r ->
         json_result r = Normal (JObj fs) ->
         (forall d, assoc "detail" fs = Some (JStr d) -> d <> "" ->
                    html_of (snd (vaultUpload B w)) "v_msg"
                    = Some (Str.fill Tpl.danger ["Error: " +:+ d]))
         /\ (assoc "detail" fs = None ->
               html_of (snd (vaultUpload B w)) "v_msg"
               = Some (Str.fill Tpl.danger ["Error: ingest failed"]))).
Proof.
  intros Hok. split.
  - intros path o Hr. unfold answers in Hr. repeat split.
    + intros fs d Hj Hd Hne. rewrite api_unfold. cbv zeta. rewrite Hr, Hok, Hj.
      cbn [prop]. rewrite Hd. unfold or_else, truthy.
      destruct (String.eqb_spec d ""); [contradiction|reflexivity].
    + intros fs Hj Hd. rewrite api_unfold. cbv zeta. rewrite Hr, Hok, Hj.
      cbn [prop]. now rewrite Hd.
    + intros e Hj. rewrite api_unfold. cbv zeta. now rewrite Hr, Hok, Hj.
  - intros f fs Hform Hfile Hans Hj.
    pose proof (vaultUpload_refused B w r f fs Hok Hform Hfile Hans Hj) as H.
    split.
    + intros d Hd Hne. rewrite H, Hd. unfold or_else, truthy.
      destruct (String.eqb_spec d "") as [|_]; [contradiction|].
      unfold danger, String_, String_exn.
      cbn [negb ToString to_string exn_message exn_name].
      destruct (String.eqb_spec d ""); [contradiction|reflexivity].
    + intros Hd. rewrite H, Hd. reflexivity.
Qed.

(** [C10] In the helper [api], a response outside 200..299 throws
    [HTTP status] not only when [detail] is missing: also when the body is
    no JSON at all (the parse failure is swallowed, the body counts as an
    empty object) and for every falsy [detail] (empty string, [null],
    [false]); a truthy [detail] takes precedence over the status. *)
Theorem api_status_fallback path o w r :
  answers B w {| url := path; opts := o |} r ->
  ok r = false ->
  (forall e, json_result r = Throw e ->
     fst (api B path o w) = Throw (Error ("HTTP " +:+ pretty (status r))))
  /\ (forall fs, json_result r = Normal (JObj fs) ->
        fst (api B path o w)
        = Throw (Error (if truthy (assoc "detail" fs)
                        then ToString (assoc "detail" fs)
                        else "HTTP " +:+ pretty (status r))))
  /\ (forall fs d, json_result r = Normal (JObj fs) ->
        assoc "detail" fs = Some d ->
        In d [JStr ""; JNull; JBool false] ->
        fst (api B path o w) = Throw (Error ("HTTP " +:+ pretty (status r)))).
Proof.
  intros Hr Hok. unfold answers in Hr.
  assert (Hobj : forall fs, json_result r = Normal (JObj fs) ->
            fst (api B path o w)
            = Throw (Error (if truthy (assoc "detail" fs)
                            then ToString (assoc "detail" fs)
                            else "HTTP " +:+ pretty (status r)))).
  { intros fs Hj. rewrite api_unfold. cbv zeta. rewrite Hr, Hok, Hj.
    unfold prop, or_else. now destruct (truthy (assoc "detail" fs)). }
  split; [|split].
  - intros e Hj. rewrite api_unfold. cbv zeta. now rewrite Hr, Hok, Hj.
  - exact Hobj.
  - intros fs d Hj Hd Hin. rewrite (Hobj fs Hj), Hd.
    destruct Hin as [<-|[<-|[<-|[]]]]; reflexivity.
Qed.
End ErrorMessage.

(** The fallback at work: status 404, [detail] the empty string. *)
Lemma api_status_fallback_witness :
  fst (api (Demo.constant_browser (Demo.reply 404 (JObj [("detail", JStr "")])) true)
         "/api/admin/owners?limit=50" no_options Demo.page)
  = Throw (Error "HTTP 404").
Proof.
  pose proof (api_status_fallback
                (Demo.constant_browser (Demo.reply 404 (JObj [("detail", JStr "")])) true)
                "/api/admin/owners?limit=50" no_options Demo.page
                {| status := 404; json_result := Normal (JObj [("detail", JStr "")]) |}
                eq_refl eq_refl) as [_ [H _]].
  exact (H [("detail", JStr "")] eq_refl).
Defined.

(** A 400 with the body [{detail: bad input}]: the helper throws exactly
    that message. *)
Lemma failed_request_message_witness :
  fst (api (Demo.constant_browser (Demo.reply 400 (JObj [("detail", JStr "bad input")])) true)
         "/api/admin/owners" post Demo.page)
  = Throw (Error "bad input").
Proof.
  pose proof (failed_request_message
                (Demo.constant_browser (Demo.reply 400 (JObj [("detail", JStr "bad input")])) true)
                Demo.page
                {| status := 400; json_result := Normal (JObj [("detail", JStr "bad input")]) |}
                eq_refl) as [H _].
  destruct (H "/api/admin/owners" post eq_refl) as [Hd _].
  apply (Hd [("detail", JStr "bad input")] "bad input" eq_refl eq_refl).
  discriminate.
Defined.

(** [C1] fails for the ingest: on a 500 with an empty JSON object the page
    shows [Error: ingest failed]; the text the specification promises,
    [HTTP 500], is not in it. *)
Lemma ingest_failure_hides_status :
  html_of (snd (vaultUpload Demo.broken_server Demo.vault_with_file)) "v_msg"
  = Some (Str.fill Tpl.danger ["Error: ingest failed"])
  /\ spec_error_message Demo.broken = "HTTP 500"
  /\ Str.contains (spec_error_message Demo.broken)
       (Str.fill Tpl.danger ["Error: ingest failed"]) = false.
Proof. vm_compute. repeat split. Qed.

(** ** The ingest form *)

Section IngestForm.
Variable B : browser.

(** [C6] When no file is attached the ingest issues no request at all and
    shows the alert [Choose a file.]; with a file attached its first
    request is the POST of the form.  So the ingest call is made only when
    a file is present. *)
Theorem ingest_requires_file w :
  (chosen_file w = None -> events (snd (vaultUpload B w)) = events w)
  /\ (chosen_file w = None -> Forall (has w) vault_form ->
        fst (vaultUpload B w) = Normal tt
        /\ html_of (snd (vaultUpload B w)) "v_msg"
           = Some (Str.lit "<div class=@alert alert-danger@>Choose a file.</div>"))
  /\ (forall f, chosen_file w = Some f -> Forall (has w) vault_form ->
        exists rest,
          events (snd (vaultUpload B w)) = events w ++ Fetched (ingest_request w f) :: rest).
Proof.
  split; [|split].
  - intros Hfile. unfold vaultUpload. step.
    destruct (document w !! "v_msg") as [m|] eqn:Em;
      [ rewrite (set_innerHTML_found _ _ _ _ _ Em)
      | now rewrite (set_innerHTML_missing _ _ _ _ Em) ].
    do 6 (read_or_throw; []).
    before E4. unfold chosen_file in Hfile. rewrite E4 in Hfile.
    cbn [mbind option_bind] in Hfile. rewrite Hfile.
    now step.
  - intros Hfile Hform. present Hform. values.
    unfold vaultUpload. do 14 step. rewrite Hfile. step.
    split; [reflexivity|]. found.
  - intros f Hfile Hform. present Hform. unfold ingest_request. values.
    unfold vaultUpload. do 14 step. rewrite Hfile.
    destruct (fetch_first B "/api/vault/ingest"
                (ingest_options (Str.trim (value x0)) (Str.trim (value x1))
                   (Str.trim (value x2)) (Str.trim (value x3)) (Str.trim (value x4)) f)
                (fun r =>
                   j ← response_json r;
                   if negb (ok r) then
                     detail ← lift (prop (Some j) "detail");
                     throw (Error (ToString (or_else detail (Some (JStr "ingest failed")))))
                   else
                     object_id ← lift (prop (Some j) "object_id");
                     sha256 ← lift (prop (Some j) "sha256");
                     _ ← set_innerHTML "v_msg"
                           (Str.fill Tpl.ingested [ToString object_id; ToString sha256]) [];
                     refreshVaultList B)
                (fun e => set_innerHTML "v_msg" (danger B e) [])
                (with_document (replaced "v_msg" "" [] x (document w)) w))
      as [rest Hrest]; [intros; preserved | intros; preserved |].
    exists rest. exact Hrest.
Qed.
End IngestForm.

(** The vault tab as opened, no file chosen: nothing is requested, and the
    alert asks for a file. *)
Lemma ingest_requires_file_witness :
  events (snd (vaultUpload Demo.broken_server Demo.vault_open)) = events Demo.vault_open
  /\ html_of (snd (vaultUpload Demo.broken_server Demo.vault_open)) "v_msg"
     = Some (Str.lit "<div class=@alert alert-danger@>Choose a file.</div>").
Proof.
  destruct (ingest_requires_file Demo.broken_server Demo.vault_open) as [H1 [H2 _]].
  split.
  - apply H1. reflexivity.
  - apply H2; [reflexivity | exact vault_open_has_form].
Defined.

(** ** The asset form *)

Section AssetForm.
Variable B : browser.

End AssetForm.


(** The body that goes out for it. *)
Example createAsset_sample_body :
  nth_error (events (snd (createAsset (Demo.healthy true) Demo.assets_filled))) 1
  = Some (Fetched
            {| url := "/api/admin/assets";
               opts :=
                 post_json
                   (Str.lit "{@owner_id@:null,@title@:@Patent 7@,@asset_type@:@@,@reg_no@:@@,@description@:@@}") |}).
Proof. vm_compute. reflexivity. Qed.

(** ** Which failures are caught *)

Section Failures.
Variable B : browser.

(** The ingest on a page that has its form: nothing is thrown, and a request
    that is rejected or an answer that is no JSON ends in the alert. *)
Lemma vaultUpload_guarded w :
  Forall (has w) vault_form ->
  fst (vaultUpload B w) = Normal tt
  /\ (forall f m, chosen_file w = Some f ->
         respond B (events w) (ingest_request w f) = Rejected m ->
         html_of (snd (vaultUpload B w)) "v_msg"
         = Some (danger B (TypeError (NetworkFailure m))))
  /\ (forall f r e, chosen_file w = Some f ->
         answers B w (ingest_request w f) r -> json_result r = Throw e ->
         html_of (snd (vaultUpload B w)) "v_msg" = Some (danger B e)).
Proof.
  intros Hform. present Hform. unfold ingest_request, answers. values.
  unfold vaultUpload. do 14 step.
  destruct (head (files x5)) as [f|] eqn:Hfile.
  - set (w1 := with_document _ w).
    match goal with
    | |- context [try_catch ?b ?h w1] =>
        destruct (guarded_alert b "v_msg" (danger B) w1) as [G1 G2];
          [preserved | unfold has; subst w1; eexists; found | reflexivity |]
    end.
    split; [exact G1|]. split.
    + intros f' m [= <-] Hrej. apply G2.
      rewrite bind_js. unfold fetch. subst w1. world. now rewrite Hrej.
    + intros f' r e [= <-] Hans Hj. apply G2.
      rewrite bind_js. unfold fetch. subst w1. world. rewrite Hans.
      rewrite bind_js. unfold response_json, lift. now rewrite Hj.
  - step. split; [reflexivity|]. split; intros; discriminate.
Qed.

(** [C2], as amended.  The two create forms and the ingest catch every
    failure of the calls they make, the list refresh that follows
    included: nothing is thrown, and the error is shown in the inline
    alert of the form.  The refresh routines of the three lists, and the
    render and open routines of the onboarding tab, catch nothing: a
    failing call is thrown to their caller. *)
Theorem failures_shown_or_thrown :
  (forall w, Forall (has w) owners_form ->
     fst (createOwner B w) = Normal tt
     /\ (forall e, fst (api B "/api/admin/owners" (owners_post w) w) = Throw e ->
            html_of (snd (createOwner B w)) "o_msg" = Some (danger B e))
     /\ (forall j id w1 e,
            api B "/api/admin/owners" (owners_post w) w = (Normal j, w1) ->
            prop (Some j) "id" = Normal id ->
            fst (refreshOwners B (shown "o_msg" (Str.fill Tpl.owner_created [ToString id]) w1))
            = Throw e ->
            html_of (snd (createOwner B w)) "o_msg" = Some (danger B e)))
  /\ (forall w, Forall (has w) assets_form ->
       fst (createAsset B w) = Normal tt
       /\ (forall e, fst (api B "/api/admin/assets" (assets_post w) w) = Throw e ->
              html_of (snd (createAsset B w)) "a_msg" = Some (danger B e))
       /\ (forall j id w1 e,
              api B "/api/admin/assets" (assets_post w) w = (Normal j, w1) ->
              prop (Some j) "id" = Normal id ->
              fst (refreshAssets B (shown "a_msg" (Str.fill Tpl.asset_created [ToString id]) w1))
              = Throw e ->
              html_of (snd (createAsset B w)) "a_msg" = Some (danger B e)))
  /\ (forall w, Forall (has w) vault_form ->
       fst (vaultUpload B w) = Normal tt
       /\ (forall f m, chosen_file w = Some f ->
              respond B (events w) (ingest_request w f) = Rejected m ->
              html_of (snd (vaultUpload B w)) "v_msg"
              = Some (danger B (TypeError (NetworkFailure m))))
       /\ (forall f r e, chosen_file w = Some f ->
              answers B w (ingest_request w f) r -> json_result r = Throw e ->
              html_of (snd (vaultUpload B w)) "v_msg" = Some (danger B e))
       /\ (forall f r fs, chosen_file w = Some f ->
              answers B w (ingest_request w f) r -> ok r = false ->
              json_result r = Normal (JObj fs) ->
              html_of (snd (vaultUpload B w)) "v_msg"
              = Some (danger B (Error (ToString (or_else (assoc "detail" fs)
                                                   (Some (JStr "ingest failed")))))))
       /\ (forall f fs e, chosen_file w = Some f ->
              accepted B w (ingest_request w f) fs ->
              fst (refreshVaultList B
                     (shown "v_msg"
                        (Str.fill Tpl.ingested
                           [ToString (assoc "object_id" fs); ToString (assoc "sha256" fs)])
                        (after (ingest_request w f) (shown "v_msg" "" w))))
              = Throw e ->
              html_of (snd (vaultUpload B w)) "v_msg" = Some (danger B e)))
  /\ (forall w e, fst (api B owners_list no_options w) = Throw e ->
       refreshOwners B w = (Throw e, record (Fetched (get owners_list)) w))
  /\ (forall w e, fst (api B assets_list no_options w) = Throw e ->
       refreshAssets B w = (Throw e, record (Fetched (get assets_list)) w))
  /\ (forall w e, fst (api B vault_list no_options w) = Throw e ->
       refreshVaultList B w = (Throw e, record (Fetched (get vault_list)) w))
  /\ (forall w e, has w "tab_onboarding" ->
       fst (api B onboarding_list no_options w) = Throw e ->
       fst (renderOnboarding B w) = Throw e)
  /\ (forall id w e, has w "ob_detail" ->
       fst (api B ("/api/admin/onboarding/" +:+ id) no_options w) = Throw e ->
       fst (openOnboarding B id w) = Throw e).
Proof.
  repeat apply conj.
  - intros w Hform. present Hform. unfold owners_post. values.
    unfold createOwner. do 12 step.
    match goal with
    | |- context [try_catch ?b ?h w] =>
        destruct (guarded_alert b "o_msg" (danger B) w) as [G1 G2];
          [preserved | unfold has; eauto | reflexivity |]
    end.
    split; [exact G1|]. split.
    + intros e He. apply G2. now rewrite (bind_throws _ _ _ _ He).
    + intros j id w1 e Hapi Hid Href. apply G2.
      pose proof (api_world B "/api/admin/owners"
                    (post_json (stringify (owner_payload (value x) (value x0) (value x1)
                                             (value x2) (value x3) (value x4)))) w) as Hw1.
      rewrite Hapi in Hw1. cbn [snd] in Hw1. subst w1.
      unfold shown in Href. erewrite set_innerHTML_found in Href by found.
      cbn [snd] in Href.
      rewrite bind_js, Hapi. rewrite bind_js. unfold lift at 1. rewrite Hid.
      do 2 step.
      now rewrite (surjective_pairing (refreshOwners B _)), Href.
  - intros w Hform. present Hform. unfold assets_post. values.
    unfold createAsset. do 10 step.
    match goal with
    | |- context [try_catch ?b ?h w] =>
        destruct (guarded_alert b "a_msg" (danger B) w) as [G1 G2];
          [preserved | unfold has; eauto | reflexivity |]
    end.
    split; [exact G1|]. split.
    + intros e He. apply G2. now rewrite (bind_throws _ _ _ _ He).
    + intros j id w1 e Hapi Hid Href. apply G2.
      pose proof (api_world B "/api/admin/assets"
                    (post_json (stringify (asset_payload (value x) (value x0) (value x1)
                                             (value x2) (value x3)))) w) as Hw1.
      rewrite Hapi in Hw1. cbn [snd] in Hw1. subst w1.
      unfold shown in Href. erewrite set_innerHTML_found in Href by found.
      cbn [snd] in Href.
      rewrite bind_js, Hapi. rewrite bind_js. unfold lift at 1. rewrite Hid.
      do 2 step.
      now rewrite (surjective_pairing (refreshAssets B _)), Href.
  - intros w Hform. destruct (vaultUpload_guarded w Hform) as [G1 [G2 G3]].
    repeat apply conj; auto.
    + intros f r fs Hfile Hans Hok Hj.
      now apply vaultUpload_refused with (r := r) (f := f).
    + intros f fs e Hfile Hacc He.
      rewrite (vaultUpload_accepted B w f fs Hform Hfile Hacc).
      apply guarded_alert; [preserved | | reflexivity | exact He].
      apply has_shown; [|reflexivity].
      change (has (shown "v_msg" "" w) "v_msg").
      apply has_shown; [|reflexivity].
      unfold vault_form in Hform. apply Forall_cons in Hform. tauto.
  - intros w e He. unfold refreshOwners.
    rewrite (bind_throws _ _ _ _ He). now rewrite api_world.
  - intros w e He. unfold refreshAssets.
    rewrite (bind_throws _ _ _ _ He). now rewrite api_world.
  - intros w e He. unfold refreshVaultList.
    rewrite (bind_throws _ _ _ _ He). now rewrite api_world.
  - intros w e [t Ht] He. unfold renderOnboarding. do 4 step.
    change (Str.encodeURIComponent (value (input "submitted"))) with "submitted".
    erewrite bind_throws; [reflexivity|].
    rewrite <- He. now apply api_result_events.
  - intros id w e [d Hd] He. unfold openOnboarding. do 2 step.
    erewrite bind_throws; [reflexivity|].
    rewrite <- He. now apply api_result_events.
Qed.
End Failures.

(** The create form against the server that fails: nothing is thrown, the
    alert shows the error. *)
Lemma failures_shown_or_thrown_witness :
  fst (createOwner Demo.broken_server Demo.owners_open) = Normal tt
  /\ html_of (snd (createOwner Demo.broken_server Demo.owners_open)) "o_msg"
     = Some (Str.lit "<div class=@alert alert-danger@>Error: HTTP 500</div>").
Proof.
  destruct (failures_shown_or_thrown Demo.broken_server) as [H _].
  destruct (H Demo.owners_open owners_open_has_form) as [H1 [H2 _]].
  split; [exact H1|].
  apply (H2 (Error "HTTP 500")). reflexivity.
Defined.

(** [C2] fails for the list routines: when the owners tab is opened against
    a server that fails, the error of [refreshOwners] reaches nobody (it is
    recorded as an unhandled rejection) and no alert is shown; called
    directly, [refreshOwners] throws. *)
Lemma list_failure_escapes :
  events (snd (showTab Demo.broken_server "owners" Demo.page))
  = [Fetched (get owners_list); Unhandled (Error "HTTP 500")]
  /\ html_of (snd (showTab Demo.broken_server "owners" Demo.page)) "o_msg" = Some ""
  /\ fst (refreshOwners Demo.broken_server Demo.owners_open) = Throw (Error "HTTP 500").
Proof. vm_compute. repeat split. Qed.

(** ** After a mutation *)

Section Mutated.
Variable B : browser.

(** [C4], as amended.  After each mutation that the server accepts, the
    affected list is requested anew, as the very next request: the owners
    after [createOwner], the assets after [createAsset], the vault objects
    after the ingest, the onboarding list after a status update or an
    approval.  The table is rendered anew only when that request is
    accepted: it then shows exactly the rows of the records of the answer.
    When the list request fails after a create or an ingest, the table
    still shows the rows it showed before, and the alert of the form shows
    the error.  After a status update or an approval, a failing list request
    is thrown, the table is left empty and the detail is not requested;
    when the list is accepted the detail is requested next, and shown when
    that request is accepted too. *)
Theorem mutations_refresh :
  (forall w fs,
      Forall (has w) owners_form -> has w "o_table" ->
      accepted B w {| url := "/api/admin/owners"; opts := owners_post w |} fs ->
      list_refreshed B Owners "o_msg" w
        (after {| url := "/api/admin/owners"; opts := owners_post w |} w)
        (snd (createOwner B w)))
  /\ (forall w fs,
        Forall (has w) assets_form -> has w "a_table" ->
        accepted B w {| url := "/api/admin/assets"; opts := assets_post w |} fs ->
        list_refreshed B Assets "a_msg" w
          (after {| url := "/api/admin/assets"; opts := assets_post w |} w)
          (snd (createAsset B w)))
  /\ (forall w f fs,
        Forall (has w) vault_form -> has w "v_table" -> chosen_file w = Some f ->
        accepted B w (ingest_request w f) fs ->
        list_refreshed B Vault "v_msg" w
          (after (ingest_request w f) w)
          (snd (vaultUpload B w)))
  /\ (forall id w fs,
        has w "set_status" -> has w "set_notes" -> has w "tab_onboarding" ->
        accepted B w (status_post id w) fs ->
        onboarding_refreshed B id (after (status_post id w) w)
          (setOnboardingStatus B id w))
  /\ (forall id w fs,
        has w "tab_onboarding" ->
        confirm_answer B (events w) approve_question = true ->
        accepted B (record (Confirmed approve_question true) w) (approve_post id) fs ->
        onboarding_refreshed B id
          (record (Alerted (login_text fs))
             (after (approve_post id) (record (Confirmed approve_question true) w)))
          (approveOnboarding B id w)).
Proof.
  repeat apply conj.
  - intros w fs Hform Htable Hacc.
    assert (Hmsg : has w "o_msg").
    { unfold owners_form in Hform. rewrite !Forall_cons in Hform. tauto. }
    rewrite (createOwner_accepted B w fs Hform Hacc).
    apply (list_refreshed_in_try B Owners "o_msg"); try reflexivity; try discriminate.
    + now apply has_shown.
    + now apply has_shown.
    + apply events_shown.
    + now rewrite html_of_shown_other.
  - intros w fs Hform Htable Hacc.
    assert (Hmsg : has w "a_msg").
    { unfold assets_form in Hform. rewrite !Forall_cons in Hform. tauto. }
    rewrite (createAsset_accepted B w fs Hform Hacc).
    apply (list_refreshed_in_try B Assets "a_msg"); try reflexivity; try discriminate.
    + now apply has_shown.
    + now apply has_shown.
    + apply events_shown.
    + now rewrite html_of_shown_other.
  - intros w f fs Hform Htable Hfile Hacc.
    assert (Hmsg : has w "v_msg").
    { unfold vault_form in Hform. rewrite !Forall_cons in Hform. tauto. }
    rewrite (vaultUpload_accepted B w f fs Hform Hfile Hacc).
    apply (list_refreshed_in_try B Vault "v_msg"); try reflexivity; try discriminate.
    + apply has_shown; [|reflexivity].
      change (has (shown "v_msg" "" w) "v_table"). now apply has_shown.
    + apply has_shown; [|reflexivity].
      change (has (shown "v_msg" "" w) "v_msg"). now apply has_shown.
    + rewrite events_shown. unfold after. cbn [events record]. now rewrite events_shown.
    + rewrite html_of_shown_other by reflexivity.
      change (html_of (shown "v_msg" "" w) "v_table" = html_of w "v_table").
      now rewrite html_of_shown_other.
  - intros id w fs Hs Hn Htab Hacc.
    rewrite (setOnboardingStatus_accepted B id w fs Hs Hn Hacc).
    now apply onboarding_pair_refreshed.
  - intros id w fs Htab Hyes Hacc.
    rewrite (approveOnboarding_accepted B id w fs Hyes Hacc).
    now apply onboarding_pair_refreshed.
Qed.

End Mutated.

(** An owner created while all is well: the table shows the row of the
    owner that was there and the row of the new one. *)
Lemma mutations_refresh_witness :
  html_of (snd (createOwner Outage.up Outage.owners_listed)) "o_table"
  = Some (Str.fill Tpl.owners_table [Outage.acme_row +:+ Outage.beta_row]).
Proof.
  assert (Hform : Forall (has Outage.owners_listed) owners_form) by form_on_page.
  destruct (mutations_refresh Outage.up) as [H _].
  destruct (H Outage.owners_listed [("id", JStr "o2")]) as (_ & H2 & _).
  - exact Hform.
  - on_page.
  - eexists. repeat split; reflexivity.
  - apply (H2 [("items", JArr [JObj Outage.acme; JObj Outage.beta])] [Outage.acme; Outage.beta]).
    + eexists. repeat split; reflexivity.
    + reflexivity.
Defined.

(** [C4] fails when the list request that follows the mutation fails.  The
    owners tab shows the owner [Acme]; a new owner is posted, the server
    accepts the POST and then answers the list request with status 503.
    The table still shows the one old row, without the owner just created,
    and the alert shows the error of the list request. *)
Lemma stale_rows_after_create :
  html_of Outage.owners_listed "o_table" = Some (Str.fill Tpl.owners_table [Outage.acme_row])
  /\ events (snd (createOwner Outage.down Outage.owners_listed))
     = events Outage.owners_listed
       ++ [ Fetched {| url := "/api/admin/owners"; opts := owners_post Outage.owners_listed |};
            Fetched (get owners_list) ]
  /\ html_of (snd (createOwner Outage.down Outage.owners_listed)) "o_table"
     = Some (Str.fill Tpl.owners_table [Outage.acme_row])
  /\ html_of (snd (createOwner Outage.down Outage.owners_listed)) "o_msg"
     = Some (Str.lit "<div class=@alert alert-danger@>Error: HTTP 503</div>").
Proof. vm_compute. repeat split. Qed.


Example approval_sample_events :
  events (snd (approveOnboarding (Demo.healthy true) "s1" Demo.detail_open))
  = events Demo.detail_open
    ++ [ Confirmed approve_question true;
         Fetched (approve_post "s1");
         Alerted (Str.fill Tpl.login_created ["owner@example.com"; "s3cret"]);
         Fetched (get onboarding_list);
         Fetched (get (detail_url "s1")) ].
Proof. vm_compute. reflexivity. Qed.


(** ** Tabs and start-up *)

Section Startup.
Variable B : browser.

(** [C9] For each of the four names, on a page that has the four
    containers, [showTab] shows the container of that tab and hides the
    other three, and calls the render routine of that tab and no other.
    The routine lays the tab out anew from its template and fetches its
    list; calling [showTab] again with the name that is already shown does
    all of this again. *)
Theorem showTab_switches name w :
  In name tabs -> Forall (has w) tab_ids ->
  fst (showTab B name w) = Normal tt
  /\ (forall t, In t tabs ->
        display_of (snd (showTab B name w)) ("tab_" +:+ t)
        = Some (if String.eqb t name then "block" else "none"))
  /\ showTab B name w = detached (render_of B name) (switched name w)
  /\ html_of (snd (showTab B name w)) ("tab_" +:+ name) = Some (page_of name)
  /\ starts (showTab B name) w [Fetched (get (list_of name))]
  /\ (let w' := snd (showTab B name w) in
      showTab B name w' = detached (render_of B name) (switched name w')
      /\ html_of (snd (showTab B name w')) ("tab_" +:+ name) = Some (page_of name)
      /\ starts (showTab B name) w' [Fetched (get (list_of name))]).
Proof.
  intros Hname Htabs.
  destruct (showTab_facts B name w Hname Htabs) as [H1 [H2 [H3 [H4 H5]]]].
  destruct (showTab_facts B name _ Hname H5) as [_ [_ [H3' [H4' _]]]].
  repeat apply conj; auto.
  - now apply showTab_render.
  - now apply showTab_render.
Qed.

End Startup.

(** The vault tab shown on the page as served. *)
Lemma showTab_switches_witness :
  display_of (snd (showTab (Demo.healthy true) "vault" Demo.page)) "tab_vault" = Some "block"
  /\ display_of (snd (showTab (Demo.healthy true) "vault" Demo.page)) "tab_owners" = Some "none"
  /\ starts (showTab (Demo.healthy true) "vault") Demo.page [Fetched (get vault_list)].
Proof.
  destruct (showTab_switches (Demo.healthy true) "vault" Demo.page) as [_ [H [_ [_ [S _]]]]].
  - cbv. tauto.
  - exact page_has_tabs.
  - split; [|split].
    + apply (H "vault"). cbv. tauto.
    + apply (H "owners"). cbv. tauto.
    + exact S.
Defined.


(** ** Rows *)

Section Rows.
Variable B : browser.

(** A cell printed with the fallback does not show a word that the value
    itself does not show. *)
Lemma optional_cell_clean (p : string) (v : jsval) :
  p <> "" ->
  (forall j, v = Some j -> Str.contains p (to_string j) = false) ->
  Str.contains p (ToString (or_else v empty_string)) = false.
Proof.
  intros Hp Hv. unfold or_else. destruct (truthy v) eqn:E.
  - destruct v as [j|]; [now apply Hv | discriminate E].
  - now apply ContainsFacts.contains_nil.
Qed.

Lemma required_cell_clean (p : string) (v : jsval) :
  v <> None ->
  (forall j, v = Some j -> Str.contains p (to_string j) = false) ->
  Str.contains p (ToString v) = false.
Proof. intros Hn Hv. destruct v as [j|]; [now apply Hv | contradiction]. Qed.

(** [C3], as amended.  In each of the four tables the row of a record is
    the template of the row filled with the date and, column by column, with
    what the column shows: rendering a record never throws, and neither does
    rendering a list of records.  A field that the template prints with the
    fallback (for instance [owner_name]) shows as the empty string when the
    record does not have it.  A field that the template prints without the
    fallback (for instance [status] in the onboarding table) shows as the
    word [undefined] when the record does not have it, and the row then
    contains the word.  The row of a record that has the fields printed
    without fallback does not contain [undefined], unless the date or one of
    the printed values itself does. *)
Theorem rows_tolerate_absent_fields (t : table) :
  (forall fs,
      row_of B t (JObj fs)
      = Normal (Str.fill (row_template t)
                  (toLocaleString B (assoc "created_at" fs) :: map (cell fs) (columns t))))
  /\ (forall records,
        (forall r, In r records -> exists fs, r = JObj fs) ->
        exists html, render_rows (row_of B t) (Some (JArr records)) = Normal html)
  /\ (forall k fs,
        In k (optional_fields t) -> assoc k fs = None ->
        In (k, true) (columns t) /\ cell fs (k, true) = "")
  /\ (forall k fs,
        In k (required_fields t) -> assoc k fs = None ->
        In (k, false) (columns t) /\ cell fs (k, false) = "undefined"
        /\ (forall html, row_of B t (JObj fs) = Normal html ->
                         Str.contains "undefined" html = true))
  /\ (forall fs html,
        row_of B t (JObj fs) = Normal html ->
        Str.contains "undefined" (toLocaleString B (assoc "created_at" fs)) = false ->
        (forall k, In k (required_fields t) -> assoc k fs <> None) ->
        (forall k j, In k (required_fields t ++ optional_fields t) ->
                     assoc k fs = Some j -> Str.contains "undefined" (to_string j) = false) ->
        Str.contains "undefined" html = false).
Proof.
  assert (Hrow : forall fs, exists html, row_of B t (JObj fs) = Normal html).
  { intros fs. rewrite row_of_markup. now eexists. }
  repeat apply conj.
  - intros fs. apply row_of_markup.
  - intros records Hobj. unfold render_rows. cbn [or_else truthy].
    assert (H : exists cells, map_each (row_of B t) records = Normal cells).
    { induction records as [|r rs IH]; [now exists []|].
      destruct (Hobj r (or_introl eq_refl)) as [fs ->].
      destruct (Hrow fs) as [html Hhtml].
      destruct IH as [cells Hcells]; [intros; apply Hobj; now right|].
      exists (html :: cells). cbn [map_each]. now rewrite Hhtml, Hcells. }
    destruct H as [cells ->]. now eexists.
  - intros k fs Hk Hnone. unfold cell. cbn [fst snd]. rewrite Hnone.
    split; [|reflexivity].
    destruct t; cbn [optional_fields columns] in *;
      repeat (destruct Hk as [<-|Hk]; [cbn [In]; tauto|]); contradiction.
  - intros k fs Hk Hnone.
    assert (Hcol : In (k, false) (columns t)).
    { destruct t; cbn [required_fields columns] in *;
        repeat (destruct Hk as [<-|Hk]; [cbn [In]; tauto|]); contradiction. }
    assert (Hcell : cell fs (k, false) = "undefined")
      by (unfold cell; cbn [fst snd]; now rewrite Hnone).
    split; [exact Hcol|]. split; [exact Hcell|].
    intros html Hhtml. rewrite row_of_markup in Hhtml. apply Normal_inj in Hhtml.
    rewrite <- Hhtml, <- Hcell. unfold row_markup.
    apply MarkupFacts.fill_contains.
    + right. now apply in_map.
    + destruct t; cbn; lia.
  - intros fs html Hhtml Hdate Hreq Hclean.
    assert (R : forall k, In k (required_fields t) ->
                          Str.contains "undefined" (ToString (assoc k fs)) = false).
    { intros k Hk. apply required_cell_clean; [now apply Hreq|].
      intros j Hj. apply (Hclean k j); [apply in_or_app; now left | exact Hj]. }
    assert (O : forall k, In k (optional_fields t) ->
                          Str.contains "undefined" (ToString (or_else (assoc k fs) empty_string))
                          = false).
    { intros k Hk. apply optional_cell_clean; [discriminate|].
      intros j Hj. apply (Hclean k j); [apply in_or_app; now right | exact Hj]. }
    destruct t; cbn [row_of] in Hhtml;
      unfold onboarding_row, vault_row, owner_row, asset_row in Hhtml;
      cbn [prop mbind completion_bind mret completion_ret] in Hhtml;
      apply Normal_inj in Hhtml; rewrite <- Hhtml;
      (apply ContainsFacts.fill_clean;
       [ discriminate
       | first [ exact (ContainsFacts.row_templates_fenced Onboarding)
               | exact (ContainsFacts.row_templates_fenced Vault)
               | exact (ContainsFacts.row_templates_fenced Owners)
               | exact (ContainsFacts.row_templates_fenced Assets) ]
       | intros h Hin; cbn [In] in Hin;
         repeat (destruct Hin as [<-|Hin]; [first [exact Hdate | apply R; cbv; tauto | apply O; cbv; tauto]|]);
         contradiction ]).
Qed.
End Rows.

(** The row of a submission that has neither [owner_name] nor
    [owner_email]: the two columns are empty. *)
Lemma rows_tolerate_absent_fields_witness :
  onboarding_row (Demo.healthy true) (JObj Demo.submission)
  = Normal (Str.fill Tpl.onboarding_row
              ["5/1/2024, 10:00:00 AM"; "submitted"; ""; ""; "2"; "s1"])
  /\ Str.contains "undefined"
       (Str.fill Tpl.onboarding_row ["5/1/2024, 10:00:00 AM"; "submitted"; ""; ""; "2"; "s1"])
     = false.
Proof.
  destruct (rows_tolerate_absent_fields (Demo.healthy true) Onboarding) as (H1 & _ & _ & _ & H).
  split; [exact (H1 Demo.submission)|].
  apply (H Demo.submission).
  - reflexivity.
  - reflexivity.
  - intros k Hk. cbn in Hk.
    repeat (destruct Hk as [<-|Hk]; [discriminate|]). contradiction.
  - intros k j Hk Hj. cbn in Hk.
    repeat (destruct Hk as [<-|Hk]; [vm_compute in Hj; try discriminate;
                                     injection Hj as <-; reflexivity|]).
    contradiction.
Defined.

(** [C3] fails for a field that the template prints without the fallback.
    A submission without [status] (and without the two optional fields) is
    rendered, and its status column shows the word [undefined]. *)
Lemma missing_status_prints_undefined :
  onboarding_row (Demo.healthy true)
    (JObj [ ("id", JStr "s2"); ("created_at", JStr "2024-05-01T10:00:00Z");
            ("ip_assets_count", JNum 0) ])
  = Normal (Str.fill Tpl.onboarding_row
              ["5/1/2024, 10:00:00 AM"; "undefined"; ""; ""; "0"; "s2"])
  /\ Str.contains "undefined"
       (Str.fill Tpl.onboarding_row ["5/1/2024, 10:00:00 AM"; "undefined"; ""; ""; "0"; "s2"])
     = true.
Proof. vm_compute. split; reflexivity. Qed.
(** * Further properties of the script *)

(** ** The helper and the session *)

Section Helper.
Variable B : browser.

(** [X1] A call of the helper [api] issues exactly one request, whatever the
    answer (there is no retry), and touches neither the page nor the
    address. *)
Theorem api_single_request path o w :
  events (snd (api B path o w)) = events w ++ [Fetched {| url := path; opts := o |}]
  /\ document (snd (api B path o w)) = document w
  /\ href (snd (api B path o w)) = href w.
Proof. rewrite api_world. now repeat split. Qed.

(** [X2] On an answer with a status in 200..299 the helper never throws: it
    returns the parsed body, and the empty object when the body is no JSON
    (the parse failure is swallowed). *)
Theorem api_success_body path o w r :
  answers B w {| url := path; opts := o |} r -> ok r = true ->
  (forall j, json_result r = Normal j -> fst (api B path o w) = Normal j)
  /\ (forall e, json_result r = Throw e -> fst (api B path o w) = Normal (JObj [])).
Proof.
  intros Hr Hok. unfold answers in Hr.
  split; intros x Hj; rewrite api_unfold; cbv zeta; now rewrite Hr, Hok, Hj.
Qed.

(** [X3] What the helper throws besides its own [Error]: a request that
    fails on the network is thrown on as the [TypeError] of [fetch], message
    unchanged; an answer outside 200..299 whose body is the JSON value
    [null] throws a [TypeError] (the read of [detail] fails), not the status.
    A body that is a number, a string, a boolean or an array has no
    [detail], and gives the status. *)
Theorem api_failure_kinds path o w :
  (forall m, respond B (events w) {| url := path; opts := o |} = Rejected m ->
     fst (api B path o w) = Throw (TypeError (NetworkFailure m)))
  /\ (forall r, answers B w {| url := path; opts := o |} r -> ok r = false ->
        json_result r = Normal JNull ->
        fst (api B path o w) = Throw (TypeError (NullishRead "detail")))
  /\ (forall r j, answers B w {| url := path; opts := o |} r -> ok r = false ->
        json_result r = Normal j -> j <> JNull -> (forall fs, j <> JObj fs) ->
        fst (api B path o w) = Throw (Error ("HTTP " +:+ pretty (status r)))).
Proof.
  split; [|split].
  - intros m Hr. rewrite api_unfold. cbv zeta. now rewrite Hr.
  - intros r Hr Hok Hj. unfold answers in Hr.
    rewrite api_unfold. cbv zeta. now rewrite Hr, Hok, Hj.
  - intros r j Hr Hok Hj Hnull Hobj. unfold answers in Hr.
    rewrite api_unfold. cbv zeta. rewrite Hr, Hok, Hj.
    destruct j; try reflexivity; [contradiction | now destruct (Hobj fields)].
Qed.

(** [X4] [logout] posts to the logout endpoint and nothing else.  When the
    server answers with a status in 200..299 (whatever the body) the address
    becomes the login page; when the request fails the error is thrown and
    the address stays: a failed logout does not leave the admin page. *)
Theorem logout_redirects_on_success w :
  events (snd (logout B w))
  = events w ++ [Fetched {| url := "/api/auth/logout"; opts := post |}]
  /\ document (snd (logout B w)) = document w
  /\ (forall r, answers B w {| url := "/api/auth/logout"; opts := post |} r -> ok r = true ->
        fst (logout B w) = Normal tt /\ href (snd (logout B w)) = login_page)
  /\ (forall e, fst (api B "/api/auth/logout" post w) = Throw e ->
        fst (logout B w) = Throw e /\ href (snd (logout B w)) = href w).
Proof.
  unfold logout. rewrite bind_js.
  pose proof (api_world B "/api/auth/logout" post w) as Hw.
  split; [|split; [|split]].
  - destruct (api B "/api/auth/logout" post w) as [[j|e] w1]; cbn [snd] in Hw; now subst w1.
  - destruct (api B "/api/auth/logout" post w) as [[j|e] w1]; cbn [snd] in Hw; now subst w1.
  - intros r Hr Hok. unfold answers in Hr.
    rewrite api_unfold. cbv zeta. rewrite Hr, Hok. now cbn.
  - intros e He.
    destruct (api B "/api/auth/logout" post w) as [[j|e'] w1]; cbn [fst snd] in *;
      [discriminate|]. subst w1. apply Throw_inj in He. subst e'. now split.
Qed.
End Helper.

(** A 204 without a body: the helper returns the empty object. *)
Lemma api_success_body_witness :
  fst (api Sample.silent_server "/api/auth/logout" post Demo.page) = Normal (JObj []).
Proof.
  destruct (api_success_body Sample.silent_server "/api/auth/logout" post Demo.page
              Sample.no_content eq_refl eq_refl) as [_ H].
  exact (H _ eq_refl).
Defined.

(** No network, and a 500 whose body is [null]. *)
Lemma api_failure_kinds_witness :
  fst (api Sample.offline "/api/auth/me" no_options Demo.page)
  = Throw (TypeError (NetworkFailure "Failed to fetch"))
  /\ fst (api (Demo.constant_browser (Demo.reply 500 JNull) true) "/api/auth/me" no_options
            Demo.page)
     = Throw (TypeError (NullishRead "detail")).
Proof.
  split.
  - destruct (api_failure_kinds Sample.offline "/api/auth/me" no_options Demo.page) as [H _].
    exact (H _ eq_refl).
  - destruct (api_failure_kinds (Demo.constant_browser (Demo.reply 500 JNull) true)
                "/api/auth/me" no_options Demo.page) as [_ [H _]].
    exact (H {| status := 500; json_result := Normal JNull |} eq_refl eq_refl eq_refl).
Defined.

(** Logging out against a server that answers 204, and against one that
    fails. *)
Lemma logout_redirects_on_success_witness :
  href (snd (logout Sample.silent_server Demo.page)) = login_page
  /\ href (snd (logout Demo.broken_server Demo.page)) = href Demo.page.
Proof.
  split.
  - destruct (logout_redirects_on_success Sample.silent_server Demo.page) as (_ & _ & H & _).
    exact (proj2 (H Sample.no_content eq_refl eq_refl)).
  - destruct (logout_redirects_on_success Demo.broken_server Demo.page) as (_ & _ & _ & H).
    exact (proj2 (H (Error "HTTP 500") eq_refl)).
Defined.

(** ** Tabs *)

(** Setting [style.display] leaves the markup of every element alone. *)
Lemma set_display_markup id d w k : html_of (snd (set_display id d w)) k = html_of w k.
Proof.
  unfold set_display, html_of. destruct (document w !! id) as [e|] eqn:E; [|reflexivity].
  cbn [snd document with_document].
  destruct (String.eqb_spec k id) as [->|Hne].
  - now rewrite lookup_insert_eq, E.
  - now rewrite lookup_insert_ne by congruence.
Qed.

Lemma for_each_display_markup (f g : string -> string) l w k :
  html_of (snd (for_each l (fun t => set_display (f t) (g t)) w)) k = html_of w k.
Proof.
  revert w. induction l as [|t l IH]; intros w; [reflexivity|].
  cbn [for_each]. rewrite bind_js.
  pose proof (set_display_markup (f t) (g t) w k) as H.
  destruct (set_display (f t) (g t) w) as [[[]|e] w1]; cbn [snd] in *.
  - now rewrite IH.
  - exact H.
Qed.

Section OtherTabs.
Variable B : browser.

(** [X5] [showTab] with a name that is none of the four tabs hides all four
    containers and does nothing else: no render routine runs, nothing is
    requested, and the markup of the page stays as it was. *)
Theorem showTab_unknown_name name w :
  ~ In name tabs -> Forall (has w) tab_ids ->
  fst (showTab B name w) = Normal tt
  /\ (forall t, In t tabs ->
        display_of (snd (showTab B name w)) ("tab_" +:+ t) = Some "none")
  /\ events (snd (showTab B name w)) = events w
  /\ (forall k, html_of (snd (showTab B name w)) k = html_of w k).
Proof.
  intros Hname Htabs. destruct (switched_spec name w Htabs) as (Hwalk & Hdisp & Hev & _).
  assert (Hne : forall t, In t tabs -> String.eqb name t = false).
  { intros t Ht. apply String.eqb_neq. intros ->. contradiction. }
  assert (Hrun : showTab B name w = (Normal tt, switched name w)).
  { unfold showTab. rewrite bind_js. unfold visibility in Hwalk. rewrite Hwalk.
    unfold when_tab.
    rewrite (Hne "onboarding"), (Hne "vault"), (Hne "owners"), (Hne "assets")
      by (cbn; tauto).
    now rewrite !bind_js, !ret_js. }
  rewrite Hrun. cbn [fst snd]. split; [reflexivity|]. split; [|split; [exact Hev|]].
  - intros t Ht. rewrite (Hdisp t Ht). unfold visibility.
    rewrite String.eqb_sym, (Hne t Ht). reflexivity.
  - intros k. apply for_each_display_markup.
Qed.

(** [X6] The filter of the onboarding list is never applied.  Whatever the
    selector [ob_status] holds when [renderOnboarding] is called, the
    routine lays the tab out anew before it reads the selector, so the list
    it requests is the one with [status=submitted], and the selector shows
    [submitted] afterwards. *)
Theorem onboarding_filter_is_reset w :
  has w "tab_onboarding" ->
  starts (renderOnboarding B) w
    [Fetched (get "/api/admin/onboarding?status=submitted&limit=50")]
  /\ value_of (snd (renderOnboarding B w)) "ob_status" = "submitted".
Proof.
  intros Htab. split; [exact (renderOnboarding_starts B w Htab)|].
  destruct Htab as [t Ht]. unfold renderOnboarding.
  rewrite bind_js, (set_innerHTML_found _ _ _ _ _ Ht).
  match goal with
  | |- value_of (snd (?m ?w1)) _ = _ =>
      assert (Hs : same "ob_status" m) by preserved;
      assert (H1 : document w1 !! "ob_status" = Some (input "submitted")) by found;
      unfold value_of; rewrite (Hs w1), H1
  end.
  reflexivity.
Qed.
End OtherTabs.

(** The page as served, asked for a tab that does not exist. *)
Lemma showTab_unknown_name_witness :
  display_of (snd (showTab (Demo.healthy true) "settings" Demo.page)) "tab_onboarding"
  = Some "none"
  /\ events (snd (showTab (Demo.healthy true) "settings" Demo.page)) = [].
Proof.
  assert (Hname : ~ In "settings" tabs).
  { intros H. repeat (destruct H as [H|H]; [discriminate H|]). exact H. }
  destruct (showTab_unknown_name (Demo.healthy true) "settings" Demo.page Hname page_has_tabs)
    as (_ & Hd & He & _).
  split; [|exact He].
  apply (Hd "onboarding"). now left.
Defined.

(** The onboarding tab with [approved] chosen in the selector: the list
    requested is still the one of the submitted. *)
Lemma onboarding_filter_is_reset_witness :
  value_of Sample.approved_chosen "ob_status" = "approved"
  /\ starts (renderOnboarding (Demo.healthy true)) Sample.approved_chosen
       [Fetched (get "/api/admin/onboarding?status=submitted&limit=50")]
  /\ value_of (snd (renderOnboarding (Demo.healthy true) Sample.approved_chosen)) "ob_status"
     = "submitted".
Proof.
  split; [reflexivity|].
  apply (onboarding_filter_is_reset (Demo.healthy true) Sample.approved_chosen).
  apply is_Some_alt. vm_compute. exact I.
Defined.

(** ** Lists *)

Lemma concat_app (a b : list string) : Str.concat (a ++ b) = Str.concat a +:+ Str.concat b.
Proof.
  induction a as [|x a IH]; cbn [Str.concat fold_right app].
  - now rewrite TrimFacts.append_nil_l.
  - fold (Str.concat (a ++ b)). fold (Str.concat a).
    now rewrite IH, TrimFacts.append_assoc.
Qed.

Lemma map_each_app {A C} (f : A -> completion C) (l1 l2 : list A) (c1 c2 : list C) :
  map_each f l1 = Normal c1 -> map_each f l2 = Normal c2 ->
  map_each f (l1 ++ l2) = Normal (c1 ++ c2).
Proof.
  revert c1. induction l1 as [|x l1 IH]; intros c1 H1 H2.
  - apply Normal_inj in H1. now subst c1.
  - cbn [map_each app] in *. destruct (f x) as [y|e]; [|discriminate H1].
    cbn [mbind completion_bind] in *.
    destruct (map_each f l1) as [ys|e]; [|discriminate H1].
    cbn [mbind completion_bind mret completion_ret] in *.
    apply Normal_inj in H1. subst c1. now rewrite (IH ys eq_refl H2).
Qed.

Lemma render_rows_array (row : json -> completion string) (l : list json) :
  render_rows row (Some (JArr l)) = (cells ← map_each row l; mret (Str.concat cells)).
Proof. reflexivity. Qed.

Lemma null_or_not (r : json) : r = JNull \/ r <> JNull.
Proof. destruct r; (now left) || (right; discriminate). Qed.

Section Lists.
Variable B : browser.

(** A row is rendered from anything but [null]; on [null] the first read,
    that of [created_at], fails. *)
Lemma row_of_null t : row_of B t JNull = Throw (TypeError (NullishRead "created_at")).
Proof. now destruct t. Qed.

Lemma row_of_value t r : r <> JNull -> exists html, row_of B t r = Normal html.
Proof. intros Hr. destruct t, r; try contradiction; eexists; reflexivity. Qed.

(** The list routine of a table on an accepted answer whose rows render, and
    on one whose rows fail. *)
Lemma refresh_rendered t w fs rows :
  has w (root_of t) -> accepted B w (get (list_url t)) fs ->
  render_rows (row_of B t) (assoc "items" fs) = Normal rows ->
  fst (refresh_of B t w) = Normal tt
  /\ html_of (snd (refresh_of B t w)) (cell_of t) = Some (Str.fill (frame_of t) [rows]).
Proof.
  intros Hroot Hacc Hrows.
  destruct t; cbn [refresh_of root_of cell_of list_url frame_of row_of] in *.
  - rewrite (renderOnboarding_accepted B w fs rows Hroot Hacc Hrows). cbn [fst snd].
    split; [reflexivity|]. apply html_of_shown; [|reflexivity].
    change (has (laid_out "tab_onboarding" (Str.fill Tpl.onboarding_page []) onboarding_kids w)
              "ob_table").
    apply has_laid_out; [exact Hroot | now eexists].
  - rewrite (refreshVaultList_accepted B w fs rows Hroot Hacc Hrows). cbn [fst snd].
    split; [reflexivity|]. now apply html_of_shown.
  - rewrite (refreshOwners_accepted B w fs rows Hroot Hacc Hrows). cbn [fst snd].
    split; [reflexivity|]. now apply html_of_shown.
  - rewrite (refreshAssets_accepted B w fs rows Hroot Hacc Hrows). cbn [fst snd].
    split; [reflexivity|]. now apply html_of_shown.
Qed.

Lemma refresh_throws t w fs e :
  has w (root_of t) -> accepted B w (get (list_url t)) fs ->
  render_rows (row_of B t) (assoc "items" fs) = Throw e ->
  fst (refresh_of B t w) = Throw e
  /\ html_of (snd (refresh_of B t w)) (cell_of t)
     = match t with Onboarding => Some "" | _ => html_of w (cell_of t) end.
Proof.
  intros [x Hx] Hacc Hrows.
  destruct t; cbn [refresh_of root_of cell_of list_url frame_of row_of] in *.
  - unfold renderOnboarding. do 4 step.
    change ("/api/admin/onboarding?status="
            +:+ Str.encodeURIComponent (value (input "submitted")) +:+ "&limit=50")
      with onboarding_list.
    rewrite bind_js, (api_accepted B onboarding_list no_options _ fs)
      by (eapply accepted_events; [|exact Hacc]; reflexivity).
    rewrite bind_js. unfold lift. cbn [prop].
    rewrite bind_js. unfold lift. rewrite Hrows. cbn [fst snd].
    split; [reflexivity|]. unfold html_of, after. world. look. reflexivity.
  - unfold refreshVaultList. unfold get, vault_list in *.
    rewrite bind_js, (api_accepted B _ _ _ _ Hacc).
    rewrite bind_js. unfold lift. cbn [prop].
    rewrite bind_js. unfold lift. rewrite Hrows. now cbn.
  - unfold refreshOwners. unfold get, owners_list in *.
    rewrite bind_js, (api_accepted B _ _ _ _ Hacc).
    rewrite bind_js. unfold lift. cbn [prop].
    rewrite bind_js. unfold lift. rewrite Hrows. now cbn.
  - unfold refreshAssets. unfold get, assets_list in *.
    rewrite bind_js, (api_accepted B _ _ _ _ Hacc).
    rewrite bind_js. unfold lift. cbn [prop].
    rewrite bind_js. unfold lift. rewrite Hrows. now cbn.
Qed.

(** [X7] The [items] of a list answer.  When the answer has no [items], or a
    falsy one ([null], [false], [0], the empty string), the table is rendered
    with its header and no row, and nothing is thrown.  When [items] is
    truthy but no array (an object, a text, a number) the routine throws the
    [TypeError] of the call of [rows.map], and the table is not rendered:
    it stays as it was (in the onboarding tab, which has just been laid out
    anew, empty). *)
Theorem list_items_edge t w fs :
  has w (root_of t) -> accepted B w (get (list_url t)) fs ->
  (truthy (assoc "items" fs) = false ->
     fst (refresh_of B t w) = Normal tt
     /\ html_of (snd (refresh_of B t w)) (cell_of t) = Some (Str.fill (frame_of t) [""]))
  /\ (forall v, assoc "items" fs = Some v -> truthy (Some v) = true ->
        (forall l, v <> JArr l) ->
        fst (refresh_of B t w) = Throw (TypeError (NotCallable "rows.map"))
        /\ html_of (snd (refresh_of B t w)) (cell_of t)
           = match t with Onboarding => Some "" | _ => html_of w (cell_of t) end).
Proof.
  intros Hroot Hacc. split.
  - intros Hfalsy. apply (refresh_rendered t w fs ""); [exact Hroot | exact Hacc|].
    unfold render_rows, or_else. now rewrite Hfalsy.
  - intros v Hv Htruthy Harr. apply (refresh_throws t w fs); [exact Hroot | exact Hacc|].
    unfold render_rows, or_else. rewrite Hv, Htruthy.
    destruct v; try reflexivity. now destruct (Harr items).
Qed.

(** [X8] A list is rendered exactly when none of its records is [null]: every
    other record gives a row, while a [null] among the records makes the
    read of its [created_at] throw.  The routine of the list then throws
    this [TypeError], and no row of the answer is shown, not even those of
    the records before the [null]. *)
Theorem rows_fail_on_null t records :
  (~ In JNull records ->
     exists html, render_rows (row_of B t) (Some (JArr records)) = Normal html)
  /\ (In JNull records ->
        render_rows (row_of B t) (Some (JArr records))
        = Throw (TypeError (NullishRead "created_at")))
  /\ (forall w fs,
        In JNull records ->
        has w (root_of t) -> accepted B w (get (list_url t)) fs ->
        assoc "items" fs = Some (JArr records) ->
        fst (refresh_of B t w) = Throw (TypeError (NullishRead "created_at"))
        /\ html_of (snd (refresh_of B t w)) (cell_of t)
           = match t with Onboarding => Some "" | _ => html_of w (cell_of t) end).
Proof.
  assert (Hnull : In JNull records ->
                  render_rows (row_of B t) (Some (JArr records))
                  = Throw (TypeError (NullishRead "created_at"))).
  { rewrite render_rows_array. induction records as [|r rs IH]; [intros []|].
    intros Hin. cbn [map_each].
    destruct (null_or_not r) as [->|Hr]; [now rewrite row_of_null|].
    destruct (row_of_value t r Hr) as [html ->].
    destruct Hin as [Hin|Hin]; [now subst r|].
    specialize (IH Hin). cbn [mbind completion_bind] in *.
    destruct (map_each (row_of B t) rs); [discriminate IH | exact IH]. }
  split; [|split; [exact Hnull|]].
  - clear Hnull. rewrite render_rows_array. induction records as [|r rs IH]; intros Hnone.
    + now eexists.
    + destruct (row_of_value t r) as [html Hhtml].
      { intros ->. apply Hnone. now left. }
      destruct IH as [rest Hrest]; [intros H; apply Hnone; now right|].
      cbn [map_each]. rewrite Hhtml. cbn [mbind completion_bind] in *.
      destruct (map_each (row_of B t) rs); [|discriminate Hrest].
      now eexists.
  - intros w fs Hin Hroot Hacc Hitems.
    apply (refresh_throws t w fs); [exact Hroot | exact Hacc|].
    rewrite Hitems. now apply Hnull.
Qed.

(** [X9] The rows of a table follow the order of the records: a single
    record gives its row, and the records of two lists put together give the
    rows of the first followed by the rows of the second. *)
Theorem rows_in_order t l1 l2 h1 h2 :
  render_rows (row_of B t) (Some (JArr l1)) = Normal h1 ->
  render_rows (row_of B t) (Some (JArr l2)) = Normal h2 ->
  render_rows (row_of B t) (Some (JArr (l1 ++ l2))) = Normal (h1 +:+ h2)
  /\ (forall r, render_rows (row_of B t) (Some (JArr [r])) = row_of B t r).
Proof.
  rewrite !render_rows_array. intros H1 H2. split.
  - destruct (map_each (row_of B t) l1) as [c1|] eqn:E1; [|discriminate H1].
    destruct (map_each (row_of B t) l2) as [c2|] eqn:E2; [|discriminate H2].
    rewrite (map_each_app _ _ _ _ _ E1 E2).
    cbn [mbind completion_bind mret completion_ret] in *.
    apply Normal_inj in H1, H2. subst h1 h2. now rewrite concat_app.
  - intros r. rewrite render_rows_array. cbn [map_each]. destruct (row_of B t r) as [html|e]; [|reflexivity].
    cbn [mbind completion_bind mret completion_ret Str.concat fold_right].
    now rewrite TrimFacts.append_nil_r.
Qed.
End Lists.

(** The owners list answered without [items], and with a text for [items]. *)
Lemma list_items_edge_witness :
  html_of (snd (refreshOwners (Sample.answering (JObj [])) Demo.owners_open)) "o_table"
  = Some (Str.fill Tpl.owners_table [""])
  /\ fst (refreshOwners (Sample.answering (JObj [("items", JStr "none")])) Demo.owners_open)
     = Throw (TypeError (NotCallable "rows.map")).
Proof.
  split.
  - destruct (list_items_edge (Sample.answering (JObj [])) Owners Demo.owners_open [])
      as [H _]; [on_page | eexists; repeat split; reflexivity|].
    exact (proj2 (H eq_refl)).
  - destruct (list_items_edge (Sample.answering (JObj [("items", JStr "none")])) Owners
                Demo.owners_open [("items", JStr "none")])
      as [_ H]; [on_page | eexists; repeat split; reflexivity|].
    apply (H (JStr "none")); [reflexivity | reflexivity | discriminate].
Defined.

(** A submission followed by [null]. *)
Lemma rows_fail_on_null_witness :
  render_rows (onboarding_row (Demo.healthy true)) (Some (JArr [JObj Demo.submission; JNull]))
  = Throw (TypeError (NullishRead "created_at")).
Proof.
  destruct (rows_fail_on_null (Demo.healthy true) Onboarding [JObj Demo.submission; JNull])
    as [_ [H _]].
  apply H. right. now left.
Defined.

(** The same submission twice. *)
Lemma rows_in_order_witness :
  render_rows (onboarding_row (Demo.healthy true))
    (Some (JArr ([JObj Demo.submission] ++ [JObj Demo.submission])))
  = Normal (Str.fill Tpl.onboarding_row
              ["5/1/2024, 10:00:00 AM"; "submitted"; ""; ""; "2"; "s1"]
            +:+ Str.fill Tpl.onboarding_row
                  ["5/1/2024, 10:00:00 AM"; "submitted"; ""; ""; "2"; "s1"]).
Proof.
  apply (rows_in_order (Demo.healthy true) Onboarding
           [JObj Demo.submission] [JObj Demo.submission]); vm_compute; reflexivity.
Defined.

(** ** The detail view of a submission *)

Lemma absent_append (c : ascii) (a b : string) :
  absent c (a +:+ b) = absent c a && absent c b.
Proof.
  induction a as [|x a IH]; [now rewrite TrimFacts.append_nil_l|].
  rewrite TrimFacts.append_String, !ContainsFacts.absent_String, IH.
  now rewrite andb_assoc.
Qed.

Lemma replaceAll_absent (c : ascii) (by_ s : string) :
  absent c by_ = true -> absent c (Str.replaceAll c by_ s) = true.
Proof.
  intros Hby. induction s as [|a s IH]; [reflexivity|]. cbn [Str.replaceAll].
  destruct (Ascii.eqb a c) eqn:E.
  - now rewrite absent_append, Hby, IH.
  - now rewrite ContainsFacts.absent_String, Ascii.eqb_sym, E, IH.
Qed.

Lemma replaceAll_same (c : ascii) (by_ s : string) :
  absent c s = true -> Str.replaceAll c by_ s = s.
Proof.
  induction s as [|a s IH]; [reflexivity|].
  rewrite ContainsFacts.absent_String. intros [Ha Hs]%andb_prop.
  cbn [Str.replaceAll]. rewrite Ascii.eqb_sym. apply negb_true_iff in Ha.
  now rewrite Ha, IH.
Qed.

Section Detail.
Variable B : browser.

(** [X10] The notes of a submission, as the detail view puts them into the
    [value] attribute.  Missing or falsy notes give the empty text.  A text
    comes out without any double quote (each is replaced by [&quot;]) and
    unchanged when it has none.  Notes that are truthy but no text (a
    number, an object) throw the [TypeError] of the call of [replaceAll]. *)
Theorem notes_escaping notes :
  (truthy notes = false -> escaped_notes notes = Normal "")
  /\ (forall t, notes = Some (JStr t) ->
        escaped_notes notes = Normal (Str.replaceAll Str.dquote "&quot;" t)
        /\ absent Str.dquote (Str.replaceAll Str.dquote "&quot;" t) = true
        /\ (absent Str.dquote t = true -> escaped_notes notes = Normal t))
  /\ (forall v, notes = Some v -> truthy notes = true -> (forall t, v <> JStr t) ->
        escaped_notes notes = Throw (TypeError (NotCallable "replaceAll"))).
Proof.
  split; [|split].
  - intros H. unfold escaped_notes, or_else. now rewrite H.
  - intros t ->.
    assert (H : escaped_notes (Some (JStr t)) = Normal (Str.replaceAll Str.dquote "&quot;" t)).
    { unfold escaped_notes, or_else, truthy, empty_string.
      destruct (String.eqb_spec t "") as [->|]; reflexivity. }
    split; [exact H|]. split; [now apply replaceAll_absent|].
    intros Hq. now rewrite H, replaceAll_same.
  - intros v -> Ht Hv. unfold escaped_notes, or_else. rewrite Ht.
    destruct v; try reflexivity. now destruct (Hv s).
Qed.

(** [X11] [openOnboarding] shows [Loading…] before it asks for the
    submission, and takes it away only when the detail is rendered.  When
    the request fails, when the answer has no [submission] (or [null]), or
    when the notes cannot be escaped, the routine throws and the detail
    pane keeps showing [Loading…]. *)
Theorem detail_stays_loading id w :
  has w "ob_detail" ->
  (forall e, fst (api B (detail_url id) no_options w) = Throw e ->
     fst (openOnboarding B id w) = Throw e
     /\ html_of (snd (openOnboarding B id w)) "ob_detail" = Some (Str.fill Tpl.loading []))
  /\ (forall fs, accepted B w (get (detail_url id)) fs ->
        assoc "submission" fs = None \/ assoc "submission" fs = Some JNull ->
        fst (openOnboarding B id w) = Throw (TypeError (NullishRead "id"))
        /\ html_of (snd (openOnboarding B id w)) "ob_detail" = Some (Str.fill Tpl.loading []))
  /\ (forall fs s e, accepted B w (get (detail_url id)) fs ->
        assoc "submission" fs = Some (JObj s) ->
        escaped_notes (assoc "notes" s) = Throw e ->
        fst (openOnboarding B id w) = Throw e
        /\ html_of (snd (openOnboarding B id w)) "ob_detail" = Some (Str.fill Tpl.loading [])).
Proof.
  intros [t Ht].
  assert (Hloading : forall q,
            html_of (after q (shown "ob_detail" (Str.fill Tpl.loading []) w)) "ob_detail"
            = Some (Str.fill Tpl.loading [])).
  { intros q. unfold html_of, after, shown. rewrite (set_innerHTML_found _ _ _ _ _ Ht).
    world. look. reflexivity. }
  assert (Hrun : openOnboarding B id w
                 = (api B (detail_url id) no_options
                    ≫= fun data =>
                         s ← lift (prop (Some data) "submission");
                         s_id ← lift (prop s "id");
                         s_status ← lift (prop s "status");
                         s_notes ← lift (prop s "notes");
                         notes ← lift (escaped_notes s_notes);
                         set_innerHTML "ob_detail"
                           (Str.fill Tpl.detail
                              [ ToString s_id; ToString s_status; status_options s_status;
                                notes; id; id; stringify_pretty_val s ])
                           [("set_status", input (selected_status s_status));
                            ("set_notes", input (attribute_value B notes))])
                     (shown "ob_detail" (Str.fill Tpl.loading []) w)).
  { unfold openOnboarding, shown. rewrite bind_js.
    now rewrite (set_innerHTML_found _ _ _ _ _ Ht). }
  rewrite Hrun. clear Hrun.
  set (w1 := shown "ob_detail" (Str.fill Tpl.loading []) w) in *.
  assert (Hev : events w1 = events w) by apply events_shown.
  split; [|split].
  - intros e He. rewrite (api_result_events B _ _ w w1) in He by now rewrite Hev.
    rewrite (bind_throws _ _ _ _ He), api_world. cbn [fst snd].
    split; [reflexivity | apply Hloading].
  - intros fs Hacc Hs.
    rewrite bind_js, (api_accepted B (detail_url id) no_options w1 fs)
      by (eapply accepted_events; [|exact Hacc]; now rewrite Hev).
    rewrite bind_js. unfold lift. cbn [prop].
    destruct Hs as [-> | ->]; rewrite bind_js; cbn [prop fst snd];
      (split; [reflexivity | apply Hloading]).
  - intros fs s e Hacc Hs He.
    rewrite bind_js, (api_accepted B (detail_url id) no_options w1 fs)
      by (eapply accepted_events; [|exact Hacc]; now rewrite Hev).
    rewrite bind_js. unfold lift. cbn [prop]. rewrite Hs.
    rewrite !bind_js. cbn [prop]. rewrite !bind_js, He. cbn [fst snd].
    split; [reflexivity | apply Hloading].
Qed.
End Detail.

(** Notes with two double quotes. *)
Lemma notes_escaping_witness :
  escaped_notes (Some (JStr (Str.lit "say @hi@"))) = Normal "say &quot;hi&quot;".
Proof.
  destruct (notes_escaping (Some (JStr (Str.lit "say @hi@")))) as [_ [H _]].
  exact (proj1 (H _ eq_refl)).
Defined.

(** The detail of a submission asked from the server that fails. *)
Lemma detail_stays_loading_witness :
  fst (openOnboarding Demo.broken_server "s1" Sample.onboarding_open) = Throw (Error "HTTP 500")
  /\ html_of (snd (openOnboarding Demo.broken_server "s1" Sample.onboarding_open)) "ob_detail"
     = Some (Str.lit "<div class=@text-secondary@>Loading…</div>").
Proof.
  destruct (detail_stays_loading Demo.broken_server "s1" Sample.onboarding_open) as [H _];
    [on_page|].
  exact (H (Error "HTTP 500") eq_refl).
Defined.

Section Update.
Variable B : browser.





(** [X13] A status update that fails.  When the detail view is not open (the
    selector or the notes field is not on the page) [setOnboardingStatus]
    throws before it requests anything.  When the server rejects the POST,
    the error is thrown to the caller, and that is all: the page stays as
    it was, and neither the list nor the detail is fetched again. *)
Theorem status_update_failure id w :
  (~ has w "set_status" \/ ~ has w "set_notes" ->
     setOnboardingStatus B id w = (Throw (TypeError (NullishRead "value")), w))
  /\ (forall e, has w "set_status" -> has w "set_notes" ->
        fst (api B (url (status_post id w)) (opts (status_post id w)) w) = Throw e ->
        setOnboardingStatus B id w = (Throw e, after (status_post id w) w)).
Proof.
  split.
  - intros H. unfold setOnboardingStatus. rewrite bind_js.
    destruct (document w !! "set_status") as [e1|] eqn:E1.
    + rewrite (read_found _ _ _ _ _ E1), bind_js.
      destruct (document w !! "set_notes") as [e2|] eqn:E2.
      * exfalso. destruct H as [H|H]; apply H; unfold has; [rewrite E1 | rewrite E2]; eauto.
      * now rewrite (read_missing _ _ _ _ E2).
    + now rewrite (read_missing _ _ _ _ E1).
  - intros e [e1 H1] [e2 H2] He. unfold status_post in *. values. cbn [url opts] in He.
    unfold setOnboardingStatus.
    rewrite bind_js, (read_found _ _ _ _ _ H1), bind_js, (read_found _ _ _ _ _ H2).
    now rewrite (bind_throws _ _ _ _ He), api_world.
Qed.

(** [X14] An approval that the server rejects.  After the operator has
    confirmed, a failing POST is thrown to the caller: no login is shown
    (there is no alert), the page stays as it was, and neither the list nor
    the detail is fetched again. *)
Theorem approval_failure id w e :
  confirm_answer B (events w) approve_question = true ->
  fst (api B (url (approve_post id)) post (record (Confirmed approve_question true) w))
  = Throw e ->
  approveOnboarding B id w
  = (Throw e, after (approve_post id) (record (Confirmed approve_question true) w)).
Proof.
  intros Hyes He. unfold approveOnboarding.
  rewrite bind_js. unfold confirm. fold approve_question. rewrite Hyes. cbn [negb].
  unfold approve_post in *. cbn [url] in He.
  now rewrite (bind_throws _ _ _ _ He), api_world.
Qed.
End Update.


(** [Update] pressed on the page as served, and against the server that
    fails. *)
Lemma status_update_failure_witness :
  setOnboardingStatus Demo.broken_server "s1" Demo.page
  = (Throw (TypeError (NullishRead "value")), Demo.page)
  /\ setOnboardingStatus Demo.broken_server "s1" Demo.detail_open
     = (Throw (Error "HTTP 500"), after (status_post "s1" Demo.detail_open) Demo.detail_open).
Proof.
  split.
  - destruct (status_update_failure Demo.broken_server "s1" Demo.page) as [H _].
    apply H. left. intros [x Hx]. vm_compute in Hx. discriminate Hx.
  - destruct (status_update_failure Demo.broken_server "s1" Demo.detail_open) as [_ H].
    apply H; [on_page | on_page | reflexivity].
Defined.

(** An approval confirmed, against the server that fails. *)
Lemma approval_failure_witness :
  approveOnboarding Demo.broken_server "s1" Demo.detail_open
  = (Throw (Error "HTTP 500"),
     after (approve_post "s1") (record (Confirmed approve_question true) Demo.detail_open)).
Proof.
  apply (approval_failure Demo.broken_server "s1" Demo.detail_open (Error "HTTP 500"));
    reflexivity.
Defined.

(** ** The forms *)

(** Computations that record nothing. *)
Lemma silent_ret {A} (a : A) : silent (mret a : js A).
Proof. now intros w. Qed.

Lemma silent_throw {A} (e : exn) : silent (throw e : js A).
Proof. now intros w. Qed.

Lemma silent_lift {A} (c : completion A) : silent (lift c).
Proof. now intros w. Qed.

Lemma silent_read {A} id key (field : element -> A) : silent (read id key field).
Proof. intros w. unfold read. now destruct (document w !! id). Qed.

Lemma silent_set_innerHTML id html kids : silent (set_innerHTML id html kids).
Proof. intros w. unfold set_innerHTML. now destruct (document w !! id). Qed.

Lemma silent_bind {A C} (m : js A) (f : A -> js C) :
  silent m -> (forall a, silent (f a)) -> silent (m ≫= f).
Proof.
  intros Hm Hf w. rewrite bind_js. specialize (Hm w).
  destruct (m w) as [[a|e] w1]; cbn [snd] in *; [|exact Hm].
  now rewrite Hf.
Qed.

Ltac hush :=
  repeat first
    [ apply silent_ret
    | apply silent_throw
    | apply silent_lift
    | apply silent_read
    | apply silent_set_innerHTML
    | apply silent_bind; [|intros] ].

Lemma lift_bind {A C} (c : completion A) (f : A -> js C) w :
  (lift c ≫= f) w = match c with Normal a => f a w | Throw e => (Throw e, w) end.
Proof. rewrite bind_js. unfold lift. now destruct c. Qed.

Section Forms.
Variable B : browser.

(** The helper followed by something silent: one request. *)
Lemma api_then_silent {A} path o (k : json -> js A) w :
  (forall j, silent (k j)) ->
  events (snd ((api B path o ≫= k) w)) = events w ++ [Fetched {| url := path; opts := o |}].
Proof.
  intros Hk. rewrite bind_js. pose proof (api_world B path o w) as Hw.
  destruct (api B path o w) as [[j|e] w1]; cbn [snd] in *; subst w1; [|reflexivity].
  now rewrite Hk.
Qed.

(** The list routines of the three forms ask once, whatever the page. *)
Lemma refreshOwners_events w :
  events (snd (refreshOwners B w)) = events w ++ [Fetched (get owners_list)].
Proof. apply api_then_silent. intros; hush. Qed.

Lemma refreshAssets_events w :
  events (snd (refreshAssets B w)) = events w ++ [Fetched (get assets_list)].
Proof. apply api_then_silent. intros; hush. Qed.

Lemma refreshVaultList_events w :
  events (snd (refreshVaultList B w)) = events w ++ [Fetched (get vault_list)].
Proof. apply api_then_silent. intros; hush. Qed.

(** A guarded block that asks once and then, maybe, once more. *)
Lemma asks_silent {A} q (m : js A) : silent m -> asks_at_most q m.
Proof. intros H w. left. apply H. Qed.

Lemma asks_bind {A C} q (m : js A) (f : A -> js C) :
  silent m -> (forall a, asks_at_most q (f a)) -> asks_at_most q (m ≫= f).
Proof.
  intros Hm Hf w. rewrite bind_js. specialize (Hm w).
  destruct (m w) as [[a|e] w1]; cbn [snd] in *; [|now left].
  rewrite <- Hm. apply Hf.
Qed.

Lemma asks_once {A} q (m : js A) :
  (forall w, events (snd (m w)) = events w ++ [Fetched q]) -> asks_at_most q m.
Proof. intros H w. right. apply H. Qed.

Lemma guarded_events {A} (first : js A) (k : A -> js unit) (h : exn -> js unit)
    (q q' : request) w :
  (forall w, events (snd (first w)) = events w ++ [Fetched q]) ->
  (forall a, asks_at_most q' (k a)) -> (forall e, silent (h e)) ->
  events (snd (try_catch (first ≫= k) h w)) = events w ++ [Fetched q]
  \/ events (snd (try_catch (first ≫= k) h w)) = events w ++ [Fetched q; Fetched q'].
Proof.
  intros Hfirst Hk Hh. unfold try_catch. rewrite bind_js.
  specialize (Hfirst w).
  destruct (first w) as [[a|e] w1]; cbn [snd] in Hfirst.
  - specialize (Hk a w1).
    destruct (k a w1) as [[[]|e] w2]; cbn [snd] in *; rewrite ?Hh;
      (destruct Hk as [Hk|Hk]; [left; now rewrite Hk, Hfirst|right]);
      rewrite Hk, Hfirst, <- app_assoc; reflexivity.
  - left. now rewrite Hh.
Qed.
End Forms.

Section Creating.
Variable B : browser.

(** A create form whose POST fails. *)
Lemma createOwner_rejected w e :
  Forall (has w) owners_form ->
  fst (api B "/api/admin/owners" (owners_post w) w) = Throw e ->
  createOwner B w = (Normal tt, shown "o_msg" (danger B e) (after (owners_request w) w)).
Proof.
  intros Hform He. present Hform. unfold owners_request, owners_post in *. values.
  unfold createOwner. do 12 step.
  unfold try_catch. rewrite (bind_throws _ _ _ _ He), api_world.
  unfold shown, after. now erewrite !set_innerHTML_found by found.
Qed.

Lemma createAsset_rejected w e :
  Forall (has w) assets_form ->
  fst (api B "/api/admin/assets" (assets_post w) w) = Throw e ->
  createAsset B w = (Normal tt, shown "a_msg" (danger B e) (after (assets_request w) w)).
Proof.
  intros Hform He. present Hform. unfold assets_request, assets_post in *. values.
  unfold createAsset. do 10 step.
  unfold try_catch. rewrite (bind_throws _ _ _ _ He), api_world.
  unfold shown, after. now erewrite !set_innerHTML_found by found.
Qed.

(** [X15] Whatever the owner form holds, the first thing [createOwner] does
    is to POST, as JSON, an object with the six fields of the form, each
    without the white space around it.  All six are texts: a field left
    blank is sent as the empty text, never as [null]. *)
Theorem createOwner_payload w :
  Forall (has w) owners_form ->
  exists name type jur email addr phone rest,
    trimmed_of (value_of w "o_name") name
    /\ trimmed_of (value_of w "o_type") type
    /\ trimmed_of (value_of w "o_jur") jur
    /\ trimmed_of (value_of w "o_email") email
    /\ trimmed_of (value_of w "o_addr") addr
    /\ trimmed_of (value_of w "o_phone") phone
    /\ events (snd (createOwner B w))
       = events w
         ++ Fetched
              {| url := "/api/admin/owners";
                 opts :=
                   {| method := Some "POST";
                      headers := [("Content-Type", "application/json")];
                      body :=
                        Text (stringify
                                (JObj [ ("legal_name", JStr name);
                                        ("entity_type", JStr type);
                                        ("jurisdiction", JStr jur);
                                        ("email", JStr email);
                                        ("address", JStr addr);
                                        ("phone", JStr phone) ])) |} |}
            :: rest.
Proof.
  intros Hform. present Hform. values.
  exists (Str.trim (value x)), (Str.trim (value x0)), (Str.trim (value x1)),
    (Str.trim (value x2)), (Str.trim (value x3)), (Str.trim (value x4)).
  unfold createOwner. do 12 step.
  destruct (api_first B "/api/admin/owners"
              (post_json (stringify (owner_payload (value x) (value x0) (value x1)
                                       (value x2) (value x3) (value x4))))
              (fun j =>
                 id ← lift (prop (Some j) "id");
                 _ ← set_innerHTML "o_msg" (Str.fill Tpl.owner_created [ToString id]) [];
                 refreshOwners B)
              (fun e => set_innerHTML "o_msg" (danger B e) []) w)
    as [rest Hrest]; [intros; preserved | intros; preserved |].
  exists rest.
  repeat (split; [apply TrimFacts.trim_trimmed|]).
  exact Hrest.
Qed.

(** [X16] The alert of a create form or of the ingest that went well.  When
    the server accepts the POST and then the list request, the alert of the
    form shows [Created owner], [Created asset] or the ingest note, with the
    [id] (for the ingest [object_id] and [sha256]) of the answer printed as
    it is; an answer without the property prints the word [undefined]. *)
Theorem success_alerts :
  (forall w fs fs' rows,
     Forall (has w) owners_form -> has w "o_table" ->
     accepted B w (owners_request w) fs ->
     accepted B (after (owners_request w) w) (get owners_list) fs' ->
     render_rows (owner_row B) (assoc "items" fs') = Normal rows ->
     html_of (snd (createOwner B w)) "o_msg"
     = Some (Str.fill Tpl.owner_created [ToString (assoc "id" fs)]))
  /\ (forall w fs fs' rows,
        Forall (has w) assets_form -> has w "a_table" ->
        accepted B w (assets_request w) fs ->
        accepted B (after (assets_request w) w) (get assets_list) fs' ->
        render_rows (asset_row B) (assoc "items" fs') = Normal rows ->
        html_of (snd (createAsset B w)) "a_msg"
        = Some (Str.fill Tpl.asset_created [ToString (assoc "id" fs)]))
  /\ (forall w f fs fs' rows,
        Forall (has w) vault_form -> has w "v_table" -> chosen_file w = Some f ->
        accepted B w (ingest_request w f) fs ->
        accepted B (after (ingest_request w f) w) (get vault_list) fs' ->
        render_rows (vault_row B) (assoc "items" fs') = Normal rows ->
        html_of (snd (vaultUpload B w)) "v_msg"
        = Some (Str.fill Tpl.ingested
                  [ToString (assoc "object_id" fs); ToString (assoc "sha256" fs)]))
  /\ Str.fill Tpl.owner_created [ToString (assoc "id" [])]
     = Str.lit "<div class=@alert alert-success@>Created owner undefined</div>".
Proof.
  split; [|split; [|split; [|reflexivity]]].
  - intros w fs fs' rows Hform Htable Hacc Hacc' Hrows.
    assert (Hmsg : has w "o_msg").
    { unfold owners_form in Hform. rewrite !Forall_cons in Hform. tauto. }
    rewrite (createOwner_accepted B w fs Hform Hacc). fold (owners_request w).
    set (w2 := shown "o_msg" _ _).
    unfold try_catch.
    rewrite (refreshOwners_accepted B w2 fs' rows); cbn [snd].
    + rewrite html_of_shown_other by reflexivity.
      change (html_of w2 "o_msg" = Some (Str.fill Tpl.owner_created [ToString (assoc "id" fs)])).
      now apply html_of_shown.
    + now apply has_shown.
    + eapply accepted_events; [|exact Hacc']. subst w2. now rewrite events_shown.
    + exact Hrows.
  - intros w fs fs' rows Hform Htable Hacc Hacc' Hrows.
    assert (Hmsg : has w "a_msg").
    { unfold assets_form in Hform. rewrite !Forall_cons in Hform. tauto. }
    rewrite (createAsset_accepted B w fs Hform Hacc). fold (assets_request w).
    set (w2 := shown "a_msg" _ _).
    unfold try_catch.
    rewrite (refreshAssets_accepted B w2 fs' rows); cbn [snd].
    + rewrite html_of_shown_other by reflexivity.
      change (html_of w2 "a_msg" = Some (Str.fill Tpl.asset_created [ToString (assoc "id" fs)])).
      now apply html_of_shown.
    + now apply has_shown.
    + eapply accepted_events; [|exact Hacc']. subst w2. now rewrite events_shown.
    + exact Hrows.
  - intros w f fs fs' rows Hform Htable Hfile Hacc Hacc' Hrows.
    assert (Hmsg : has w "v_msg").
    { unfold vault_form in Hform. rewrite !Forall_cons in Hform. tauto. }
    rewrite (vaultUpload_accepted B w f fs Hform Hfile Hacc).
    set (w2 := shown "v_msg" (Str.fill Tpl.ingested _) _).
    assert (H2 : has w2 "v_msg").
    { apply has_shown; [|reflexivity].
      change (has (shown "v_msg" "" w) "v_msg"). now apply has_shown. }
    unfold try_catch.
    rewrite (refreshVaultList_accepted B w2 fs' rows); cbn [snd].
    + rewrite html_of_shown_other by reflexivity.
      apply html_of_shown; [|reflexivity].
      change (has (shown "v_msg" "" w) "v_msg"). now apply has_shown.
    + apply has_shown; [|reflexivity].
      change (has (shown "v_msg" "" w) "v_table"). now apply has_shown.
    + eapply accepted_events; [|exact Hacc']. subst w2.
      rewrite events_shown. unfold after. cbn [events record]. now rewrite events_shown.
    + exact Hrows.
Qed.

(** [X17] The alert of a create form whose POST the server refuses.  For an
    answer outside 200..299 the alert of the form shows [Error: ] followed
    by the [detail] of the body when that is a non-empty text, and
    [Error: HTTP status] when the body has no [detail] or is no JSON. *)
Theorem create_failure_alert r :
  ok r = false ->
  (forall w, Forall (has w) owners_form -> answers B w (owners_request w) r ->
     (forall fs d, json_result r = Normal (JObj fs) -> assoc "detail" fs = Some (JStr d) ->
        d <> "" ->
        html_of (snd (createOwner B w)) "o_msg" = Some (Str.fill Tpl.danger ["Error: " +:+ d]))
     /\ ((exists fs, json_result r = Normal (JObj fs) /\ assoc "detail" fs = None)
         \/ (exists e, json_result r = Throw e) ->
         html_of (snd (createOwner B w)) "o_msg"
         = Some (Str.fill Tpl.danger ["Error: HTTP " +:+ pretty (status r)])))
  /\ (forall w, Forall (has w) assets_form -> answers B w (assets_request w) r ->
        (forall fs d, json_result r = Normal (JObj fs) -> assoc "detail" fs = Some (JStr d) ->
           d <> "" ->
           html_of (snd (createAsset B w)) "a_msg"
           = Some (Str.fill Tpl.danger ["Error: " +:+ d]))
        /\ ((exists fs, json_result r = Normal (JObj fs) /\ assoc "detail" fs = None)
            \/ (exists e, json_result r = Throw e) ->
            html_of (snd (createAsset B w)) "a_msg"
            = Some (Str.fill Tpl.danger ["Error: HTTP " +:+ pretty (status r)]))).
Proof.
  intros Hok.
  assert (Hdetail : forall path o w fs d,
            answers B w {| url := path; opts := o |} r ->
            json_result r = Normal (JObj fs) -> assoc "detail" fs = Some (JStr d) -> d <> "" ->
            fst (api B path o w) = Throw (Error d)).
  { intros path o w fs d Hr Hj Hd Hne. unfold answers in Hr.
    rewrite api_unfold. cbv zeta. rewrite Hr, Hok, Hj. cbn [prop]. rewrite Hd.
    unfold or_else, truthy. now destruct (String.eqb_spec d ""). }
  assert (Hstatus : forall path o w,
            answers B w {| url := path; opts := o |} r ->
            (exists fs, json_result r = Normal (JObj fs) /\ assoc "detail" fs = None)
            \/ (exists e, json_result r = Throw e) ->
            fst (api B path o w) = Throw (Error ("HTTP " +:+ pretty (status r)))).
  { intros path o w Hr H. unfold answers in Hr.
    rewrite api_unfold. cbv zeta. rewrite Hr, Hok.
    destruct H as [[fs [Hj Hd]]|[e Hj]]; rewrite Hj; cbn [prop]; [now rewrite Hd | reflexivity]. }
  assert (Hshow : forall m, m <> "" -> danger B (Error m) = Str.fill Tpl.danger ["Error: " +:+ m]).
  { intros m Hm. unfold danger, String_, String_exn. cbn [exn_message exn_name].
    now destruct (String.eqb_spec m ""). }
  assert (Hhttp : forall n : Z, "HTTP " +:+ pretty n <> "").
  { intros n. now rewrite TrimFacts.append_String. }
  split; intros w Hform Hr.
  - assert (Hmsg : has w "o_msg").
    { unfold owners_form in Hform. rewrite !Forall_cons in Hform. tauto. }
    split.
    + intros fs d Hj Hd Hne.
      rewrite (createOwner_rejected w (Error d) Hform (Hdetail _ _ _ fs d Hr Hj Hd Hne)).
      cbn [snd]. rewrite html_of_shown; [now rewrite Hshow | exact Hmsg | reflexivity].
    + intros H.
      rewrite (createOwner_rejected w _ Hform (Hstatus _ _ _ Hr H)).
      cbn [snd]. rewrite html_of_shown; [|exact Hmsg | reflexivity].
      rewrite Hshow by apply Hhttp. now rewrite <- TrimFacts.append_assoc.
  - assert (Hmsg : has w "a_msg").
    { unfold assets_form in Hform. rewrite !Forall_cons in Hform. tauto. }
    split.
    + intros fs d Hj Hd Hne.
      rewrite (createAsset_rejected w (Error d) Hform (Hdetail _ _ _ fs d Hr Hj Hd Hne)).
      cbn [snd]. rewrite html_of_shown; [now rewrite Hshow | exact Hmsg | reflexivity].
    + intros H.
      rewrite (createAsset_rejected w _ Hform (Hstatus _ _ _ Hr H)).
      cbn [snd]. rewrite html_of_shown; [|exact Hmsg | reflexivity].
      rewrite Hshow by apply Hhttp. now rewrite <- TrimFacts.append_assoc.
Qed.
End Creating.

(** ** What the routines leave alone *)

(** Walk the structure of a computation that assigns markup to elements
    other than the one looked at. *)
Ltac framed :=
  repeat first
    [ apply preserves_ret; exact _
    | apply preserves_throw; exact _
    | apply preserves_lift; exact _
    | apply preserves_read; exact _
    | apply preserves_fetch; exact _
    | apply preserves_api; exact _
    | apply same_set_innerHTML; [reflexivity | reflexivity | assumption]
    | match goal with
      | |- preserves _ (if ?b then _ else _) => destruct b
      | |- preserves _ (match ?x with _ => _ end) => destruct x
      end
    | apply preserves_bind; [exact _ | | intros]
    | apply preserves_try_catch; [exact _ | | intros] ].

Section Frame.
Variable B : browser.

Lemma same_createOwner k : k <> "o_msg" -> k <> "o_table" -> same k (createOwner B).
Proof. intros H1%String.eqb_neq H2%String.eqb_neq. unfold createOwner, refreshOwners. framed. Qed.

Lemma same_createAsset k : k <> "a_msg" -> k <> "a_table" -> same k (createAsset B).
Proof. intros H1%String.eqb_neq H2%String.eqb_neq. unfold createAsset, refreshAssets. framed. Qed.

Lemma same_vaultUpload k : k <> "v_msg" -> k <> "v_table" -> same k (vaultUpload B).
Proof.
  intros H1%String.eqb_neq H2%String.eqb_neq. unfold vaultUpload, refreshVaultList. framed.
Qed.

(** [X18] A create form and the ingest write to two elements only, the alert
    and the table of their tab: every other element of the page is after
    the call what it was before, whether the call went well or not.  In
    particular the form is not cleared: its fields keep what was typed and
    the chosen file stays chosen, so the same call again sends the same
    data.  (Markup that arrives inside fetched data is not interpreted.) *)
Theorem forms_touch_alert_and_table_only :
  (forall k w, k <> "o_msg" -> k <> "o_table" ->
     document (snd (createOwner B w)) !! k = document w !! k)
  /\ (forall k w, k <> "a_msg" -> k <> "a_table" ->
        document (snd (createAsset B w)) !! k = document w !! k)
  /\ (forall k w, k <> "v_msg" -> k <> "v_table" ->
        document (snd (vaultUpload B w)) !! k = document w !! k)
  /\ (forall w, owners_post (snd (createOwner B w)) = owners_post w)
  /\ (forall w, assets_post (snd (createAsset B w)) = assets_post w)
  /\ (forall w f, ingest_request (snd (vaultUpload B w)) f = ingest_request w f)
  /\ (forall w, chosen_file (snd (vaultUpload B w)) = chosen_file w).
Proof.
  repeat apply conj.
  - intros k w H1 H2. now apply same_createOwner.
  - intros k w H1 H2. now apply same_createAsset.
  - intros k w H1 H2. now apply same_vaultUpload.
  - intros w. unfold owners_post, value_of.
    now rewrite !(fun k H1 H2 => same_createOwner k H1 H2 w) by discriminate.
  - intros w. unfold assets_post, value_of.
    now rewrite !(fun k H1 H2 => same_createAsset k H1 H2 w) by discriminate.
  - intros w f. unfold ingest_request, value_of.
    now rewrite !(fun k H1 H2 => same_vaultUpload k H1 H2 w) by discriminate.
  - intros w. unfold chosen_file.
    now rewrite (same_vaultUpload "v_file" ltac:(discriminate) ltac:(discriminate) w).
Qed.

(** [X19] No routine of the page but [logout] and the start-up changes the
    address: switching tabs, rendering and refreshing the lists, opening a
    submission, updating or approving it, creating an owner or an asset and
    the ingest all leave [window.location.href] as it is, whatever the
    server answers. *)
Theorem address_stays w :
  (forall name, href (snd (showTab B name w)) = href w)
  /\ href (snd (renderOnboarding B w)) = href w
  /\ (forall id, href (snd (openOnboarding B id w)) = href w)
  /\ (forall id, href (snd (approveOnboarding B id w)) = href w)
  /\ (forall id, href (snd (setOnboardingStatus B id w)) = href w)
  /\ href (snd (renderVault B w)) = href w
  /\ href (snd (vaultUpload B w)) = href w
  /\ href (snd (refreshVaultList B w)) = href w
  /\ href (snd (renderOwners B w)) = href w
  /\ href (snd (createOwner B w)) = href w
  /\ href (snd (refreshOwners B w)) = href w
  /\ href (snd (renderAssets B w)) = href w
  /\ href (snd (createAsset B w)) = href w
  /\ href (snd (refreshAssets B w)) = href w.
Proof.
  repeat apply conj; intros;
    match goal with
    | |- href (snd (?m w)) = href w => revert w; change (stays m)
    end;
    first [apply showTab_stays | preserved].
Qed.

(** [X20] How many requests a form makes.  [createOwner] and [createAsset] on
    a page that has their form, and the ingest with a file chosen, make one
    request, the POST, or two, the POST and then the list: never more, there
    is no retry.  They make exactly the one when the POST fails, and exactly
    the two when the server accepts it. *)
Theorem forms_ask_at_most_twice :
  (forall w, Forall (has w) owners_form ->
     (events (snd (createOwner B w)) = events w ++ [Fetched (owners_request w)]
      \/ events (snd (createOwner B w))
         = events w ++ [Fetched (owners_request w); Fetched (get owners_list)])
     /\ (forall e, fst (api B "/api/admin/owners" (owners_post w) w) = Throw e ->
           events (snd (createOwner B w)) = events w ++ [Fetched (owners_request w)])
     /\ (forall fs, accepted B w (owners_request w) fs ->
           events (snd (createOwner B w))
           = events w ++ [Fetched (owners_request w); Fetched (get owners_list)]))
  /\ (forall w, Forall (has w) assets_form ->
        (events (snd (createAsset B w)) = events w ++ [Fetched (assets_request w)]
         \/ events (snd (createAsset B w))
            = events w ++ [Fetched (assets_request w); Fetched (get assets_list)])
        /\ (forall e, fst (api B "/api/admin/assets" (assets_post w) w) = Throw e ->
              events (snd (createAsset B w)) = events w ++ [Fetched (assets_request w)])
        /\ (forall fs, accepted B w (assets_request w) fs ->
              events (snd (createAsset B w))
              = events w ++ [Fetched (assets_request w); Fetched (get assets_list)]))
  /\ (forall w f, Forall (has w) vault_form -> chosen_file w = Some f ->
        (events (snd (vaultUpload B w)) = events w ++ [Fetched (ingest_request w f)]
         \/ events (snd (vaultUpload B w))
            = events w ++ [Fetched (ingest_request w f); Fetched (get vault_list)])
        /\ (forall fs, accepted B w (ingest_request w f) fs ->
              events (snd (vaultUpload B w))
              = events w ++ [Fetched (ingest_request w f); Fetched (get vault_list)])).
Proof.
  assert (Hcatch : forall (refresh : js unit) msg q w,
            (forall w, events (snd (refresh w)) = events w ++ [Fetched q]) ->
            events (snd (try_catch refresh (fun e => set_innerHTML msg (danger B e) []) w))
            = events w ++ [Fetched q]).
  { intros refresh msg q w H. unfold try_catch. specialize (H w).
    destruct (refresh w) as [[[]|e] w1]; cbn [snd] in *; [exact H|].
    now rewrite silent_set_innerHTML. }
  split; [|split].
  - intros w Hform. split; [|split].
    + present Hform. unfold owners_request, owners_post. values.
      unfold createOwner. do 12 step.
      apply guarded_events.
      * intros w'. now rewrite api_world.
      * intros j. apply asks_bind; [hush|]. intros id. apply asks_bind; [hush|].
        intros _. apply asks_once, refreshOwners_events.
      * intros e. hush.
    + intros e He. rewrite (createOwner_rejected B w e Hform He). cbn [snd].
      now rewrite events_shown.
    + intros fs Hacc. rewrite (createOwner_accepted B w fs Hform Hacc).
      rewrite (Hcatch _ _ _ _ (refreshOwners_events B)), events_shown.
      unfold after. cbn [events record]. now rewrite <- app_assoc.
  - intros w Hform. split; [|split].
    + present Hform. unfold assets_request, assets_post. values.
      unfold createAsset. do 10 step.
      apply guarded_events.
      * intros w'. now rewrite api_world.
      * intros j. apply asks_bind; [hush|]. intros id. apply asks_bind; [hush|].
        intros _. apply asks_once, refreshAssets_events.
      * intros e. hush.
    + intros e He. rewrite (createAsset_rejected B w e Hform He). cbn [snd].
      now rewrite events_shown.
    + intros fs Hacc. rewrite (createAsset_accepted B w fs Hform Hacc).
      rewrite (Hcatch _ _ _ _ (refreshAssets_events B)), events_shown.
      unfold after. cbn [events record]. now rewrite <- app_assoc.
  - intros w f Hform Hfile. split.
    + present Hform. unfold ingest_request. values.
      unfold vaultUpload. do 14 step. rewrite Hfile.
      match goal with
      | |- context [try_catch (fetch B ?p ?o ≫= ?k) ?h ?w1] =>
          destruct (guarded_events (fetch B p o) k h {| url := p; opts := o |}
                      (get vault_list) w1) as [G|G]
      end.
      * intros w'. unfold fetch. now destruct (respond B (events w') _).
      * intros r. apply asks_bind; [unfold response_json; hush|]. intros j.
        destruct (negb (ok r)).
        -- apply asks_silent. hush.
        -- apply asks_bind; [hush|]. intros oid. apply asks_bind; [hush|]. intros sha.
           apply asks_bind; [hush|]. intros _. apply asks_once, refreshVaultList_events.
      * intros e. hush.
      * left. exact G.
      * right. exact G.
    + intros fs Hacc. rewrite (vaultUpload_accepted B w f fs Hform Hfile Hacc).
      rewrite (Hcatch _ _ _ _ (refreshVaultList_events B)), events_shown.
      unfold after. cbn [events record]. now rewrite events_shown, <- app_assoc.
Qed.
End Frame.

(** The owner form, blank, on the page as opened. *)
Lemma createOwner_payload_witness :
  exists body rest,
    events (snd (createOwner (Demo.healthy true) Demo.owners_open))
    = events Demo.owners_open
      ++ Fetched {| url := "/api/admin/owners"; opts := post_json body |} :: rest.
Proof.
  destruct (createOwner_payload (Demo.healthy true) Demo.owners_open owners_open_has_form)
    as (name & type & jur & email & addr & phone & rest & _ & _ & _ & _ & _ & _ & H).
  eexists _, rest. exact H.
Defined.

(** An owner created against the server that accepts everything. *)
Lemma success_alerts_witness :
  html_of (snd (createOwner (Demo.healthy true) Demo.owners_open)) "o_msg"
  = Some (Str.lit "<div class=@alert alert-success@>Created owner o1</div>").
Proof.
  destruct (success_alerts (Demo.healthy true)) as [H _].
  apply (H Demo.owners_open [("id", JStr "o1")]
           [("items", JArr [JObj [("id", JStr "o1"); ("legal_name", JStr "Acme")]])]
           (Str.fill Tpl.owner_row ["5/1/2024, 10:00:00 AM"; "Acme"; ""; ""; ""; "o1"])).
  - exact owners_open_has_form.
  - on_page.
  - eexists. repeat split; reflexivity.
  - eexists. repeat split; reflexivity.
  - vm_compute. reflexivity.
Defined.

(** An owner refused with a 409 and a [detail]. *)
Lemma create_failure_alert_witness :
  html_of (snd (createOwner
                  (Demo.constant_browser
                     (Demo.reply 409 (JObj [("detail", JStr "duplicate owner")])) true)
                  Demo.owners_open)) "o_msg"
  = Some (Str.lit "<div class=@alert alert-danger@>Error: duplicate owner</div>").
Proof.
  destruct (create_failure_alert
              (Demo.constant_browser
                 (Demo.reply 409 (JObj [("detail", JStr "duplicate owner")])) true)
              {| status := 409;
                 json_result := Normal (JObj [("detail", JStr "duplicate owner")]) |}
              eq_refl) as [H _].
  destruct (H Demo.owners_open owners_open_has_form eq_refl) as [Hd _].
  apply (Hd [("detail", JStr "duplicate owner")] "duplicate owner" eq_refl eq_refl).
  discriminate.
Defined.

(** An owner created against the server that accepts everything: the POST
    and the list. *)
Lemma forms_ask_at_most_twice_witness :
  events (snd (createOwner (Demo.healthy true) Demo.owners_open))
  = events Demo.owners_open
    ++ [Fetched (owners_request Demo.owners_open); Fetched (get owners_list)].
Proof.
  destruct (forms_ask_at_most_twice (Demo.healthy true)) as [H _].
  destruct (H Demo.owners_open owners_open_has_form) as (_ & _ & H2).
  apply (H2 [("id", JStr "o1")]). eexists. repeat split; reflexivity.
Defined.

(** The ingest leaves the chosen file chosen. *)
Lemma forms_touch_alert_and_table_only_witness :
  chosen_file (snd (vaultUpload (Demo.healthy true) Demo.vault_with_file)) = Some Demo.chosen.
Proof.
  destruct (forms_touch_alert_and_table_only (Demo.healthy true)) as (_ & _ & _ & _ & _ & _ & H).
  exact (H Demo.vault_with_file).
Defined.

Section Opening.
Variable B : browser.

(** [X21] Opening a tab resets its form.  After [renderVault],
    [renderOwners] or [renderAssets], whatever the tab held before and
    whatever the server answers to the list request, every field of the
    form is empty (the source field of the vault holds [dossier]), no file
    is chosen, and the alert of the form is empty: what was typed and not
    submitted is lost when the tab is shown again. *)
Theorem tab_opens_blank w :
  (has w "tab_vault" ->
     value_of (snd (renderVault B w)) "v_source" = "dossier"
     /\ Forall (fun k => value_of (snd (renderVault B w)) k = "")
          ["v_org"; "v_tenant"; "v_schema"; "v_manifest"]
     /\ chosen_file (snd (renderVault B w)) = None
     /\ html_of (snd (renderVault B w)) "v_msg" = Some "")
  /\ (has w "tab_owners" ->
        Forall (fun k => value_of (snd (renderOwners B w)) k = "") owners_fields
        /\ html_of (snd (renderOwners B w)) "o_msg" = Some "")
  /\ (has w "tab_assets" ->
        Forall (fun k => value_of (snd (renderAssets B w)) k = "") assets_fields
        /\ html_of (snd (renderAssets B w)) "a_msg" = Some "").
Proof.
  split; [|split]; intros [t Ht].
  - unfold renderVault. rewrite bind_js, (set_innerHTML_found _ _ _ _ _ Ht).
    assert (Hs : forall k, k <> "v_table" -> same k (refreshVaultList B)).
    { intros k Hk%String.eqb_neq. unfold refreshVaultList. framed. }
    unfold value_of, chosen_file, html_of.
    repeat apply conj; repeat constructor; rewrite Hs by discriminate; found.
  - unfold renderOwners. rewrite bind_js, (set_innerHTML_found _ _ _ _ _ Ht).
    assert (Hs : forall k, k <> "o_table" -> same k (refreshOwners B)).
    { intros k Hk%String.eqb_neq. unfold refreshOwners. framed. }
    unfold value_of, html_of, owners_fields.
    repeat apply conj; repeat constructor; rewrite Hs by discriminate; found.
  - unfold renderAssets. rewrite bind_js, (set_innerHTML_found _ _ _ _ _ Ht).
    assert (Hs : forall k, k <> "a_table" -> same k (refreshAssets B)).
    { intros k Hk%String.eqb_neq. unfold refreshAssets. framed. }
    unfold value_of, html_of, assets_fields.
    repeat apply conj; repeat constructor; rewrite Hs by discriminate; found.
Qed.
End Opening.

(** The vault tab shown again after an organisation was typed in. *)
Lemma tab_opens_blank_witness :
  value_of Sample.vault_typed "v_org" = "acme"
  /\ value_of (snd (renderVault (Demo.healthy true) Sample.vault_typed)) "v_org" = "".
Proof.
  split; [reflexivity|].
  destruct (tab_opens_blank (Demo.healthy true) Sample.vault_typed) as [H _].
  destruct H as (_ & H & _); [on_page|].
  exact (Forall_inv H).
Defined.

(** ** Trimming *)

Module TrimMore.
Import Str.

Lemma drop_append (t s : string) : drop (String.length t) (t +:+ s) = s.
Proof.
  induction t as [|c t IH]; [now rewrite TrimFacts.append_nil_l|].
  now rewrite TrimFacts.append_String.
Qed.

(** No white-space sequence starts another: in front of anything, a
    white-space sequence is the one that is found. *)
Lemma leading_ws_found (t s : string) :
  In t white_space -> leading_ws (t +:+ s) = Some t.
Proof.
  intros Hin. unfold white_space in Hin. cbn [In] in Hin.
  destruct s as [|c s];
    repeat (destruct Hin as [<-|Hin]; [reflexivity|]); contradiction.
Qed.

Lemma leading_ws_stripped (t : string) :
  (forall x, In x white_space -> String.prefix x t = false) -> leading_ws t = None.
Proof.
  intros H. unfold leading_ws.
  destruct (find _ white_space) as [x|] eqn:E; [|reflexivity].
  apply find_some in E. destruct E as [Hin Hx]. now rewrite (H x Hin) in Hx.
Qed.

Lemma trailing_ws_stripped (t : string) :
  (forall x, In x white_space -> String.prefix (rev x) (rev t) = false) ->
  trailing_ws t = None.
Proof.
  intros H. unfold trailing_ws.
  destruct (find _ white_space) as [x|] eqn:E; [|reflexivity].
  apply find_some in E. destruct E as [Hin Hx]. now rewrite (H x Hin) in Hx.
Qed.

Lemma trimStart_white (n : nat) (s : string) :
  white s -> String.length s <= n -> trimStart_fuel n s = "".
Proof.
  intros Hs. revert n. induction Hs as [|t s Ht Hs IH]; intros n Hn.
  - now destruct n.
  - pose proof (TrimFacts.white_space_nonempty t Ht) as Hlen.
    rewrite TrimFacts.length_append in Hn.
    destruct n as [|n]; [lia|]. cbn [trimStart_fuel].
    rewrite (leading_ws_found t s Ht), drop_append. apply IH. lia.
Qed.

Lemma trim_stripped (t : string) : stripped t -> trim t = t.
Proof.
  intros H. unfold trim, trimStart, trimEnd.
  assert (H1 : forall n, trimStart_fuel n t = t).
  { intros [|n]; [reflexivity|]. cbn [trimStart_fuel].
    rewrite leading_ws_stripped; [reflexivity|]. intros x Hx. apply (H x Hx). }
  rewrite H1.
  destruct (String.length t) as [|n]; [reflexivity|]. cbn [trimEnd_fuel].
  rewrite trailing_ws_stripped; [reflexivity|]. intros x Hx. apply (H x Hx).
Qed.

Lemma trim_white (s : string) : white s -> trim s = "".
Proof. intros H. unfold trim, trimStart. now rewrite (trimStart_white _ s H). Qed.

Lemma trim_empty_white (s : string) : trim s = "" -> white s.
Proof.
  intros H. destruct (TrimFacts.trim_trimmed s) as (l & r & Hs & Hl & Hr & _).
  rewrite H, TrimFacts.append_nil_l in Hs. rewrite Hs. now apply TrimFacts.white_append.
Qed.

End TrimMore.

(** [X22] [trim], as the forms use it on every field: a text that neither
    starts nor ends with white space is left as it is; trimming twice is
    trimming once; and a text is trimmed to the empty text exactly when it
    consists of white space only. *)
Theorem trim_is_a_projection s :
  (stripped s -> Str.trim s = s)
  /\ Str.trim (Str.trim s) = Str.trim s
  /\ (Str.trim s = "" <-> white s).
Proof.
  split; [apply TrimMore.trim_stripped|]. split.
  - apply TrimMore.trim_stripped.
    destruct (TrimFacts.trim_trimmed s) as (l & r & _ & _ & _ & H). exact H.
  - split; [apply TrimMore.trim_empty_white | apply TrimMore.trim_white].
Qed.

(** [X23] The [owner_id] that [createAsset] sends is [null] exactly when the
    owner field is blank, that is empty or white space only; for any other
    content it is the trimmed text, which then is not empty. *)
Theorem owner_id_null_iff_blank owner title type reg desc :
  (white owner <->
   asset_payload owner title type reg desc
   = JObj [ ("owner_id", JNull); ("title", JStr (Str.trim title));
            ("asset_type", JStr (Str.trim type)); ("reg_no", JStr (Str.trim reg));
            ("description", JStr (Str.trim desc)) ])
  /\ (~ white owner ->
      Str.trim owner <> ""
      /\ asset_payload owner title type reg desc
         = JObj [ ("owner_id", JStr (Str.trim owner)); ("title", JStr (Str.trim title));
                  ("asset_type", JStr (Str.trim type)); ("reg_no", JStr (Str.trim reg));
                  ("description", JStr (Str.trim desc)) ]).
Proof.
  unfold asset_payload, or_null, truthy. split; [split|].
  - intros H. now rewrite (TrimMore.trim_white owner H).
  - intros H. apply TrimMore.trim_empty_white.
    destruct (String.eqb_spec (Str.trim owner) "") as [E|E]; [exact E|].
    cbn [negb] in H. discriminate H.
  - intros H.
    destruct (String.eqb_spec (Str.trim owner) "") as [E|E].
    + destruct H. now apply TrimMore.trim_empty_white.
    + now split.
Qed.

(** A tab, two spaces and a line end. *)
Lemma trim_is_a_projection_witness :
  Str.trim (Str.bytes [9; 32; 32; 10]) = "".
Proof.
  destruct (trim_is_a_projection (Str.bytes [9; 32; 32; 10])) as (_ & _ & _ & H).
  apply H.
  apply (white_cons (Str.bytes [9])); [cbv; tauto|].
  apply (white_cons (Str.bytes [32])); [cbv; tauto|].
  apply (white_cons (Str.bytes [32])); [cbv; tauto|].
  apply (white_cons (Str.bytes [10]) ""); [cbv; tauto|].
  exact white_nil.
Defined.

(** ** Values in markup and in addresses *)


Lemma text_printed (v : string) : ToString (Some (JStr v)) = v.
Proof. reflexivity. Qed.

Lemma text_printed_or_empty (v : string) : ToString (or_else (Some (JStr v)) empty_string) = v.
Proof. unfold or_else, truthy. now destruct (String.eqb_spec v "") as [->|]. Qed.

Section Markup.
Variable B : browser.

(** [X24] The rows put the values of a record into the markup as they are:
    whatever text a printed field holds is found unchanged in the row, angle
    brackets, ampersands and quotes included.  Nothing is escaped on the way
    into a table. *)
Theorem rows_print_values_verbatim t fs k v html :
  row_of B t (JObj fs) = Normal html ->
  In k (required_fields t ++ optional_fields t) ->
  assoc k fs = Some (JStr v) ->
  Str.contains v html = true.
Proof.
  intros Hhtml Hk Hv.
  destruct t; cbn [row_of] in Hhtml;
    unfold onboarding_row, vault_row, owner_row, asset_row in Hhtml;
    cbn [prop mbind completion_bind mret completion_ret] in Hhtml;
    apply Normal_inj in Hhtml; rewrite <- Hhtml;
    cbn [required_fields optional_fields app In] in Hk;
    repeat (destruct Hk as [<-|Hk];
            [ rewrite Hv, ?text_printed, ?text_printed_or_empty;
              apply MarkupFacts.fill_contains; [cbn [In]; tauto | cbn; lia] |]);
    contradiction.
Qed.

(** [X25] [encodeURIComponent], as the onboarding list applies it to the
    status: the result consists of unreserved characters and [%] only, so
    it holds no [&], [=] or [#] that could end the parameter; a text of
    unreserved characters, such as each of the statuses, is left as it
    is. *)
Theorem encoded_status_is_safe s :
  Forall (fun c => Str.uri_unreserved c = true \/ c = "%"%char)
    (list_ascii_of_string (Str.encodeURIComponent s))
  /\ absent "&" (Str.encodeURIComponent s) = true
  /\ absent "=" (Str.encodeURIComponent s) = true
  /\ absent "#" (Str.encodeURIComponent s) = true
  /\ (Forall (fun c => Str.uri_unreserved c = true) (list_ascii_of_string s) ->
      Str.encodeURIComponent s = s).
Proof.
  assert (H : Forall (fun c => Str.uri_unreserved c = true \/ c = "%"%char)
                (list_ascii_of_string (Str.encodeURIComponent s))).
  { induction s as [|c s IH]; [constructor|]. cbn [Str.encodeURIComponent].
    destruct (Str.uri_unreserved c) eqn:E; cbn [list_ascii_of_string].
    - constructor; [now left | exact IH].
    - pose proof (nat_ascii_bounded c) as Hc.
      constructor; [now right|].
      constructor; [left; apply MarkupFacts.hex_digit_unreserved|].
      { apply Nat.Div0.div_lt_upper_bound. lia. }
      constructor; [left; apply MarkupFacts.hex_digit_unreserved | exact IH].
      apply Nat.mod_upper_bound. lia. }
  assert (Habsent : forall x, Str.uri_unreserved x = false -> x <> "%"%char ->
                              absent x (Str.encodeURIComponent s) = true).
  { intros x Hx Hp. unfold absent. apply negb_true_iff.
    destruct (existsb _ _) eqn:E; [|reflexivity].
    apply existsb_exists in E. destruct E as [c [Hin Hc]].
    apply Ascii.eqb_eq in Hc. subst c.
    rewrite List.Forall_forall in H. destruct (H x Hin) as [H1|H1]; congruence. }
  split; [exact H|].
  repeat (split; [apply Habsent; [reflexivity | discriminate]|]).
  clear H Habsent. induction s as [|c s IH]; [reflexivity|].
  cbn [list_ascii_of_string Str.encodeURIComponent]. intros Hs.
  apply Forall_cons in Hs. destruct Hs as [Hc Hs]. now rewrite Hc, IH.
Qed.

(** [X26] The tab that is shown is the one named last.  After [showTab a]
    and then [showTab b], for any two of the four names, the container of
    [b] is the one with [display] set to [block] and the other three are
    hidden, as if [showTab a] had not been called. *)
Theorem showTab_last_wins a b w :
  In a tabs -> In b tabs -> Forall (has w) tab_ids ->
  forall t, In t tabs ->
    display_of (snd (showTab B b (snd (showTab B a w)))) ("tab_" +:+ t)
    = Some (if String.eqb t b then "block" else "none")
    /\ (display_of (snd (showTab B b (snd (showTab B a w)))) ("tab_" +:+ t) = Some "block"
        <-> t = b).
Proof.
  intros Ha Hb Htabs t Ht.
  destruct (showTab_facts B a w Ha Htabs) as (_ & _ & _ & _ & Htabs').
  destruct (showTab_facts B b _ Hb Htabs') as (_ & Hd & _).
  rewrite (Hd t Ht). unfold visibility. split; [reflexivity|].
  destruct (String.eqb_spec t b) as [->|Hne]; split; easy.
Qed.
End Markup.

(** An owner whose name holds markup. *)
Lemma rows_print_values_verbatim_witness :
  Str.contains "<b>Acme</b>"
    (Str.fill Tpl.owner_row ["5/1/2024, 10:00:00 AM"; "<b>Acme</b>"; ""; ""; ""; "o1"])
  = true.
Proof.
  apply (rows_print_values_verbatim (Demo.healthy true) Owners
           [("id", JStr "o1"); ("legal_name", JStr "<b>Acme</b>")] "legal_name").
  - reflexivity.
  - cbv. tauto.
  - reflexivity.
Defined.

(** The vault tab shown after the owners tab, on the page as served. *)
Lemma showTab_last_wins_witness :
  display_of (snd (showTab (Demo.healthy true) "vault"
                     (snd (showTab (Demo.healthy true) "owners" Demo.page)))) "tab_owners"
  = Some "none".
Proof.
  apply (showTab_last_wins (Demo.healthy true) "owners" "vault" Demo.page);
    first [exact page_has_tabs | cbv; tauto].
Defined.

(** ** The ingest *)

Section IngestPayload.
Variable B : browser.

(** [X27] What the ingest sends.  On a page that has the vault form, with at
    least one file chosen, the first thing [vaultUpload] does after clearing
    its alert is to POST a form of six entries in this order: the five text
    fields, each without the white space around it, and under [bundle] the
    first of the chosen files.  No header is set by the script. *)
Theorem ingest_payload w f :
  Forall (has w) vault_form -> chosen_file w = Some f ->
  exists source org tenant schema manifest rest,
    trimmed_of (value_of w "v_source") source
    /\ trimmed_of (value_of w "v_org") org
    /\ trimmed_of (value_of w "v_tenant") tenant
    /\ trimmed_of (value_of w "v_schema") schema
    /\ trimmed_of (value_of w "v_manifest") manifest
    /\ events (snd (vaultUpload B w))
       = events w
         ++ Fetched
              {| url := "/api/vault/ingest";
                 opts :=
                   {| method := Some "POST";
                      headers := [];
                      body :=
                        Form [ ("source_key", Field source); ("org_id", Field org);
                               ("tenant_id", Field tenant); ("schema_version", Field schema);
                               ("manifest_json", Field manifest); ("bundle", Upload f) ] |} |}
            :: rest
    /\ (exists e others, document w !! "v_file" = Some e /\ files e = f :: others).
Proof.
  intros Hform Hfile. present Hform. values.
  exists (Str.trim (value x0)), (Str.trim (value x1)), (Str.trim (value x2)),
    (Str.trim (value x3)), (Str.trim (value x4)).
  assert (Hfirst : exists e others, Some x5 = Some e /\ files e = f :: others).
  { exists x5. destruct (files x5) as [|f' others]; [discriminate Hfile|].
    cbn [head] in Hfile. injection Hfile as ->. now exists others. }
  unfold vaultUpload. do 14 step. rewrite Hfile.
  match goal with
  | |- context [try_catch (fetch B ?p ?o ≫= ?k) ?h ?w1] =>
      destruct (fetch_first B p o k h w1) as [rest Hrest]; [intros; preserved | intros; preserved |]
  end.
  exists rest.
  repeat (split; [apply TrimFacts.trim_trimmed|]).
  split; [exact Hrest | exact Hfirst].
Qed.
End IngestPayload.

(** The vault form as opened, with a padded organisation typed in and a
    file chosen. *)
Lemma ingest_payload_witness :
  exists entries rest,
    events (snd (vaultUpload (Demo.healthy true) Sample.vault_ready))
    = events Sample.vault_ready
      ++ Fetched
           {| url := "/api/vault/ingest";
              opts := {| method := Some "POST"; headers := []; body := Form entries |} |}
        :: rest.
Proof.
  destruct (ingest_payload (Demo.healthy true) Sample.vault_ready Demo.chosen)
    as (source & org & tenant & schema & manifest & rest & _ & _ & _ & _ & _ & H & _).
  - form_on_page.
  - reflexivity.
  - eexists _, rest. exact H.
Defined.

(** The form that goes out for it. *)
Example ingest_sample_form :
  nth_error (events (snd (vaultUpload (Demo.healthy true) Sample.vault_ready))) 1
  = Some (Fetched
            {| url := "/api/vault/ingest";
               opts :=
                 {| method := Some "POST";
                    headers := [];
                    body :=
                      Form [ ("source_key", Field "dossier"); ("org_id", Field "acme");
                             ("tenant_id", Field ""); ("schema_version", Field "");
                             ("manifest_json", Field ""); ("bundle", Upload Demo.chosen) ] |} |}).
Proof. vm_compute. reflexivity. Qed.

(** ** A tab whose list cannot be fetched *)

Lemma detached_document_html {A} (m : js A) w k :
  html_of (snd (detached m w)) k = html_of (snd (m w)) k.
Proof. unfold html_of. now rewrite detached_document. Qed.

Section Unhandled.
Variable B : browser.

(** The render routine of a tab whose list request fails. *)
Lemma render_throws name w e :
  In name tabs -> Forall (has w) tab_ids ->
  fst (api B (list_of name) no_options w) = Throw e ->
  fst (render_of B name w) = Throw e
  /\ events (snd (render_of B name w)) = events w ++ [Fetched (get (list_of name))].
Proof.
  intros Hname Htabs He. unfold tab_ids in Htabs.
  repeat (apply Forall_cons in Htabs; destruct Htabs as [[? ?] Htabs]). clear Htabs.
  destruct Hname as [<-|[<-|[<-|[<-|[]]]]]; cbn [render_of list_of] in *.
  - unfold renderOnboarding. do 4 step.
    change ("/api/admin/onboarding?status="
            +:+ Str.encodeURIComponent (value (input "submitted")) +:+ "&limit=50")
      with onboarding_list.
    erewrite bind_throws by (rewrite <- He; now apply api_result_events).
    rewrite api_world. now split.
  - unfold renderVault. do 2 step. unfold refreshVaultList. fold vault_list.
    erewrite bind_throws by (rewrite <- He; now apply api_result_events).
    rewrite api_world. now split.
  - unfold renderOwners. do 2 step. unfold refreshOwners. fold owners_list.
    erewrite bind_throws by (rewrite <- He; now apply api_result_events).
    rewrite api_world. now split.
  - unfold renderAssets. do 2 step. unfold refreshAssets. fold assets_list.
    erewrite bind_throws by (rewrite <- He; now apply api_result_events).
    rewrite api_world. now split.
Qed.

(** [X28] A tab whose list cannot be fetched.  When the list request of the
    tab fails, [showTab] still returns normally: the failure of the render
    routine, which nobody awaits, is an unhandled rejection.  All that
    happened is the list request and this rejection; the tab shows its
    template as laid out, and the element of its table is empty. *)
Theorem render_failure_is_unhandled name w e :
  In name tabs -> Forall (has w) tab_ids ->
  fst (api B (list_of name) no_options w) = Throw e ->
  fst (showTab B name w) = Normal tt
  /\ events (snd (showTab B name w))
     = events w ++ [Fetched (get (list_of name)); Unhandled e]
  /\ html_of (snd (showTab B name w)) ("tab_" +:+ name) = Some (page_of name)
  /\ html_of (snd (showTab B name w)) (cell_of_tab name) = Some "".
Proof.
  intros Hname Htabs He.
  destruct (showTab_facts B name w Hname Htabs) as (Hn & _ & Hpage & _).
  split; [exact Hn|]. split; [|split; [exact Hpage|]].
  - destruct (switched_spec name w Htabs) as (_ & _ & Hev & _ & Htabs').
    rewrite (showTab_render B name w Hname Htabs).
    destruct (render_throws name (switched name w) e Hname Htabs') as [Hr Hevr].
    { rewrite <- He. now apply api_result_events. }
    unfold detached.
    destruct (render_of B name (switched name w)) as [[a|e'] w2]; cbn [fst snd] in *;
      [discriminate Hr|].
    apply Throw_inj in Hr. subst e'. cbn [events record].
    now rewrite Hevr, Hev, <- app_assoc.
  - destruct (switched_spec name w Htabs) as (_ & _ & Hev & _ & Htabs').
    rewrite (showTab_render B name w Hname Htabs), detached_document_html.
    unfold tab_ids in Htabs'.
    repeat (apply Forall_cons in Htabs'; destruct Htabs' as [[? ?] Htabs']). clear Htabs'.
    assert (He' : fst (api B (list_of name) no_options (switched name w)) = Throw e)
      by (rewrite <- He; now apply api_result_events).
    destruct Hname as [<-|[<-|[<-|[<-|[]]]]]; cbn [render_of list_of cell_of_tab] in *.
    + unfold renderOnboarding. do 4 step.
      change ("/api/admin/onboarding?status="
              +:+ Str.encodeURIComponent (value (input "submitted")) +:+ "&limit=50")
        with onboarding_list.
      erewrite bind_throws by (rewrite <- He'; now apply api_result_events).
      rewrite api_world. unfold html_of. found.
    + unfold renderVault. do 2 step. unfold refreshVaultList. fold vault_list.
      erewrite bind_throws by (rewrite <- He'; now apply api_result_events).
      rewrite api_world. unfold html_of. found.
    + unfold renderOwners. do 2 step. unfold refreshOwners. fold owners_list.
      erewrite bind_throws by (rewrite <- He'; now apply api_result_events).
      rewrite api_world. unfold html_of. found.
    + unfold renderAssets. do 2 step. unfold refreshAssets. fold assets_list.
      erewrite bind_throws by (rewrite <- He'; now apply api_result_events).
      rewrite api_world. unfold html_of. found.
Qed.
End Unhandled.

(** The vault tab shown against the server that fails. *)
Lemma render_failure_is_unhandled_witness :
  events (snd (showTab Demo.broken_server "vault" Demo.page))
  = [Fetched (get vault_list); Unhandled (Error "HTTP 500")]
  /\ html_of (snd (showTab Demo.broken_server "vault" Demo.page)) "v_table" = Some "".
Proof.
  destruct (render_failure_is_unhandled Demo.broken_server "vault" Demo.page (Error "HTTP 500"))
    as (_ & H1 & _ & H2); [cbv; tauto | exact page_has_tabs | reflexivity |].
  split; [exact H1 | exact H2].
Defined.
